(** * jpyc-map-app: nearby-shop search and the registration wizards

    A shallow embedding of the client-side logic of the JPYC service map:
    the haversine distance and the nearby filter of [ShopsTab.tsx], and the
    three-step registration wizards of [ShopRegistrationForm.tsx] and
    [OnlineMerchantRegistrationForm.tsx], followed by the properties the
    specification states about them.

    Modelling conventions.
    - A JavaScript [number] that holds a coordinate, a distance or a radius is
      an IEEE 754 double, a primitive [float], with the rounding, the
      infinities and [NaN] of the code. [Math.sin], [Math.cos] and
      [Math.atan2], which ECMA-262 leaves to the engine, are parameters. A
      [number] that holds a counter or the wizard step is an integer of [Z].
    - A JavaScript string is the sequence of bytes of its UTF-8 encoding.
    - [T | null] is [option T]; arrays are lists; [push] appends at the end.
    - A React component is its state record; an event handler is a function
      on that record. The [await] inside [handleSubmit] splits the handler in
      the part that runs on the click and the part that runs when the insert
      settles. *)

From Stdlib Require Import List String Ascii Bool ZArith NArith Lia Floats.
From Stdlib Require Import Sorting.Sorted Sorting.Permutation.
Import ListNotations.

Open Scope string_scope.

(* A decimal literal such as 35.6812 denotes the double nearest to it, as it
   does in JavaScript. *)
Set Warnings "-inexact-float".

(* ================================================================== *)
(** * Part I.  The program                                             *)
(* ================================================================== *)

(** ** IEEE 754 binary64

    The primitive [float] comes with its specification [Prim2SF] into sign,
    mantissa and exponent. The definitions of this module read that
    specification; they serve the proofs about the order of the doubles and
    about rounding. *)

Module IEEE.

(** A double that is not [NaN], as an integer multiple of 2^-1074. The
    largest finite double is below 2^2098 such units; the infinities are put
    at 2^2099. *)
Definition SFval (x : spec_float) : option Z :=
  match x with
  | S754_nan => None
  | S754_zero _ => Some 0%Z
  | S754_infinity s => Some (cond_Zopp s (2 ^ 2099))%Z
  | S754_finite s m e => Some (cond_Zopp s (Zpos m * 2 ^ (e + 1074)))%Z
  end.

(** The exponent of the format, for a number of magnitude 2^k. *)
Definition fexp64 (k : Z) : Z := Z.max (k - 53) (-1074).

(** Zero, or finite with an exponent of at most [K]. *)
Definition small (K : Z) (x : spec_float) : Prop :=
  match x with
  | S754_zero _ => True
  | S754_finite _ _ e => (e <= K)%Z
  | _ => False
  end.

End IEEE.

(** ** The JavaScript operations the components rely on *)

Module JS.

(** [!s] on a string: only the empty string is falsy. *)
Definition truthy (s : string) : bool :=
  match s with EmptyString => false | String _ _ => true end.

(** [a || null]. *)
Definition orNull (s : string) : option string :=
  if truthy s then Some s else None.

(** [arr.includes(v)] on an array of strings. *)
Definition includes (arr : list string) (v : string) : bool :=
  existsb (fun x => String.eqb x v) arr.

(** [arr.push(v)] seen as a function of the array. *)
Definition push {A : Type} (arr : list A) (v : A) : list A := arr ++ [v].

(** *** [String.prototype.trim]

    The code points ECMAScript strips are WhiteSpace (TAB, VT, FF, SP,
    NBSP, ZWNBSP and the category Zs) and LineTerminator (LF, CR, LS, PS).
    On the UTF-8 bytes they are the one-byte, two-byte and three-byte
    sequences below. *)

Definition ws1 (b : N) : bool :=
  ((9 <=? b) && (b <=? 13) || (b =? 32))%N.

Definition ws2 (b0 b1 : N) : bool :=
  ((b0 =? 0xC2) && (b1 =? 0xA0))%N.

Definition ws3 (b0 b1 b2 : N) : bool :=
  ((b0 =? 0xE1) && (b1 =? 0x9A) && (b2 =? 0x80)          (* U+1680 *)
   || (b0 =? 0xE2) && (b1 =? 0x80)
      && ((0x80 <=? b2) && (b2 <=? 0x8A)                 (* U+2000-200A *)
          || (b2 =? 0xA8) || (b2 =? 0xA9)                (* U+2028, 2029 *)
          || (b2 =? 0xAF))                               (* U+202F *)
   || (b0 =? 0xE2) && (b1 =? 0x81) && (b2 =? 0x9F)       (* U+205F *)
   || (b0 =? 0xE3) && (b1 =? 0x80) && (b2 =? 0x80)       (* U+3000 *)
   || (b0 =? 0xEF) && (b1 =? 0xBB) && (b2 =? 0xBF))%N.   (* U+FEFF *)

(** The bytes left after one white-space code point at the head. *)
Definition dropOneStart (l : list N) : option (list N) :=
  match l with
  | b0 :: r0 =>
      if ws1 b0 then Some r0 else
      match r0 with
      | b1 :: r1 =>
          if ws2 b0 b1 then Some r1 else
          match r1 with
          | b2 :: r2 => if ws3 b0 b1 b2 then Some r2 else None
          | [] => None
          end
      | [] => None
      end
  | [] => None
  end.

(** The same on the reversed bytes: one white-space code point at the end. *)
Definition dropOneEnd (l : list N) : option (list N) :=
  match l with
  | b0 :: r0 =>
      if ws1 b0 then Some r0 else
      match r0 with
      | b1 :: r1 =>
          if ws2 b1 b0 then Some r1 else
          match r1 with
          | b2 :: r2 => if ws3 b2 b1 b0 then Some r2 else None
          | [] => None
          end
      | [] => None
      end
  | [] => None
  end.

Fixpoint dropWhile (one : list N -> option (list N)) (fuel : nat) (l : list N)
  : list N :=
  match fuel with
  | O => l
  | S k => match one l with
           | Some r => dropWhile one k r
           | None => l
           end
  end.

Definition bytes (s : string) : list N :=
  map N_of_ascii (list_ascii_of_string s).

Definition ofBytes (l : list N) : string :=
  string_of_list_ascii (map ascii_of_N l).

Definition trim (s : string) : string :=
  let l := bytes s in
  let l1 := dropWhile dropOneStart (List.length l) l in
  let l2 := dropWhile dropOneEnd (List.length l1) (rev l1) in
  ofBytes (rev l2).

(** *** Numbers

    A [number] is an IEEE 754 binary64 value, a primitive [float]: [+], [-],
    [*], [/], [Math.sqrt] and the comparisons are the IEEE operations, with
    [NaN], the two infinities and the two zeros. [a <= b], [a < b] and
    [a === b] are [<=?], [<?] and [=?]; each is [false] when an operand is
    [NaN]. *)

(** The order of the doubles: a double that is not [NaN] as an integer
    multiple of 2^-1074, the infinities placed beyond every finite double. *)
Definition val (x : float) : option Z := IEEE.SFval (Prim2SF x).

(** [x] is [+0], a positive number or [+Infinity]: its sign bit is clear. *)
Definition plus (x : float) : bool :=
  match classify x with
  | PZero | PSubn | PNormal | PInf => true
  | _ => false
  end.

(** [Math]. ECMA-262 (21.3.2) gives [Math.sin], [Math.cos] and [Math.atan2]
    as implementation-approximated values, so an engine is a choice of the
    three functions; [Math.PI] is the double nearest to pi, and [Math.sqrt]
    is the correctly rounded square root of IEEE 754, as the engines compute
    it: [NaN] below zero. *)
Module Math.

Record t := {
  sin : float -> float;
  cos : float -> float;
  atan2 : float -> float -> float
}.

Definition PI : float := 0x1.921fb54442d18p+1.

Definition sqrt (x : float) : float := PrimFloat.sqrt x.

(** What ECMA-262 fixes of the three functions, as far as the code below
    depends on it: the sine of [+0] is [+0], the angle of a point on the
    positive x-axis is [+0], and a [NaN] argument gives [NaN]. *)
Record ecma262 (M : t) : Prop := {
  sin_zero : sin M 0 = 0%float;
  atan2_zero : forall x, (0 <? x)%float = true -> atan2 M 0 x = 0%float;
  atan2_nan : forall y x,
      is_nan y || is_nan x = true -> is_nan (atan2 M y x) = true
}.

(** The ranges of the functions approximated, which every engine keeps: a
    cosine of a finite number lies in [-1, 1], and the angle of a point of
    the upper half plane, where [y] has its sign bit clear, is [+0] or
    positive. *)
Record in_range (M : t) : Prop := {
  cos_range : forall x,
      is_finite x = true -> (abs (cos M x) <=? 1)%float = true;
  atan2_sign : forall y x,
      plus y || is_nan y = true ->
      plus (atan2 M y x) || is_nan (atan2 M y x) = true
}.

End Math.

(** *** [Array.prototype.sort(compareFn)]

    ECMAScript requires the sort to be stable: [a] is placed before [b]
    when [compareFn(a, b) < 0], after it when [compareFn(a, b) > 0], and
    elements that compare equal keep their relative order; a comparator
    value of [NaN] counts as [0]. With a consistent comparator that fixes the
    result; it is computed here by a stable insertion, from the right end of
    the array. *)

Section ArraySort.
Context {A : Type} (compareFn : A -> A -> float).

Fixpoint insert (x : A) (l : list A) : list A :=
  match l with
  | [] => [x]
  | y :: l' =>
      if (0 <? compareFn x y)%float then y :: insert x l' else x :: y :: l'
  end.

Definition Array_sort (l : list A) : list A := fold_right insert [] l.
End ArraySort.

(** *** Strings and sets *)

(** [s.includes(search)] on strings: [search] occurs somewhere in [s]. *)
Fixpoint String_includes (s search : string) : bool :=
  if String.prefix search s then true
  else match s with
       | EmptyString => false
       | String _ s' => String_includes s' search
       end.

(** [set.add(v)] and [Array.from(new Set(arr))]: a set keeps its values in
    the order they were first added. *)
Definition Set_add (set : list string) (v : string) : list string :=
  if includes set v then set else set ++ [v].

Definition Array_from_Set (arr : list string) : list string :=
  fold_left Set_add arr [].

(** [arr.filter(Boolean)] on an array of [string | null], read as strings. *)
Fixpoint filter_Boolean (arr : list (option string)) : list string :=
  match arr with
  | [] => []
  | Some v :: arr' => if truthy v then v :: filter_Boolean arr' else filter_Boolean arr'
  | None :: arr' => filter_Boolean arr'
  end.

End JS.

(** ** [types/index.ts] *)

Inductive Status := pending | approved | rejected.

Module Shop.
Record t := {
  id : string;
  name : string;
  address : string;
  lat : float;
  lng : float;
  jpyc_networks : option (list string);
  payment_methods : option (list string);
  url : option string;
  tags : option (list string);
  status : Status;
  created_by : option string;
  upvotes : Z;
  downvotes : Z;
  created_at : string;
  updated_at : string
}.
End Shop.

Module Location.
Record t := { lat : float; lng : float }.
End Location.

Module OnlineMerchant.
Record t := {
  id : string;
  name : string;
  description : option string;
  service_type : option string;
  url : string;
  platforms : option (list string);
  jpyc_use_case : option string;
  country : option string;
  tags : option (list string);
  status : Status;
  created_by : option string;
  created_at : string;
  updated_at : string
}.
End OnlineMerchant.

(** How [await supabase.from(table).select('*').eq('status', 'approved')]
    settles: the promise resolves to [{ data, error }], or it rejects. *)
Inductive SelectOutcome (A : Type) :=
| SelectResolved (data : option (list A)) (error : option string)
| SelectRejected (reason : string).

Arguments SelectResolved {A}.
Arguments SelectRejected {A}.

(** What a tab renders: the spinner while [loading], the error panel when
    [error] is set, the content otherwise. *)
Inductive TabScreen :=
| Spinner
| ErrorPanel (message : string)
| Content.

(** ** [components/ShopsTab.tsx] *)

Module ShopsTab.

Local Open Scope float_scope.

(** The distance between two points, by the haversine formula, in km. *)
Definition calculateDistance (M : JS.Math.t) (lat1 lng1 lat2 lng2 : float) : float :=
  let R := 6371 in
  let dLat := ((lat2 - lat1) * JS.Math.PI) / 180 in
  let dLng := ((lng2 - lng1) * JS.Math.PI) / 180 in
  let a :=
    JS.Math.sin M (dLat / 2) * JS.Math.sin M (dLat / 2) +
    JS.Math.cos M ((lat1 * JS.Math.PI) / 180) *
      JS.Math.cos M ((lat2 * JS.Math.PI) / 180) *
      JS.Math.sin M (dLng / 2) *
      JS.Math.sin M (dLng / 2) in
  let c := 2 * JS.Math.atan2 M (JS.Math.sqrt a) (JS.Math.sqrt (1 - a)) in
  R * c.

(** The local [a] of [calculateDistance], on its own: the haversine of
    the central angle between the two points, as the doubles give it. *)
Definition haversine (M : JS.Math.t) (lat1 lng1 lat2 lng2 : float) : float :=
  JS.Math.sin M ((((lat2 - lat1) * JS.Math.PI) / 180) / 2)
  * JS.Math.sin M ((((lat2 - lat1) * JS.Math.PI) / 180) / 2) +
  JS.Math.cos M ((lat1 * JS.Math.PI) / 180) *
    JS.Math.cos M ((lat2 * JS.Math.PI) / 180) *
    JS.Math.sin M ((((lng2 - lng1) * JS.Math.PI) / 180) / 2) *
    JS.Math.sin M ((((lng2 - lng1) * JS.Math.PI) / 180) / 2).

(** [{ ...shop, distance }]: a shop with the extra key [distance]. *)
Record ShopWithDistance := { shop : Shop.t; distance : float }.

(** The geolocation effect. [userLocation] starts as [null]; the effect
    stores a location once: the position reported, or Tokyo Station when
    the request fails or the browser has no geolocation. *)
Definition initialUserLocation : option Location.t := None.

Definition tokyoStation : Location.t :=
  {| Location.lat := 35.6812; Location.lng := 139.7671 |}.

Inductive GeolocationOutcome :=
| PositionReported (latitude longitude : float)
| PositionFailed
| GeolocationMissing.

Definition setUserLocation (outcome : GeolocationOutcome) : option Location.t :=
  match outcome with
  | PositionReported latitude longitude =>
      Some {| Location.lat := latitude; Location.lng := longitude |}
  | PositionFailed | GeolocationMissing => Some tokyoStation
  end.

(** The callback of [map]:
    [(shop) => ({ ...shop, distance: calculateDistance(userLocation.lat,
    userLocation.lng, shop.lat, shop.lng) })]. *)
Definition withDistance (M : JS.Math.t) (userLocation : Location.t) (shop : Shop.t)
  : ShopWithDistance :=
  {| shop := shop;
     distance :=
       calculateDistance M (Location.lat userLocation) (Location.lng userLocation)
                         (Shop.lat shop) (Shop.lng shop) |}.

(** The memoised value [nearbyShops], as a function of its dependencies
    [shops], [userLocation] and [searchRadius]. Its TypeScript type is the
    union of the two array types. *)
Definition nearbyShops (M : JS.Math.t) (shops : list Shop.t)
           (userLocation : option Location.t) (searchRadius : float)
  : list Shop.t + list ShopWithDistance :=
  match userLocation with
  | None => inl shops
  | Some userLocation =>
      inr (JS.Array_sort (fun a b => distance a - distance b)
             (filter (fun shop => distance shop <=? searchRadius)
                (map (withDistance M userLocation) shops)))
  end.

(** The cells the fetch effect writes. *)
Module Cells.
Record t := { shops : list Shop.t; loading : bool; error : option string }.
End Cells.

Definition initialCells : Cells.t :=
  {| Cells.shops := []; Cells.loading := true; Cells.error := None |}.

Definition USE_DUMMY_DATA : bool := false.

(** [fetchShops], run to completion. [dummyShops] is the array of
    [lib/dummyData]; [supabase] is the client, seen through the one query the
    tab makes, or [null]. *)
Definition fetchShops (dummyShops : list Shop.t)
           (supabase : option (SelectOutcome Shop.t)) (s : Cells.t) : Cells.t :=
  let s := {| Cells.shops := Cells.shops s; Cells.loading := true;
              Cells.error := Cells.error s |} in
  let s :=
    match USE_DUMMY_DATA, supabase with
    | false, Some (SelectResolved data None) =>
        {| Cells.shops := match data with Some rows => rows | None => [] end;
           Cells.loading := Cells.loading s; Cells.error := Cells.error s |}
    | false, Some (SelectResolved _ (Some _))
    | false, Some (SelectRejected _) =>
        {| Cells.shops := Cells.shops s; Cells.loading := Cells.loading s;
           Cells.error := Some "店舗データの取得に失敗しました" |}
    | _, _ =>
        {| Cells.shops := dummyShops; Cells.loading := Cells.loading s;
           Cells.error := Cells.error s |}
    end in
  {| Cells.shops := Cells.shops s; Cells.loading := false;
     Cells.error := Cells.error s |}.

(** The early returns of the component: [if (loading)], [if (error)]. *)
Definition screen (s : Cells.t) : TabScreen :=
  if Cells.loading s then Spinner
  else match Cells.error s with
       | Some message => if JS.truthy message then ErrorPanel message else Content
       | None => Content
       end.

(** What the list shows once a location is stored: the view of the cells. *)
Definition listed (M : JS.Math.t) (s : Cells.t) (userLocation : option Location.t)
           (searchRadius : float) : list Shop.t + list ShopWithDistance :=
  nearbyShops M (Cells.shops s) userLocation searchRadius.

End ShopsTab.

(** ** [components/OnlineMerchantsTab.tsx] *)

Module OnlineMerchantsTab.

Module Cells.
Record t := {
  merchants : list OnlineMerchant.t;
  loading : bool;
  error : option string
}.
End Cells.

Definition initialCells : Cells.t :=
  {| Cells.merchants := []; Cells.loading := true; Cells.error := None |}.

Definition USE_DUMMY_DATA : bool := false.

(** [fetchMerchants], run to completion; as [ShopsTab.fetchShops]. *)
Definition fetchMerchants (dummyOnlineMerchants : list OnlineMerchant.t)
           (supabase : option (SelectOutcome OnlineMerchant.t)) (s : Cells.t)
  : Cells.t :=
  let s := {| Cells.merchants := Cells.merchants s; Cells.loading := true;
              Cells.error := Cells.error s |} in
  let s :=
    match USE_DUMMY_DATA, supabase with
    | false, Some (SelectResolved data None) =>
        {| Cells.merchants := match data with Some rows => rows | None => [] end;
           Cells.loading := Cells.loading s; Cells.error := Cells.error s |}
    | false, Some (SelectResolved _ (Some _))
    | false, Some (SelectRejected _) =>
        {| Cells.merchants := Cells.merchants s; Cells.loading := Cells.loading s;
           Cells.error := Some "オンライン事業者データの取得に失敗しました" |}
    | _, _ =>
        {| Cells.merchants := dummyOnlineMerchants;
           Cells.loading := Cells.loading s; Cells.error := Cells.error s |}
    end in
  {| Cells.merchants := Cells.merchants s; Cells.loading := false;
     Cells.error := Cells.error s |}.

Definition screen (s : Cells.t) : TabScreen :=
  if Cells.loading s then Spinner
  else match Cells.error s with
       | Some message => if JS.truthy message then ErrorPanel message else Content
       | None => Content
       end.

(** The list of service types offered by the select, after the entry
    ["all"]: the distinct non-empty [service_type] values, in the order of
    their first merchant. *)
Definition serviceTypes (merchants : list OnlineMerchant.t) : list string :=
  JS.Array_from_Set
    (JS.filter_Boolean (map OnlineMerchant.service_type merchants)).

Section Filtering.

(** [String.prototype.toLowerCase], which follows the Unicode case mapping
    tables; the filter is defined for any such function. *)
Variable toLowerCase : string -> string.

(** The callback of [merchants.filter]. [x?.f()] is [undefined], hence
    falsy, when [x] is [null]. *)
Definition matches (searchQuery selectedServiceType : string)
           (merchant : OnlineMerchant.t) : bool :=
  let matchesSearch :=
    negb (JS.truthy searchQuery)
    || JS.String_includes (toLowerCase (OnlineMerchant.name merchant))
                          (toLowerCase searchQuery)
    || match OnlineMerchant.description merchant with
       | Some description =>
           JS.String_includes (toLowerCase description) (toLowerCase searchQuery)
       | None => false
       end
    || match OnlineMerchant.tags merchant with
       | Some tags =>
           existsb (fun tag => JS.String_includes (toLowerCase tag)
                                                  (toLowerCase searchQuery))
                   tags
       | None => false
       end in
  let matchesType :=
    String.eqb selectedServiceType "all"
    || match OnlineMerchant.service_type merchant with
       | Some service_type => String.eqb service_type selectedServiceType
       | None => false
       end in
  matchesSearch && matchesType.

Definition filteredMerchants (merchants : list OnlineMerchant.t)
           (searchQuery selectedServiceType : string) : list OnlineMerchant.t :=
  filter (matches searchQuery selectedServiceType) merchants.

End Filtering.

End OnlineMerchantsTab.

(** ** What the two registration forms share *)

(** [useAuth().user]: the signed-in user, or [null]. *)
Module User.
Record t := { id : string }.
End User.

(** How [await supabase.from(table).insert(row)] settles: the promise
    resolves to an object whose [error] is [null] or an error, or it rejects. *)
Inductive InsertOutcome :=
| Resolved (error : option string)
| Rejected (reason : string).

(** The [useState] cells of a registration form; [F] is the form data. *)
Record State (F : Type) := mkState {
  step : Z;
  formData : F;
  confirmed : bool;
  submitting : bool;
  submitted : bool;
  error : option string
}.

Arguments mkState {F}.
Arguments step {F}.
Arguments formData {F}.
Arguments confirmed {F}.
Arguments submitting {F}.
Arguments submitted {F}.
Arguments error {F}.

Section Setters.
Context {F : Type}.

Definition setStep (v : Z) (s : State F) : State F :=
  mkState v (formData s) (confirmed s) (submitting s) (submitted s) (error s).
Definition setFormData (v : F) (s : State F) : State F :=
  mkState (step s) v (confirmed s) (submitting s) (submitted s) (error s).
Definition setConfirmed (v : bool) (s : State F) : State F :=
  mkState (step s) (formData s) v (submitting s) (submitted s) (error s).
Definition setSubmitting (v : bool) (s : State F) : State F :=
  mkState (step s) (formData s) (confirmed s) v (submitted s) (error s).
Definition setSubmitted (v : bool) (s : State F) : State F :=
  mkState (step s) (formData s) (confirmed s) (submitting s) v (error s).
Definition setError (v : option string) (s : State F) : State F :=
  mkState (step s) (formData s) (confirmed s) (submitting s) (submitted s) v.
End Setters.

(** The states of the wizard as the specification names them, read off the
    cells the way the components render them: the success screen replaces the
    form once [submitted] is set, and the submit button shows the sending
    label while [submitting] is set. *)
Inductive Phase :=
| STEP_1_BASIC | STEP_2_DOMAIN | STEP_3_CONFIRM | SUBMITTING | SUBMITTED
| NoPane.

Definition phase {F : Type} (s : State F) : Phase :=
  if submitted s then SUBMITTED
  else if submitting s then SUBMITTING
  else if (step s =? 1)%Z then STEP_1_BASIC
  else if (step s =? 2)%Z then STEP_2_DOMAIN
  else if (step s =? 3)%Z then STEP_3_CONFIRM
  else NoPane.

(** The "other" entry of the option lists. *)
Definition sonota : string := "その他".

(** The line feed of the template literals. *)
Definition LF : string := String (ascii_of_N 10) EmptyString.

(** ** [components/ShopRegistrationForm.tsx] *)

Module ShopRegistrationForm.

Definition CATEGORIES : list string :=
  ["カフェ"; "レストラン"; "バー"; "ショップ"; "イベントスペース"; "その他"].

Definition JPYC_USE_CASES : list string :=
  ["店頭決済"; "チケット・イベント代"; "物販"; "投げ銭 / チップ"].

Definition NETWORKS : list string := ["Polygon"; "Ethereum"; "その他"].

Definition PAYMENT_METHODS : list string :=
  ["ウォレット送金"; "QRコード決済"; "店舗側専用アプリ"].

Module ShopFormData.
Record t := {
  (* STEP1 *)
  name : string;
  address : string;
  category : string;
  lat : float;
  lng : float;
  (* STEP2 *)
  jpycUseCases : list string;
  jpycUseCaseOther : string;
  networks : list string;
  networkOther : string;
  paymentMethod : string;
  url : string;
  twitter : string;
  note : string
}.
End ShopFormData.
Import ShopFormData.

Definition initialFormData : ShopFormData.t := {|
  name := ""; address := ""; category := "";
  lat := 35.6812; lng := 139.7671;
  jpycUseCases := []; jpycUseCaseOther := "";
  networks := []; networkOther := "";
  paymentMethod := ""; url := ""; twitter := ""; note := ""
|}.

Definition initialState : State ShopFormData.t :=
  mkState 1%Z initialFormData false false false None.

(** [{ ...prev, lat, lng }] *)
Definition handleMapClick (lat' lng' : float) (prev : ShopFormData.t) : ShopFormData.t :=
  {| name := name prev; address := address prev; category := category prev;
     lat := lat'; lng := lng';
     jpycUseCases := jpycUseCases prev; jpycUseCaseOther := jpycUseCaseOther prev;
     networks := networks prev; networkOther := networkOther prev;
     paymentMethod := paymentMethod prev; url := url prev;
     twitter := twitter prev; note := note prev |}.

(** The [name] attributes of the inputs wired to [handleInputChange]. *)
Inductive InputName :=
| n_name | n_address | n_category | n_jpycUseCaseOther | n_networkOther
| n_paymentMethod | n_url | n_twitter | n_note.

(** [{ ...prev, [name]: value }] *)
Definition handleInputChange (nm : InputName) (value : string)
           (prev : ShopFormData.t) : ShopFormData.t :=
  {| name := match nm with n_name => value | _ => name prev end;
     address := match nm with n_address => value | _ => address prev end;
     category := match nm with n_category => value | _ => category prev end;
     lat := lat prev; lng := lng prev;
     jpycUseCases := jpycUseCases prev;
     jpycUseCaseOther :=
       match nm with n_jpycUseCaseOther => value | _ => jpycUseCaseOther prev end;
     networks := networks prev;
     networkOther :=
       match nm with n_networkOther => value | _ => networkOther prev end;
     paymentMethod :=
       match nm with n_paymentMethod => value | _ => paymentMethod prev end;
     url := match nm with n_url => value | _ => url prev end;
     twitter := match nm with n_twitter => value | _ => twitter prev end;
     note := match nm with n_note => value | _ => note prev end |}.

Inductive CheckboxField := f_jpycUseCases | f_networks.

(** Toggle [value] in the list: drop it when present, append it otherwise. *)
Definition toggle (current : list string) (value : string) : list string :=
  if JS.includes current value
  then filter (fun v => negb (String.eqb v value)) current
  else current ++ [value].

Definition handleCheckboxChange (field : CheckboxField) (value : string)
           (prev : ShopFormData.t) : ShopFormData.t :=
  {| name := name prev; address := address prev; category := category prev;
     lat := lat prev; lng := lng prev;
     jpycUseCases :=
       match field with
       | f_jpycUseCases => toggle (jpycUseCases prev) value
       | f_networks => jpycUseCases prev
       end;
     jpycUseCaseOther := jpycUseCaseOther prev;
     networks :=
       match field with
       | f_networks => toggle (networks prev) value
       | f_jpycUseCases => networks prev
       end;
     networkOther := networkOther prev;
     paymentMethod := paymentMethod prev; url := url prev;
     twitter := twitter prev; note := note prev |}.

Definition ShopState := State ShopFormData.t.

(** The validators set the error cell and return whether the step passes. *)
Definition validateStep1 (s : ShopState) : bool * ShopState :=
  if negb (JS.truthy (JS.trim (name (formData s)))) then
    (false, setError (Some "店舗名を入力してください") s)
  else if negb (JS.truthy (JS.trim (address (formData s)))) then
    (false, setError (Some "住所を入力してください") s)
  else if negb (JS.truthy (category (formData s))) then
    (false, setError (Some "カテゴリを選択してください") s)
  else (true, setError None s).

Definition validateStep2 (s : ShopState) : bool * ShopState :=
  if (List.length (jpycUseCases (formData s)) =? 0)%nat
     && negb (JS.truthy (JS.trim (jpycUseCaseOther (formData s)))) then
    (false, setError (Some "JPYCの使い方を1つ以上選択してください") s)
  else if (List.length (networks (formData s)) =? 0)%nat
          && negb (JS.truthy (JS.trim (networkOther (formData s)))) then
    (false, setError (Some "対応ネットワークを1つ以上選択してください") s)
  else if negb (JS.truthy (paymentMethod (formData s))) then
    (false, setError (Some "支払い方法を選択してください") s)
  else (true, setError None s).

(** [if (step === 1 && validateStep1()) ... else if (step === 2 && ...)]:
    when step 1 fails to validate, the second test reads the same [step]
    and is false. *)
Definition nextStep (s : ShopState) : ShopState :=
  if (step s =? 1)%Z then
    let (ok, s1) := validateStep1 s in
    if ok then setStep 2 s1 else s1
  else if (step s =? 2)%Z then
    let (ok, s2) := validateStep2 s in
    if ok then setStep 3 s2 else s2
  else s.

Definition prevStep (s : ShopState) : ShopState :=
  let s := setError None s in
  setStep (step s - 1) s.

(** The object literal handed to [supabase.from('shops').insert]. *)
Module Row.
Record t := {
  name : string;
  address : string;
  lat : float;
  lng : float;
  jpyc_networks : list string;
  payment_methods : list string;
  url : option string;
  tags : list string;
  status : string;
  created_by : string;
  upvotes : Z;
  downvotes : Z
}.
End Row.

(** The body of the [try] block up to the insert call. The merged list
    [jpycUseCases'] is built as in the source and, as in the source, no key
    of the row refers to it. *)
Definition insertRow (formData : ShopFormData.t) (user : User.t) : Row.t :=
  let tags := [category formData] in
  let jpycUseCases' :=
    if JS.truthy (JS.trim (jpycUseCaseOther formData))
    then JS.push (jpycUseCases formData) (JS.trim (jpycUseCaseOther formData))
    else jpycUseCases formData in
  let networks' := filter (fun n => negb (String.eqb n sonota)) (networks formData) in
  let networks' :=
    if JS.includes (networks formData) sonota
       && JS.truthy (JS.trim (networkOther formData))
    then JS.push networks' (JS.trim (networkOther formData))
    else networks' in
  {| Row.name := JS.trim (name formData);
     Row.address := JS.trim (address formData);
     Row.lat := lat formData;
     Row.lng := lng formData;
     Row.jpyc_networks := networks';
     Row.payment_methods := [paymentMethod formData];
     Row.url := JS.orNull (JS.trim (url formData));
     Row.tags := tags;
     Row.status := "pending";
     Row.created_by := User.id user;
     Row.upvotes := 0;
     Row.downvotes := 0 |}.

(** The client, seen through [from('shops').insert]. *)
Definition SupabaseClient := Row.t -> InsertOutcome.

(** [handleSubmit] up to the [await]: the new state and the insert call
    issued, if any. *)
Definition handleSubmit_click (user : option User.t)
           (supabase : option SupabaseClient) (s : ShopState)
  : ShopState * option Row.t :=
  if negb (confirmed s) then
    (setError (Some "確認チェックを入れてください") s, None)
  else match user with
  | None => (setError (Some "ログインが必要です") s, None)
  | Some user =>
    match supabase with
    | None => (setError (Some "Supabaseが設定されていません") s, None)
    | Some _ =>
        let s := setSubmitting true s in
        let s := setError None s in
        (s, Some (insertRow (formData s) user))
    end
  end.

(** [handleSubmit] after the [await]: [throw] on an error, [catch],
    [finally]. *)
Definition handleSubmit_settled (outcome : InsertOutcome) (s : ShopState)
  : ShopState :=
  let s :=
    match outcome with
    | Resolved None => setSubmitted true s
    | Resolved (Some _) | Rejected _ =>
        setError (Some "登録に失敗しました。もう一度お試しください。") s
    end in
  setSubmitting false s.

(** [handleSubmit] run to completion, with the list of insert calls made. *)
Definition handleSubmit (user : option User.t)
           (supabase : option SupabaseClient) (s : ShopState)
  : ShopState * list Row.t :=
  match handleSubmit_click user supabase s, supabase with
  | (s1, Some row), Some client => (handleSubmit_settled (client row) s1, [row])
  | (s1, _), _ => (s1, [])
  end.

Definition resetForm (s : ShopState) : ShopState :=
  let s := setFormData initialFormData s in
  let s := setStep 1 s in
  let s := setConfirmed false s in
  let s := setSubmitted false s in
  setError None s.

(** The networks on the confirmation pane of step 3: the items of
    [formData.networks.map((n) => (n === 'その他' ? formData.networkOther : n))
    .filter(Boolean)], which the pane joins with [', ']. *)
Definition networksShown (formData : ShopFormData.t) : list string :=
  filter JS.truthy
    (map (fun n => if String.eqb n sonota then networkOther formData else n)
       (networks formData)).

(** The use cases on the same pane: the items of
    [[...formData.jpycUseCases, formData.jpycUseCaseOther].filter(Boolean)],
    joined with [', ']. *)
Definition jpycUseCasesShown (formData : ShopFormData.t) : list string :=
  filter JS.truthy (jpycUseCases formData ++ [jpycUseCaseOther formData]).

(** The rows the pane adds under [formData.twitter && ...] and
    [formData.note && ...]: the text, when it is not empty. *)
Definition twitterShown (formData : ShopFormData.t) : option string :=
  JS.orNull (twitter formData).

Definition noteShown (formData : ShopFormData.t) : option string :=
  JS.orNull (note formData).

(** *** The component as a transition system

    What the user and the environment can do next is what the render of
    the current state offers: the success screen with its reset button once
    [submitted] is set; otherwise the pane of the current step, the back
    button when [step > 1], the next button when [step < 3] and else the
    submit button, disabled while [submitting]. Check boxes and selects
    offer the entries of their option lists. The map is taken as ready,
    and the geolocation callback may fire at any time. *)

Inductive Event :=
| InputChange (nm : InputName) (value : string)
| CheckboxChange (field : CheckboxField) (value : string)
| MapClick (lat' lng' : float)
| PositionObtained (lat' lng' : float)
| ConfirmedChange (checked : bool)
| ClickNext
| ClickBack
| ClickSubmit (user : option User.t) (supabase : option SupabaseClient)
| InsertSettled (outcome : InsertOutcome)
| ClickReset.

(** The component state, whether an insert call is awaited, and the rows of
    the insert calls made so far. *)
Record World := { view : ShopState; awaiting : bool; inserts : list Row.t }.

Definition initialWorld : World :=
  {| view := initialState; awaiting := false; inserts := [] |}.

(** The pane ([step === 1], [step === 2]) each input is rendered in. *)
Definition paneOf (nm : InputName) : Z :=
  match nm with
  | n_name | n_address | n_category => 1
  | _ => 2
  end.

Definition offered (w : World) (e : Event) : bool :=
  let s := view w in
  match e with
  | PositionObtained _ _ => true
  | InsertSettled _ => awaiting w
  | ClickReset => submitted s
  | InputChange nm value =>
      negb (submitted s) && (step s =? paneOf nm)%Z
      && match nm with
         | n_category => negb (JS.truthy value) || JS.includes CATEGORIES value
         | n_paymentMethod =>
             negb (JS.truthy value) || JS.includes PAYMENT_METHODS value
         | n_networkOther => JS.includes (networks (formData s)) sonota
         | _ => true
         end
  | CheckboxChange f_jpycUseCases value =>
      negb (submitted s) && (step s =? 2)%Z && JS.includes JPYC_USE_CASES value
  | CheckboxChange f_networks value =>
      negb (submitted s) && (step s =? 2)%Z && JS.includes NETWORKS value
  | MapClick _ _ => negb (submitted s) && (step s =? 1)%Z
  | ConfirmedChange _ => negb (submitted s) && (step s =? 3)%Z
  | ClickNext => negb (submitted s) && (step s <? 3)%Z
  | ClickBack => negb (submitted s) && (1 <? step s)%Z
  | ClickSubmit _ _ =>
      negb (submitted s) && negb (step s <? 3)%Z && negb (submitting s)
  end.

Definition withView (s : ShopState) (w : World) : World :=
  {| view := s; awaiting := awaiting w; inserts := inserts w |}.

Definition fire (e : Event) (w : World) : World :=
  let s := view w in
  match e with
  | InputChange nm value =>
      withView (setFormData (handleInputChange nm value (formData s)) s) w
  | CheckboxChange field value =>
      withView (setFormData (handleCheckboxChange field value (formData s)) s) w
  | MapClick la lo | PositionObtained la lo =>
      withView (setFormData (handleMapClick la lo (formData s)) s) w
  | ConfirmedChange checked =>
      withView (setConfirmed checked s) w
  | ClickNext => withView (nextStep s) w
  | ClickBack => withView (prevStep s) w
  | ClickSubmit user supabase =>
      match handleSubmit_click user supabase s with
      | (s1, Some row) =>
          {| view := s1; awaiting := true; inserts := inserts w ++ [row] |}
      | (s1, None) => withView s1 w
      end
  | InsertSettled outcome =>
      {| view := handleSubmit_settled outcome s; awaiting := false;
         inserts := inserts w |}
  | ClickReset => withView (resetForm s) w
  end.

Inductive reachable : World -> Prop :=
| reach_init : reachable initialWorld
| reach_fire : forall w e,
    reachable w -> offered w e = true -> reachable (fire e w).

(** A session: the events fired in turn, each of which must be offered. *)
Fixpoint fires (es : list Event) (w : World) : option World :=
  match es with
  | [] => Some w
  | e :: es' => if offered w e then fires es' (fire e w) else None
  end.

End ShopRegistrationForm.

(** ** [components/OnlineMerchantRegistrationForm.tsx] *)

Module OnlineMerchantRegistrationForm.

Definition SERVICE_TYPES : list string :=
  ["EC"; "サブスク"; "NFT"; "ゲーム"; "寄付"; "その他"].

Definition JPYC_USE_CASES : list string :=
  ["決済"; "チャージ"; "投げ銭"; "NFT購入"; "会費"; "その他"].

Definition PLATFORMS : list string :=
  ["Web"; "スマホアプリ"; "Discord"; "メタバース"; "その他"].

Definition TAG_SUGGESTIONS : list string :=
  ["ショッピング"; "ゲーム"; "NFT"; "DeFi"; "メタバース"; "寄付"; "サブスク";
   "教育"; "エンタメ"; "金融"].

Module MerchantFormData.
Record t := {
  (* STEP1 *)
  name : string;
  url : string;
  description : string;
  serviceType : string;
  serviceTypeOther : string;
  country : string;
  (* STEP2 *)
  jpycUseCase : string;
  jpycUseCaseOther : string;
  platforms : list string;
  platformOther : string;
  tags : list string;
  customTag : string
}.
End MerchantFormData.
Import MerchantFormData.

Definition initialFormData : MerchantFormData.t := {|
  name := ""; url := ""; description := ""; serviceType := "";
  serviceTypeOther := ""; country := "";
  jpycUseCase := ""; jpycUseCaseOther := "";
  platforms := []; platformOther := ""; tags := []; customTag := ""
|}.

Definition initialState : State MerchantFormData.t :=
  mkState 1%Z initialFormData false false false None.

Inductive InputName :=
| n_name | n_url | n_description | n_serviceType | n_serviceTypeOther
| n_country | n_jpycUseCase | n_jpycUseCaseOther | n_platformOther
| n_customTag.

(** [{ ...prev, [name]: value }] *)
Definition handleInputChange (nm : InputName) (value : string)
           (prev : MerchantFormData.t) : MerchantFormData.t :=
  {| name := match nm with n_name => value | _ => name prev end;
     url := match nm with n_url => value | _ => url prev end;
     description :=
       match nm with n_description => value | _ => description prev end;
     serviceType :=
       match nm with n_serviceType => value | _ => serviceType prev end;
     serviceTypeOther :=
       match nm with n_serviceTypeOther => value | _ => serviceTypeOther prev end;
     country := match nm with n_country => value | _ => country prev end;
     jpycUseCase :=
       match nm with n_jpycUseCase => value | _ => jpycUseCase prev end;
     jpycUseCaseOther :=
       match nm with n_jpycUseCaseOther => value | _ => jpycUseCaseOther prev end;
     platforms := platforms prev;
     platformOther :=
       match nm with n_platformOther => value | _ => platformOther prev end;
     tags := tags prev;
     customTag := match nm with n_customTag => value | _ => customTag prev end |}.

Inductive CheckboxField := f_platforms | f_tags.

Definition toggle (current : list string) (value : string) : list string :=
  if JS.includes current value
  then filter (fun v => negb (String.eqb v value)) current
  else current ++ [value].

Definition withLists (platforms' tags' : list string) (customTag' : string)
           (prev : MerchantFormData.t) : MerchantFormData.t :=
  {| name := name prev; url := url prev; description := description prev;
     serviceType := serviceType prev;
     serviceTypeOther := serviceTypeOther prev; country := country prev;
     jpycUseCase := jpycUseCase prev;
     jpycUseCaseOther := jpycUseCaseOther prev;
     platforms := platforms'; platformOther := platformOther prev;
     tags := tags'; customTag := customTag' |}.

Definition handleCheckboxChange (field : CheckboxField) (value : string)
           (prev : MerchantFormData.t) : MerchantFormData.t :=
  match field with
  | f_platforms =>
      withLists (toggle (platforms prev) value) (tags prev) (customTag prev) prev
  | f_tags =>
      withLists (platforms prev) (toggle (tags prev) value) (customTag prev) prev
  end.

(** The test reads the rendered [formData]; the update is applied to the
    state the handler runs on, which is the rendered one. *)
Definition addCustomTag (prev : MerchantFormData.t) : MerchantFormData.t :=
  if JS.truthy (JS.trim (customTag prev))
     && negb (JS.includes (tags prev) (JS.trim (customTag prev)))
  then withLists (platforms prev) (tags prev ++ [JS.trim (customTag prev)]) "" prev
  else prev.

Definition removeTag (tag : string) (prev : MerchantFormData.t)
  : MerchantFormData.t :=
  withLists (platforms prev)
            (filter (fun t => negb (String.eqb t tag)) (tags prev))
            (customTag prev) prev.

Definition MerchantState := State MerchantFormData.t.

Definition validateStep1 (s : MerchantState) : bool * MerchantState :=
  if negb (JS.truthy (JS.trim (name (formData s)))) then
    (false, setError (Some "サービス名を入力してください") s)
  else if negb (JS.truthy (JS.trim (url (formData s)))) then
    (false, setError (Some "URLを入力してください") s)
  else if negb (JS.truthy (serviceType (formData s))) then
    (false, setError (Some "サービス種別を選択してください") s)
  else (true, setError None s).

Definition validateStep2 (s : MerchantState) : bool * MerchantState :=
  let useCase :=
    if String.eqb (jpycUseCase (formData s)) sonota
    then jpycUseCaseOther (formData s)
    else jpycUseCase (formData s) in
  if negb (JS.truthy (JS.trim useCase)) then
    (false, setError (Some "JPYCの使い道を選択または入力してください") s)
  else if (List.length (platforms (formData s)) =? 0)%nat then
    (false, setError (Some "プラットフォームを1つ以上選択してください") s)
  else (true, setError None s).

Definition nextStep (s : MerchantState) : MerchantState :=
  if (step s =? 1)%Z then
    let (ok, s1) := validateStep1 s in
    if ok then setStep 2 s1 else s1
  else if (step s =? 2)%Z then
    let (ok, s2) := validateStep2 s in
    if ok then setStep 3 s2 else s2
  else s.

Definition prevStep (s : MerchantState) : MerchantState :=
  let s := setError None s in
  setStep (step s - 1) s.

(** The object literal handed to
    [supabase.from('online_merchants').insert]. *)
Module Row.
Record t := {
  name : string;
  url : string;
  description : option string;
  service_type : string;
  country : option string;
  jpyc_use_case : string;
  platforms : list string;
  tags : option (list string);
  status : string;
  created_by : string
}.
End Row.

(** The body of the [try] block up to the insert call. *)
Definition insertRow (formData : MerchantFormData.t) (user : User.t) : Row.t :=
  let jpycUseCase' :=
    if String.eqb (jpycUseCase formData) sonota
    then JS.trim (jpycUseCaseOther formData)
    else jpycUseCase formData in
  let platforms' :=
    filter (fun p => negb (String.eqb p sonota)) (platforms formData) in
  let platforms' :=
    if JS.includes (platforms formData) sonota
       && JS.truthy (JS.trim (platformOther formData))
    then JS.push platforms' (JS.trim (platformOther formData))
    else platforms' in
  let description' := JS.trim (description formData) in
  let description' :=
    if String.eqb (serviceType formData) sonota
       && JS.truthy (JS.trim (serviceTypeOther formData))
    then
      let otherNote :=
        "【サービス種別補足】" ++ JS.trim (serviceTypeOther formData) in
      if JS.truthy description'
      then description' ++ LF ++ LF ++ otherNote
      else otherNote
    else description' in
  {| Row.name := JS.trim (name formData);
     Row.url := JS.trim (url formData);
     Row.description := JS.orNull description';
     Row.service_type := serviceType formData;
     Row.country := JS.orNull (JS.trim (country formData));
     Row.jpyc_use_case := jpycUseCase';
     Row.platforms := platforms';
     Row.tags :=
       if (0 <? List.length (tags formData))%nat
       then Some (tags formData) else None;
     Row.status := "pending";
     Row.created_by := User.id user |}.

(** The client, seen through [from('online_merchants').insert]. *)
Definition SupabaseClient := Row.t -> InsertOutcome.

Definition handleSubmit_click (user : option User.t)
           (supabase : option SupabaseClient) (s : MerchantState)
  : MerchantState * option Row.t :=
  if negb (confirmed s) then
    (setError (Some "確認チェックを入れてください") s, None)
  else match user with
  | None => (setError (Some "ログインが必要です") s, None)
  | Some user =>
    match supabase with
    | None => (setError (Some "Supabaseが設定されていません") s, None)
    | Some _ =>
        let s := setSubmitting true s in
        let s := setError None s in
        (s, Some (insertRow (formData s) user))
    end
  end.

Definition handleSubmit_settled (outcome : InsertOutcome) (s : MerchantState)
  : MerchantState :=
  let s :=
    match outcome with
    | Resolved None => setSubmitted true s
    | Resolved (Some _) | Rejected _ =>
        setError (Some "登録に失敗しました。もう一度お試しください。") s
    end in
  setSubmitting false s.

Definition handleSubmit (user : option User.t)
           (supabase : option SupabaseClient) (s : MerchantState)
  : MerchantState * list Row.t :=
  match handleSubmit_click user supabase s, supabase with
  | (s1, Some row), Some client => (handleSubmit_settled (client row) s1, [row])
  | (s1, _), _ => (s1, [])
  end.

Definition resetForm (s : MerchantState) : MerchantState :=
  let s := setFormData initialFormData s in
  let s := setStep 1 s in
  let s := setConfirmed false s in
  let s := setSubmitted false s in
  setError None s.

(** The use case on the confirmation pane of step 3:
    [formData.jpycUseCase === 'その他' ? formData.jpycUseCaseOther
    : formData.jpycUseCase]. *)
Definition jpycUseCaseShown (formData : MerchantFormData.t) : string :=
  if String.eqb (jpycUseCase formData) sonota
  then jpycUseCaseOther formData
  else jpycUseCase formData.

(** The platforms on the same pane: the items of
    [formData.platforms.map((p) => (p === 'その他' ? formData.platformOther : p))
    .filter(Boolean)], which the pane joins with [', ']. *)
Definition platformsShown (formData : MerchantFormData.t) : list string :=
  filter JS.truthy
    (map (fun p => if String.eqb p sonota then platformOther formData else p)
       (platforms formData)).

(** *** The component as a transition system, as for the shop form *)

Inductive Event :=
| InputChange (nm : InputName) (value : string)
| CheckboxChange (field : CheckboxField) (value : string)
| AddCustomTag
| RemoveTag (tag : string)
| ConfirmedChange (checked : bool)
| ClickNext
| ClickBack
| ClickSubmit (user : option User.t) (supabase : option SupabaseClient)
| InsertSettled (outcome : InsertOutcome)
| ClickReset.

Record World := { view : MerchantState; awaiting : bool; inserts : list Row.t }.

Definition initialWorld : World :=
  {| view := initialState; awaiting := false; inserts := [] |}.

Definition paneOf (nm : InputName) : Z :=
  match nm with
  | n_name | n_url | n_description | n_serviceType | n_serviceTypeOther
  | n_country => 1
  | _ => 2
  end.

Definition offered (w : World) (e : Event) : bool :=
  let s := view w in
  match e with
  | InsertSettled _ => awaiting w
  | ClickReset => submitted s
  | InputChange nm value =>
      negb (submitted s) && (step s =? paneOf nm)%Z
      && match nm with
         | n_serviceType =>
             negb (JS.truthy value) || JS.includes SERVICE_TYPES value
         | n_jpycUseCase =>
             negb (JS.truthy value) || JS.includes JPYC_USE_CASES value
         | n_serviceTypeOther => String.eqb (serviceType (formData s)) sonota
         | n_jpycUseCaseOther => String.eqb (jpycUseCase (formData s)) sonota
         | n_platformOther => JS.includes (platforms (formData s)) sonota
         | _ => true
         end
  | CheckboxChange f_platforms value =>
      negb (submitted s) && (step s =? 2)%Z && JS.includes PLATFORMS value
  | CheckboxChange f_tags value =>
      negb (submitted s) && (step s =? 2)%Z && JS.includes TAG_SUGGESTIONS value
  | AddCustomTag => negb (submitted s) && (step s =? 2)%Z
  | RemoveTag tag =>
      negb (submitted s) && (step s =? 2)%Z
      && JS.includes (tags (formData s)) tag
      && negb (JS.includes TAG_SUGGESTIONS tag)
  | ConfirmedChange _ => negb (submitted s) && (step s =? 3)%Z
  | ClickNext => negb (submitted s) && (step s <? 3)%Z
  | ClickBack => negb (submitted s) && (1 <? step s)%Z
  | ClickSubmit _ _ =>
      negb (submitted s) && negb (step s <? 3)%Z && negb (submitting s)
  end.

Definition withView (s : MerchantState) (w : World) : World :=
  {| view := s; awaiting := awaiting w; inserts := inserts w |}.

Definition fire (e : Event) (w : World) : World :=
  let s := view w in
  match e with
  | InputChange nm value =>
      withView (setFormData (handleInputChange nm value (formData s)) s) w
  | CheckboxChange field value =>
      withView (setFormData (handleCheckboxChange field value (formData s)) s) w
  | AddCustomTag =>
      withView (setFormData (addCustomTag (formData s)) s) w
  | RemoveTag tag =>
      withView (setFormData (removeTag tag (formData s)) s) w
  | ConfirmedChange checked =>
      withView (setConfirmed checked s) w
  | ClickNext => withView (nextStep s) w
  | ClickBack => withView (prevStep s) w
  | ClickSubmit user supabase =>
      match handleSubmit_click user supabase s with
      | (s1, Some row) =>
          {| view := s1; awaiting := true; inserts := inserts w ++ [row] |}
      | (s1, None) => withView s1 w
      end
  | InsertSettled outcome =>
      {| view := handleSubmit_settled outcome s; awaiting := false;
         inserts := inserts w |}
  | ClickReset => withView (resetForm s) w
  end.

Inductive reachable : World -> Prop :=
| reach_init : reachable initialWorld
| reach_fire : forall w e,
    reachable w -> offered w e = true -> reachable (fire e w).

(** A session: the events fired in turn, each of which must be offered. *)
Fixpoint fires (es : list Event) (w : World) : option World :=
  match es with
  | [] => Some w
  | e :: es' => if offered w e then fires es' (fire e w) else None
  end.

End OnlineMerchantRegistrationForm.

(** ** Sample inputs

    The drafts of the specification's scenarios, and a signed-in user. *)

Module Samples.

Definition user1 : User.t := {| User.id := "user-1" |}.

(** Scenario A, the cells it does not name at their defaults. *)
Definition scenarioA : ShopRegistrationForm.ShopFormData.t :=
  {| ShopRegistrationForm.ShopFormData.name := "Crypto Cafe";
     ShopRegistrationForm.ShopFormData.address := "Tokyo";
     ShopRegistrationForm.ShopFormData.category := "カフェ";
     ShopRegistrationForm.ShopFormData.lat := 35.6812;
     ShopRegistrationForm.ShopFormData.lng := 139.7671;
     ShopRegistrationForm.ShopFormData.jpycUseCases := ["店頭決済"];
     ShopRegistrationForm.ShopFormData.jpycUseCaseOther := "";
     ShopRegistrationForm.ShopFormData.networks := ["Polygon"];
     ShopRegistrationForm.ShopFormData.networkOther := "";
     ShopRegistrationForm.ShopFormData.paymentMethod := "QRコード決済";
     ShopRegistrationForm.ShopFormData.url := "";
     ShopRegistrationForm.ShopFormData.twitter := "";
     ShopRegistrationForm.ShopFormData.note := "" |}.

(** Scenario A with free texts: another use case, and another network. *)
Definition scenarioA_others : ShopRegistrationForm.ShopFormData.t :=
  {| ShopRegistrationForm.ShopFormData.name := "Crypto Cafe";
     ShopRegistrationForm.ShopFormData.address := "Tokyo";
     ShopRegistrationForm.ShopFormData.category := "カフェ";
     ShopRegistrationForm.ShopFormData.lat := 35.6812;
     ShopRegistrationForm.ShopFormData.lng := 139.7671;
     ShopRegistrationForm.ShopFormData.jpycUseCases := ["店頭決済"];
     ShopRegistrationForm.ShopFormData.jpycUseCaseOther := "寄付";
     ShopRegistrationForm.ShopFormData.networks := ["Polygon"; "その他"];
     ShopRegistrationForm.ShopFormData.networkOther := "Astar";
     ShopRegistrationForm.ShopFormData.paymentMethod := "QRコード決済";
     ShopRegistrationForm.ShopFormData.url := "";
     ShopRegistrationForm.ShopFormData.twitter := "";
     ShopRegistrationForm.ShopFormData.note := "" |}.

(** Scenario A with the sentinel as its only network and a blank free text. *)
Definition scenarioA_sentinel : ShopRegistrationForm.ShopFormData.t :=
  {| ShopRegistrationForm.ShopFormData.name := "Crypto Cafe";
     ShopRegistrationForm.ShopFormData.address := "Tokyo";
     ShopRegistrationForm.ShopFormData.category := "カフェ";
     ShopRegistrationForm.ShopFormData.lat := 35.6812;
     ShopRegistrationForm.ShopFormData.lng := 139.7671;
     ShopRegistrationForm.ShopFormData.jpycUseCases := ["店頭決済"];
     ShopRegistrationForm.ShopFormData.jpycUseCaseOther := "";
     ShopRegistrationForm.ShopFormData.networks := ["その他"];
     ShopRegistrationForm.ShopFormData.networkOther := "  ";
     ShopRegistrationForm.ShopFormData.paymentMethod := "QRコード決済";
     ShopRegistrationForm.ShopFormData.url := "";
     ShopRegistrationForm.ShopFormData.twitter := "";
     ShopRegistrationForm.ShopFormData.note := "" |}.

(** Scenario B: a valid merchant draft with platforms ["その他"] and the
    given free text. *)
Definition scenarioB (platformOther : string)
  : OnlineMerchantRegistrationForm.MerchantFormData.t :=
  {| OnlineMerchantRegistrationForm.MerchantFormData.name := "Bot Shop";
     OnlineMerchantRegistrationForm.MerchantFormData.url := "https://example.com";
     OnlineMerchantRegistrationForm.MerchantFormData.description := "";
     OnlineMerchantRegistrationForm.MerchantFormData.serviceType := "EC";
     OnlineMerchantRegistrationForm.MerchantFormData.serviceTypeOther := "";
     OnlineMerchantRegistrationForm.MerchantFormData.country := "";
     OnlineMerchantRegistrationForm.MerchantFormData.jpycUseCase := "決済";
     OnlineMerchantRegistrationForm.MerchantFormData.jpycUseCaseOther := "";
     OnlineMerchantRegistrationForm.MerchantFormData.platforms := ["その他"];
     OnlineMerchantRegistrationForm.MerchantFormData.platformOther := platformOther;
     OnlineMerchantRegistrationForm.MerchantFormData.tags := [];
     OnlineMerchantRegistrationForm.MerchantFormData.customTag := "" |}.

(** An engine for the examples, given by the values of [Math.sin] and
    [Math.cos] at the arguments the examples reach, each the double nearest
    to the true value; elsewhere the sine of a small angle is the angle and
    the cosine of a finite angle is 1. Its [Math.atan2] gives the angles of
    the axes. *)
Definition sin (x : float) : float :=
  if (x =? 0x1.6e05a695f8191p-10)%float then 0x1.6e059ecaa87dcp-10%float
  else if (x =? -0x1.6e05a695f8191p-10)%float then (-0x1.6e059ecaa87dcp-10)%float
  else if (x =? 0x1.921fb54442d18p+0)%float then 1%float
  else if (x =? -0x1.921fb54442d18p+0)%float then (-1)%float
  else x.

Definition cos (x : float) : float :=
  if (abs x =? 0x1.6e05a695f8191p-10)%float then 0x1.ffffdf4abdd1ep-1%float
  else if (abs x =? 0x1.3ed9aadfce7b2p-1)%float then 0x1.9fe280c53d19dp-1%float
  else if is_finite x then 1%float
  else nan.

Definition atan2 (y x : float) : float :=
  if is_nan y || is_nan x then nan
  else if (y =? 0)%float && (0 <? x)%float then y
  else if (y <? 0)%float then (- (JS.Math.PI / 2))%float
  else (JS.Math.PI / 2)%float.

Definition engine : JS.Math.t :=
  {| JS.Math.sin := sin; JS.Math.cos := cos; JS.Math.atan2 := atan2 |}.

(** A form at its confirmation step. *)
Definition atConfirm {F : Type} (draft : F) (confirmed : bool) : State F :=
  mkState 3%Z draft confirmed false false None.

End Samples.

(** ** Sample listings and sessions *)

Module Listings.

Definition shopAt (id name : string) (lat lng : float) : Shop.t :=
  {| Shop.id := id; Shop.name := name; Shop.address := "Tokyo";
     Shop.lat := lat; Shop.lng := lng;
     Shop.jpyc_networks := Some ["Polygon"];
     Shop.payment_methods := Some ["QRコード決済"];
     Shop.url := None; Shop.tags := Some ["カフェ"];
     Shop.status := approved; Shop.created_by := None;
     Shop.upvotes := 0; Shop.downvotes := 0;
     Shop.created_at := "2025-01-01"; Shop.updated_at := "2025-01-01" |}.

(** Two shops at Tokyo Station itself. *)
Definition stationShops : list Shop.t :=
  [ shopAt "s1" "Crypto Cafe" 35.6812 139.7671;
    shopAt "s2" "Coin Bar" 35.6812 139.7671 ].




Definition merchant (id name : string) (service_type : option string)
           (tags : option (list string)) : OnlineMerchant.t :=
  {| OnlineMerchant.id := id; OnlineMerchant.name := name;
     OnlineMerchant.description := None;
     OnlineMerchant.service_type := service_type;
     OnlineMerchant.url := "https://example.com";
     OnlineMerchant.platforms := Some ["Web"];
     OnlineMerchant.jpyc_use_case := Some "決済";
     OnlineMerchant.country := None;
     OnlineMerchant.tags := tags;
     OnlineMerchant.status := approved; OnlineMerchant.created_by := None;
     OnlineMerchant.created_at := "2025-01-01";
     OnlineMerchant.updated_at := "2025-01-01" |}.

Definition merchants : list OnlineMerchant.t :=
  [ merchant "m1" "CryptoMall" (Some "EC") (Some ["ショッピング"]);
    merchant "m2" "NFT Park" (Some "NFT") None;
    merchant "m3" "Mall Two" (Some "EC") None;
    merchant "m4" "Untyped" None None ].

(** A lower-casing of the ASCII letters, for running the filter. *)
Definition asciiLower (s : string) : string :=
  JS.ofBytes
    (map (fun b => if ((65 <=? b) && (b <=? 90))%N then (b + 32)%N else b)
         (JS.bytes s)).

(** The shop wizard filled in with scenario A up to the confirmation step,
    with the box ticked. *)
Definition shopToConfirm : list ShopRegistrationForm.Event :=
  [ ShopRegistrationForm.InputChange ShopRegistrationForm.n_name "Crypto Cafe";
    ShopRegistrationForm.InputChange ShopRegistrationForm.n_address "Tokyo";
    ShopRegistrationForm.InputChange ShopRegistrationForm.n_category "カフェ";
    ShopRegistrationForm.ClickNext;
    ShopRegistrationForm.CheckboxChange
      ShopRegistrationForm.f_jpycUseCases "店頭決済";
    ShopRegistrationForm.CheckboxChange ShopRegistrationForm.f_networks "Polygon";
    ShopRegistrationForm.InputChange
      ShopRegistrationForm.n_paymentMethod "QRコード決済";
    ShopRegistrationForm.ClickNext;
    ShopRegistrationForm.ConfirmedChange true ].

(** The same, submitted by a signed-in user and accepted by the store. *)
Definition shopSubmitted : list ShopRegistrationForm.Event :=
  shopToConfirm
  ++ [ ShopRegistrationForm.ClickSubmit
         (Some Samples.user1) (Some (fun _ => Resolved None));
       ShopRegistrationForm.InsertSettled (Resolved None) ].

(** The merchant wizard filled in with scenario B up to the confirmation
    step, with the box ticked. *)
Definition merchantToConfirm : list OnlineMerchantRegistrationForm.Event :=
  [ OnlineMerchantRegistrationForm.InputChange
      OnlineMerchantRegistrationForm.n_name "Bot Shop";
    OnlineMerchantRegistrationForm.InputChange
      OnlineMerchantRegistrationForm.n_url "https://example.com";
    OnlineMerchantRegistrationForm.InputChange
      OnlineMerchantRegistrationForm.n_serviceType "EC";
    OnlineMerchantRegistrationForm.ClickNext;
    OnlineMerchantRegistrationForm.InputChange
      OnlineMerchantRegistrationForm.n_jpycUseCase "決済";
    OnlineMerchantRegistrationForm.CheckboxChange
      OnlineMerchantRegistrationForm.f_platforms "その他";
    OnlineMerchantRegistrationForm.InputChange
      OnlineMerchantRegistrationForm.n_platformOther "Discord Bot";
    OnlineMerchantRegistrationForm.ClickNext;
    OnlineMerchantRegistrationForm.ConfirmedChange true ].

Definition merchantSubmitted : list OnlineMerchantRegistrationForm.Event :=
  merchantToConfirm
  ++ [ OnlineMerchantRegistrationForm.ClickSubmit
         (Some Samples.user1) (Some (fun _ => Resolved None));
       OnlineMerchantRegistrationForm.InsertSettled (Resolved None) ].

End Listings.

(* ================================================================== *)
(** * Part II.  Properties                                             *)
(* ================================================================== *)

(** ** IEEE doubles

    The comparisons of the doubles through their place in the order
    [JS.val], the signs and the sizes of the results of the rounded
    operations, read off the specification of the primitive floats. *)

Section Doubles.
Local Open Scope Z_scope.

Lemma digits2_pos_bounds (p : positive) :
  2 ^ (Zpos (digits2_pos p) - 1) <= Zpos p < 2 ^ Zpos (digits2_pos p).
Proof.
  induction p as [p IH|p IH|]; simpl digits2_pos.
  - rewrite Pos2Z.inj_succ.
    replace (Z.succ (Zpos (digits2_pos p)) - 1) with (Z.succ (Zpos (digits2_pos p) - 1)) by lia.
    rewrite !Z.pow_succ_r by lia. lia.
  - rewrite Pos2Z.inj_succ.
    replace (Z.succ (Zpos (digits2_pos p)) - 1) with (Z.succ (Zpos (digits2_pos p) - 1)) by lia.
    rewrite !Z.pow_succ_r by lia. lia.
  - simpl. lia.
Qed.

Lemma bounded_facts (m : positive) (e : Z) :
  bounded prec emax m e = true ->
  -1074 <= e <= 971
  /\ Zpos m < 2 ^ 53
  /\ (-1074 < e -> 2 ^ 52 <= Zpos m).
Proof.
  unfold bounded, canonical_mantissa, fexp, SpecFloat.emin, prec, emax.
  intros H. apply andb_prop in H. destruct H as [Hc He].
  apply Z.eqb_eq in Hc. apply Z.leb_le in He.
  pose proof (digits2_pos_bounds m) as [Hlo Hhi].
  set (d := Zpos (digits2_pos m)) in *.
  assert (Hd : 0 < d) by (unfold d; lia).
  change (3 - 1024 - 53) with (-1074) in Hc.
  change (1024 - 53) with 971 in He.
  split; [lia|]. split.
  - assert (d <= 53) by lia.
    eapply Z.lt_le_trans; [exact Hhi|]. apply Z.pow_le_mono_r; lia.
  - intros Hgt. assert (d = 53) by lia.
    replace 52 with (d - 1) by lia. exact Hlo.
Qed.

Lemma pow2_pos (k : Z) : 0 <= k -> 0 < 2 ^ k.
Proof. intros. apply Z.pow_pos_nonneg; lia. Qed.

Lemma finite_lt_big (m : positive) (e : Z) :
  bounded prec emax m e = true ->
  0 < Zpos m * 2 ^ (e + 1074) < 2 ^ 2099.
Proof.
  intros H. apply bounded_facts in H. destruct H as (He & Hm & _).
  assert (Hp : 0 < 2 ^ (e + 1074)) by (apply pow2_pos; lia).
  split; [lia|].
  assert (Hle : 2 ^ (e + 1074) <= 2 ^ 2045) by (apply Z.pow_le_mono_r; lia).
  assert (Hbig : 2 ^ 2099 = 2 ^ 54 * 2 ^ 2045) by (rewrite <- Z.pow_add_r by lia; reflexivity).
  rewrite Hbig.
  assert (H54 : 2 ^ 53 < 2 ^ 54) by (apply Z.pow_lt_mono_r; lia).
  set (P := 2 ^ (e + 1074)) in *. set (Q := 2 ^ 2045) in *.
  set (A := 2 ^ 53) in *. set (B := 2 ^ 54) in *.
  assert (S1 : Zpos m * P < A * P) by (apply Z.mul_lt_mono_pos_r; lia).
  assert (S2 : A * P <= A * Q) by (apply Z.mul_le_mono_nonneg_l; lia).
  assert (S3 : A * Q <= B * Q) by (apply Z.mul_le_mono_nonneg_r; lia).
  lia.
Qed.

Lemma finite_compare (m1 m2 : positive) (e1 e2 : Z) :
  bounded prec emax m1 e1 = true -> bounded prec emax m2 e2 = true ->
  match e1 ?= e2 with
  | Lt => Lt
  | Gt => Gt
  | Eq => Pos.compare_cont Eq m1 m2
  end = (Zpos m1 * 2 ^ (e1 + 1074) ?= Zpos m2 * 2 ^ (e2 + 1074)).
Proof.
  intros H1 H2. apply bounded_facts in H1, H2.
  destruct H1 as (He1 & Hm1 & Hn1), H2 as (He2 & Hm2 & Hn2).
  assert (Hk : forall ma mb ea eb,
             -1074 <= ea -> ea < eb -> Zpos ma < 2 ^ 53 -> 2 ^ 52 <= Zpos mb ->
             Zpos ma * 2 ^ (ea + 1074) < Zpos mb * 2 ^ (eb + 1074)).
  { intros ma mb ea eb Ha Hab Hma Hmb.
    replace (eb + 1074) with ((ea + 1074) + (eb - ea)) by lia.
    rewrite (Z.pow_add_r 2 (ea + 1074) (eb - ea)) by lia.
    assert (Hp : 0 < 2 ^ (ea + 1074)) by (apply pow2_pos; lia).
    assert (Hq : 2 ^ 1 <= 2 ^ (eb - ea)) by (apply Z.pow_le_mono_r; lia).
    change (2 ^ 1) with 2 in Hq.
    assert (H53 : 2 ^ 53 = 2 * 2 ^ 52) by reflexivity.
    set (P := 2 ^ (ea + 1074)) in *. set (Q := 2 ^ (eb - ea)) in *.
    set (A := 2 ^ 53) in *. set (B := 2 ^ 52) in *.
    assert (S1 : Zpos ma * P < A * P) by (apply Z.mul_lt_mono_pos_r; lia).
    assert (S2 : B * P <= Zpos mb * P) by (apply Z.mul_le_mono_nonneg_r; lia).
    assert (S3 : (Zpos mb * P) * 2 <= (Zpos mb * P) * Q)
      by (apply Z.mul_le_mono_nonneg_l; lia).
    lia. }
  destruct (Z.compare_spec e1 e2) as [->|Hlt|Hgt]; symmetry.
  - change (Pos.compare_cont Eq m1 m2) with (Zpos m1 ?= Zpos m2).
    symmetry. apply Zmult_compare_compat_r. apply Z.lt_gt, pow2_pos; lia.
  - apply Z.compare_lt_iff. apply Hk; first [lia | apply Hn2; lia].
  - apply Z.compare_gt_iff. apply Hk; first [lia | apply Hn1; lia].
Qed.

Ltac cmp_by_lia :=
  f_equal; symmetry;
  first [ apply Z.compare_eq_iff; lia
        | apply Z.compare_lt_iff; lia
        | apply Z.compare_gt_iff; lia ].

Lemma SFcompare_val (x y : spec_float) :
  valid_binary x = true -> valid_binary y = true ->
  SFcompare x y
  = match IEEE.SFval x, IEEE.SFval y with
    | Some a, Some b => Some (a ?= b)
    | _, _ => None
    end.
Proof.
  intros Hx Hy.
  assert (Hbig : 0 < 2 ^ 2099) by (apply pow2_pos; lia).
  set (BIG := 2 ^ 2099) in *.
  assert (Hfin : forall m e, bounded prec emax m e = true ->
                             0 < Zpos m * 2 ^ (e + 1074) < BIG)
    by (intros; now apply finite_lt_big).
  destruct x as [sx|sx| |sx mx ex], y as [sy|sy| |sy my ey];
    unfold SFcompare, IEEE.SFval; fold BIG; cbv beta iota; try reflexivity;
    cbv beta iota delta [valid_binary] in Hx, Hy;
    try (pose proof (Hfin _ _ Hx)); try (pose proof (Hfin _ _ Hy)).
  - destruct sy; cbv beta iota delta [cond_Zopp]; cmp_by_lia.
  - destruct sy; cbv beta iota delta [cond_Zopp]; cmp_by_lia.
  - destruct sx; cbv beta iota delta [cond_Zopp]; cmp_by_lia.
  - destruct sx, sy; cbv beta iota delta [cond_Zopp]; cmp_by_lia.
  - destruct sx, sy; cbv beta iota delta [cond_Zopp]; cmp_by_lia.
  - destruct sx; cbv beta iota delta [cond_Zopp]; cmp_by_lia.
  - destruct sx, sy; cbv beta iota delta [cond_Zopp]; cmp_by_lia.
  - pose proof (finite_compare mx my ex ey Hx Hy) as Hc.
    destruct sx, sy; cbv beta iota delta [cond_Zopp]; f_equal.
    + rewrite Z.compare_opp. rewrite <- (finite_compare my mx ey ex Hy Hx).
      rewrite (Z.compare_antisym ey ex).
      destruct (ey ?= ex); simpl; try reflexivity.
      change (Pos.compare_cont Eq my mx) with (Pos.compare my mx).
      change (Pos.compare_cont Eq mx my) with (Pos.compare mx my).
      now rewrite (Pos.compare_antisym mx my).
    + symmetry. apply Z.compare_lt_iff. lia.
    + symmetry. apply Z.compare_gt_iff. lia.
    + exact Hc.
Qed.


Lemma compare_val (x y : float) :
  SFcompare (Prim2SF x) (Prim2SF y)
  = match JS.val x, JS.val y with
    | Some a, Some b => Some (a ?= b)
    | _, _ => None
    end.
Proof. apply SFcompare_val; apply Prim2SF_valid. Qed.

Lemma leb_val (x y : float) :
  (x <=? y)%float
  = match JS.val x, JS.val y with
    | Some a, Some b => (a <=? b)
    | _, _ => false
    end.
Proof.
  rewrite leb_spec. unfold SFleb. rewrite compare_val.
  destruct (JS.val x) as [a|], (JS.val y) as [b|]; try reflexivity;
    unfold Z.leb; now destruct (a ?= b).
Qed.

Lemma ltb_val (x y : float) :
  (x <? y)%float
  = match JS.val x, JS.val y with
    | Some a, Some b => (a <? b)
    | _, _ => false
    end.
Proof.
  rewrite ltb_spec. unfold SFltb. rewrite compare_val.
  destruct (JS.val x) as [a|], (JS.val y) as [b|]; try reflexivity;
    unfold Z.ltb; now destruct (a ?= b).
Qed.

Lemma eqb_val (x y : float) :
  (x =? y)%float
  = match JS.val x, JS.val y with
    | Some a, Some b => (a =? b)
    | _, _ => false
    end.
Proof.
  rewrite eqb_spec. unfold SFeqb. rewrite compare_val.
  destruct (JS.val x) as [a|], (JS.val y) as [b|]; try reflexivity.
  destruct (Z.eqb_spec a b) as [->|Hne].
  - now rewrite Z.compare_refl.
  - destruct (a ?= b) eqn:E; try reflexivity.
    apply Z.compare_eq in E. contradiction.
Qed.

Lemma is_nan_val (x : float) :
  is_nan x = match JS.val x with Some _ => false | None => true end.
Proof.
  unfold is_nan. rewrite eqb_val. destruct (JS.val x) as [a|]; [|reflexivity].
  now rewrite Z.eqb_refl.
Qed.


Lemma shr_m_shr_1 (r : shr_record) :
  0 <= shr_m r -> shr_m (shr_1 r) = shr_m r / 2.
Proof.
  destruct r as [m r s]. simpl. intros Hm.
  destruct m as [|p|p]; [reflexivity| |lia].
  destruct p as [p|p|]; simpl shr_m.
  - rewrite Pos2Z.inj_xI. apply Z.div_unique with (r := 1); lia.
  - rewrite Pos2Z.inj_xO. apply Z.div_unique with (r := 0); lia.
  - reflexivity.
Qed.

Lemma shr_m_iter (k : positive) :
  forall r, 0 <= shr_m r -> shr_m (iter_pos shr_1 k r) = shr_m r / 2 ^ (Zpos k).
Proof.
  assert (Hdiv : forall a b, 0 <= a -> 0 < b -> 0 <= a / b)
    by (intros; apply Z.div_pos; lia).
  induction k as [k IH|k IH|]; intros r Hr; simpl iter_pos.
  - assert (H1 : 0 <= shr_m (shr_1 r))
      by (rewrite shr_m_shr_1 by assumption; apply Hdiv; lia).
    assert (Hp : 0 < 2 ^ Zpos k) by (apply pow2_pos; lia).
    assert (H2 : 0 <= shr_m (iter_pos shr_1 k (shr_1 r)))
      by (rewrite IH by assumption; apply Hdiv; lia).
    rewrite IH, IH, shr_m_shr_1 by assumption.
    rewrite !Z.div_div by lia. f_equal.
    rewrite <- (Z.pow_add_r 2 (Zpos k) (Zpos k)) by lia.
    change 2 with (2 ^ 1) at 1.
    rewrite <- (Z.pow_add_r 2 1 (Zpos k + Zpos k)) by lia.
    f_equal. lia.
  - assert (Hp : 0 < 2 ^ Zpos k) by (apply pow2_pos; lia).
    assert (H2 : 0 <= shr_m (iter_pos shr_1 k r))
      by (rewrite IH by assumption; apply Hdiv; lia).
    rewrite IH, IH by assumption.
    rewrite Z.div_div by lia. f_equal.
    rewrite <- (Z.pow_add_r 2 (Zpos k) (Zpos k)) by lia.
    f_equal. lia.
  - rewrite shr_m_shr_1 by assumption. reflexivity.
Qed.

Lemma shr_m_of_loc (m : Z) (l : location) : shr_m (shr_record_of_loc m l) = m.
Proof. destruct l as [|[]]; reflexivity. Qed.

Lemma shr_fexp_spec (m e : Z) (l : location) :
  0 <= m ->
  exists mrs,
    shr_fexp prec emax m e l = (mrs, Z.max e (IEEE.fexp64 (Zdigits2 m + e)))
    /\ shr_m mrs = m / 2 ^ (Z.max e (IEEE.fexp64 (Zdigits2 m + e)) - e).
Proof.
  intros Hm. unfold shr_fexp, shr.
  change (fexp prec emax (Zdigits2 m + e)) with (IEEE.fexp64 (Zdigits2 m + e)).
  set (f := IEEE.fexp64 (Zdigits2 m + e)).
  destruct (f - e) as [|k|k] eqn:En.
  - eexists. split; [f_equal; lia|].
    rewrite shr_m_of_loc. replace (Z.max e f - e) with 0 by lia.
    now rewrite Z.div_1_r.
  - eexists. split; [f_equal; lia|].
    rewrite shr_m_iter by (rewrite shr_m_of_loc; lia).
    rewrite shr_m_of_loc. f_equal. f_equal. lia.
  - eexists. split; [f_equal; lia|].
    rewrite shr_m_of_loc. replace (Z.max e f - e) with 0 by lia.
    now rewrite Z.div_1_r.
Qed.

Lemma Zdigits2_bounds (m : Z) :
  0 < m -> 2 ^ (Zdigits2 m - 1) <= m < 2 ^ Zdigits2 m.
Proof. destruct m as [|p|p]; try lia. intros _. apply digits2_pos_bounds. Qed.

Lemma Zdigits2_nonneg (m : Z) : 0 <= Zdigits2 m.
Proof. destruct m; simpl; lia. Qed.

Lemma Zdigits2_le (m k : Z) : 0 <= m -> 0 <= k -> m < 2 ^ k -> Zdigits2 m <= k.
Proof.
  intros Hm Hk Hlt. destruct (Z.eq_dec m 0) as [->|Hne]; [simpl; lia|].
  pose proof (Zdigits2_bounds m ltac:(lia)) as [Hlo _].
  destruct (Z_le_gt_dec (Zdigits2 m) k) as [H|H]; [exact H|].
  assert (2 ^ k <= 2 ^ (Zdigits2 m - 1)) by (apply Z.pow_le_mono_r; lia).
  lia.
Qed.

Lemma round_nearest_even_bounds (m : Z) (l : location) :
  m <= round_nearest_even m l <= m + 1.
Proof.
  destruct l as [|[]]; simpl; try lia. destruct (Z.even m); lia.
Qed.

(** The result of rounding a mantissa that is not negative. *)
Lemma binary_round_aux_cases (s : bool) (m e : Z) (l : location) :
  0 <= m ->
  binary_round_aux prec emax s m e l = S754_zero s
  \/ exists (p : positive) (e2 : Z),
       binary_round_aux prec emax s m e l
       = (if e2 <=? 971 then S754_finite s p e2 else S754_infinity s)
       /\ e2 <= Z.max e (-1074) + 2 * Zdigits2 m.
Proof.
  intros Hm. unfold binary_round_aux.
  destruct (shr_fexp_spec m e l Hm) as (mrs1 & -> & Hm1).
  set (e1 := Z.max e (IEEE.fexp64 (Zdigits2 m + e))) in *.
  set (m1 := round_nearest_even (shr_m mrs1) (loc_of_shr_record mrs1)).
  assert (Hp1 : 0 < 2 ^ (e1 - e)) by (apply pow2_pos; unfold e1; lia).
  assert (Hq : 0 <= shr_m mrs1 <= m).
  { rewrite Hm1. split; [apply Z.div_pos; lia|].
    apply Z.div_le_upper_bound; [lia|]. nia. }
  pose proof (round_nearest_even_bounds (shr_m mrs1) (loc_of_shr_record mrs1)) as Hr.
  fold m1 in Hr.
  assert (Hm1' : 0 <= m1) by lia.
  destruct (shr_fexp_spec m1 e1 loc_Exact Hm1') as (mrs2 & -> & Hm2).
  set (e2 := Z.max e1 (IEEE.fexp64 (Zdigits2 m1 + e1))) in *.
  assert (Hp2 : 0 < 2 ^ (e2 - e1)) by (apply pow2_pos; unfold e2; lia).
  assert (Hq2 : 0 <= shr_m mrs2) by (rewrite Hm2; apply Z.div_pos; lia).
  destruct (shr_m mrs2) as [|p|p] eqn:E2; [now left| |lia].
  right. exists p, e2. split; [reflexivity|].
  pose proof (Zdigits2_nonneg m) as Hd.
  assert (Hd1 : Zdigits2 m1 <= Zdigits2 m + 1).
  { destruct (Z.eq_dec m 0) as [->|Hne].
    - assert (shr_m mrs1 = 0) by lia. simpl.
      apply Zdigits2_le; first [lia | change (2 ^ 1) with 2; lia].
    - pose proof (Zdigits2_bounds m ltac:(lia)) as [_ Hhi].
      apply Zdigits2_le;
        first [lia | rewrite Z.pow_add_r by lia; change (2 ^ 1) with 2; lia]. }
  unfold e2, e1, IEEE.fexp64. lia.
Qed.

(** With an exponent in range, a positive mantissa does not round to zero. *)
Lemma binary_round_aux_pos (s : bool) (m e : Z) (l : location) :
  0 < m -> -1074 <= e ->
  exists (p : positive) (e2 : Z),
    binary_round_aux prec emax s m e l
    = (if e2 <=? 971 then S754_finite s p e2 else S754_infinity s).
Proof.
  intros Hm He. unfold binary_round_aux.
  destruct (shr_fexp_spec m e l ltac:(lia)) as (mrs1 & -> & Hm1).
  set (e1 := Z.max e (IEEE.fexp64 (Zdigits2 m + e))) in *.
  set (m1 := round_nearest_even (shr_m mrs1) (loc_of_shr_record mrs1)).
  assert (Hshift : forall a b, 0 < a -> -1074 <= b ->
             0 < a / 2 ^ (Z.max b (IEEE.fexp64 (Zdigits2 a + b)) - b)).
  { intros a b Ha Hb. pose proof (Zdigits2_bounds a Ha) as [Hlo _].
    pose proof (Zdigits2_nonneg a).
    set (n := Z.max b (IEEE.fexp64 (Zdigits2 a + b)) - b).
    assert (Hdp : 0 < Zdigits2 a) by (destruct a; simpl; lia).
    assert (Hn : 0 <= n <= Zdigits2 a - 1) by (unfold n, IEEE.fexp64; lia).
    assert (Hpn : 0 < 2 ^ n) by (apply pow2_pos; lia).
    assert (2 ^ n <= 2 ^ (Zdigits2 a - 1)) by (apply Z.pow_le_mono_r; lia).
    apply Z.div_str_pos. lia. }
  assert (Hs1 : 0 < shr_m mrs1) by (rewrite Hm1; now apply Hshift).
  pose proof (round_nearest_even_bounds (shr_m mrs1) (loc_of_shr_record mrs1)) as Hr.
  fold m1 in Hr.
  assert (He1 : -1074 <= e1) by (unfold e1; lia).
  destruct (shr_fexp_spec m1 e1 loc_Exact ltac:(lia)) as (mrs2 & -> & Hm2).
  assert (Hs2 : 0 < shr_m mrs2) by (rewrite Hm2; apply Hshift; lia).
  destruct (shr_m mrs2) as [|p|p]; try lia.
  eexists. eexists. reflexivity.
Qed.

Lemma binary_round_aux_shape (s : bool) (m e : Z) (l : location) :
  match binary_round_aux prec emax s m e l with
  | S754_zero s' | S754_infinity s' | S754_finite s' _ _ => s' = s
  | S754_nan => True
  end.
Proof.
  unfold binary_round_aux.
  destruct (shr_fexp prec emax m e l) as [mrs1 e1].
  destruct (shr_fexp prec emax _ e1 loc_Exact) as [mrs2 e2].
  destruct (shr_m mrs2); [reflexivity| |exact I].
  destruct (e2 <=? emax - prec); reflexivity.
Qed.

Lemma Pos_iter_xO (m d : positive) :
  Zpos (Pos.iter xO m d) = Zpos m * 2 ^ Zpos d.
Proof.
  induction d as [|d IH] using Pos.peano_ind.
  - simpl. lia.
  - rewrite Pos.iter_succ, Pos2Z.inj_xO, IH, Pos2Z.inj_succ.
    rewrite Z.pow_succ_r by lia. lia.
Qed.

Lemma shl_align_value (m : positive) (e e' : Z) :
  e' <= e ->
  Zpos (fst (shl_align m e e')) = Zpos m * 2 ^ (e - e').
Proof.
  intros H. unfold shl_align. destruct (e' - e) as [|d|d] eqn:E; simpl fst.
  - replace (e - e') with 0 by lia. lia.
  - lia.
  - rewrite Pos_iter_xO. f_equal. f_equal. lia.
Qed.

Lemma binary_round_pos (s : bool) (m : positive) (e : Z) :
  -1074 <= e ->
  exists (p : positive) (e2 : Z),
    binary_round prec emax s m e
    = (if e2 <=? 971 then S754_finite s p e2 else S754_infinity s).
Proof.
  intros He. unfold binary_round.
  destruct (shl_align m e (fexp prec emax (Zpos (digits2_pos m) + e)))
    as [mz ez] eqn:E.
  apply binary_round_aux_pos; [lia|].
  unfold shl_align in E.
  change (fexp prec emax (Zpos (digits2_pos m) + e))
    with (IEEE.fexp64 (Zpos (digits2_pos m) + e)) in E.
  destruct (IEEE.fexp64 (Zpos (digits2_pos m) + e) - e) eqn:En;
    injection E as _ <-; unfold IEEE.fexp64 in *; lia.
Qed.

Lemma Prim2SF_zero : Prim2SF 0 = S754_zero false.
Proof. reflexivity. Qed.

Lemma Prim2SF_infinity : Prim2SF infinity = S754_infinity false.
Proof. reflexivity. Qed.

Lemma Some_inj {A : Type} (u v : A) : Some u = Some v -> u = v.
Proof. congruence. Qed.

Lemma SFltb_zero (x : spec_float) :
  SFltb (S754_zero false) x
  = match x with
    | S754_infinity false | S754_finite false _ _ => true
    | _ => false
    end.
Proof. destruct x as [s|[]| |[] m e]; reflexivity. Qed.

Lemma SFsub_sign (x y : spec_float) (a b : Z) :
  valid_binary x = true -> valid_binary y = true ->
  IEEE.SFval x = Some a -> IEEE.SFval y = Some b ->
  match SF64sub x y with
  | S754_infinity s | S754_finite s _ _ => if s then a < b else b < a
  | S754_zero _ | S754_nan => a = b
  end.
Proof.
  intros Hx Hy Ha Hb.
  assert (Hbig : 0 < 2 ^ 2099) by (apply pow2_pos; lia).
  set (BIG := 2 ^ 2099) in *.
  assert (Hfin : forall m e, bounded prec emax m e = true ->
                             0 < Zpos m * 2 ^ (e + 1074) < BIG)
    by (intros; now apply finite_lt_big).
  destruct x as [sx|sx| |sx mx ex], y as [sy|sy| |sy my ey];
    try discriminate;
    unfold IEEE.SFval in Ha, Hb; fold BIG in Ha, Hb;
    apply Some_inj in Ha; apply Some_inj in Hb; subst a b;
    cbv beta iota delta [valid_binary] in Hx, Hy;
    try (pose proof (Hfin _ _ Hx)); try (pose proof (Hfin _ _ Hy)).
  - destruct sx, sy; reflexivity.
  - destruct sy; cbv beta iota delta [SF64sub SFsub negb cond_Zopp]; lia.
  - destruct sy; cbv beta iota delta [SF64sub SFsub negb cond_Zopp]; lia.
  - destruct sx; cbv beta iota delta [SF64sub SFsub negb cond_Zopp]; lia.
  - destruct sx, sy; cbv beta iota delta [SF64sub SFsub negb cond_Zopp]; lia.
  - destruct sx, sy; cbv beta iota delta [SF64sub SFsub negb cond_Zopp]; lia.
  - destruct sx; cbv beta iota delta [SF64sub SFsub negb cond_Zopp]; lia.
  - destruct sx, sy; cbv beta iota delta [SF64sub SFsub negb cond_Zopp]; lia.
  - (* finite, finite *)
    pose proof (bounded_facts _ _ Hx) as (Hex & _ & _).
    pose proof (bounded_facts _ _ Hy) as (Hey & _ & _).
    unfold SF64sub, SFsub.
    set (ez := Z.min ex ey).
    rewrite (shl_align_value mx ex ez) by (unfold ez; lia).
    rewrite (shl_align_value my ey ez) by (unfold ez; lia).
    set (ax := Zpos mx * 2 ^ (ex - ez)). set (ay := Zpos my * 2 ^ (ey - ez)).
    assert (HP : 0 < 2 ^ (ez + 1074)) by (apply pow2_pos; unfold ez; lia).
    assert (Hax : Zpos mx * 2 ^ (ex + 1074) = ax * 2 ^ (ez + 1074)).
    { unfold ax. rewrite <- Z.mul_assoc, <- Z.pow_add_r by (unfold ez; lia).
      f_equal. f_equal. lia. }
    assert (Hay : Zpos my * 2 ^ (ey + 1074) = ay * 2 ^ (ez + 1074)).
    { unfold ay. rewrite <- Z.mul_assoc, <- Z.pow_add_r by (unfold ez; lia).
      f_equal. f_equal. lia. }
    rewrite Hax, Hay. set (P := 2 ^ (ez + 1074)) in *.
    assert (E : cond_Zopp sx (ax * P) - cond_Zopp sy (ay * P)
                = (cond_Zopp sx ax - cond_Zopp sy ay) * P)
      by (destruct sx, sy; simpl; lia).
    destruct (cond_Zopp sx ax - cond_Zopp sy ay) as [|p|p] eqn:ED;
      unfold binary_normalize.
    + lia.
    + destruct (binary_round_pos false p ez ltac:(unfold ez; lia))
        as (q & e2 & ->).
      destruct (e2 <=? 971); nia.
    + destruct (binary_round_pos true p ez ltac:(unfold ez; lia))
        as (q & e2 & ->).
      destruct (e2 <=? 971); nia.
Qed.

Lemma sub_pos (x y : float) (a b : Z) :
  JS.val x = Some a -> JS.val y = Some b ->
  (0 <? x - y)%float = (b <? a).
Proof.
  intros Ha Hb. rewrite ltb_spec, sub_spec, Prim2SF_zero, SFltb_zero.
  pose proof (SFsub_sign _ _ a b (Prim2SF_valid x) (Prim2SF_valid y) Ha Hb) as H.
  destruct (SF64sub (Prim2SF x) (Prim2SF y)) as [s|[]| |[] m e];
    symmetry; first [apply Z.ltb_lt; lia | apply Z.ltb_ge; lia].
Qed.

Lemma ltb_zero_spec (x : float) :
  (x <? 0)%float = match Prim2SF x with
                   | S754_infinity true | S754_finite true _ _ => true
                   | _ => false
                   end.
Proof.
  rewrite ltb_spec, Prim2SF_zero.
  now destruct (Prim2SF x) as [[]|[]| |[] m e].
Qed.

Lemma sub_neg (x y : float) (a b : Z) :
  JS.val x = Some a -> JS.val y = Some b ->
  (x - y <? 0)%float = (a <? b).
Proof.
  intros Ha Hb. rewrite ltb_zero_spec, sub_spec.
  pose proof (SFsub_sign _ _ a b (Prim2SF_valid x) (Prim2SF_valid y) Ha Hb) as H.
  destruct (SF64sub (Prim2SF x) (Prim2SF y)) as [s|[]| |[] m e];
    symmetry; first [apply Z.ltb_lt; lia | apply Z.ltb_ge; lia].
Qed.


Lemma plus_spec (x : float) :
  JS.plus x = match Prim2SF x with
           | S754_zero false | S754_infinity false | S754_finite false _ _ => true
           | _ => false
           end.
Proof.
  unfold JS.plus. rewrite classify_spec. unfold SF64classify, SFclassify.
  destruct (Prim2SF x) as [[]|[]| |[] m e]; try reflexivity;
    now destruct (Zpos (digits2_pos m) =? prec).
Qed.


Lemma mul_nan_r (x y : float) : is_nan y = true -> is_nan (x * y) = true.
Proof.
  rewrite !is_nan_val. unfold JS.val. rewrite mul_spec.
  destruct (Prim2SF y); try discriminate. intros _.
  now destruct (Prim2SF x).
Qed.

(** A square added to anything is never the negative zero, so its square
    root is [+0], positive or [NaN]. *)
Lemma sqrt_square_plus (s t : float) :
  JS.plus (sqrt (s * s + t)) = true \/ is_nan (sqrt (s * s + t)) = true.
Proof.
  rewrite plus_spec, is_nan_val. unfold JS.val.
  rewrite sqrt_spec, add_spec, mul_spec.
  pose proof (Prim2SF_valid (s * s)) as Vp. rewrite mul_spec in Vp.
  pose proof (Prim2SF_valid t) as Vt.
  assert (Hp : match SF64mul (Prim2SF s) (Prim2SF s) with
               | S754_zero true | S754_infinity true | S754_finite true _ _ => False
               | _ => True
               end).
  { unfold SF64mul, SFmul. destruct (Prim2SF s) as [[]|[]| |sx mx ex]; try exact I.
    pose proof (binary_round_aux_shape (xorb sx sx)
                  (Zpos (mx * mx)) (ex + ex) loc_Exact) as H.
    destruct (binary_round_aux prec emax (xorb sx sx)
                (Zpos (mx * mx)) (ex + ex) loc_Exact) as [b|b| |b m e];
      try exact I; subst b; now destruct sx. }
  set (P := SF64mul (Prim2SF s) (Prim2SF s)) in *.
  assert (Ha : SF64add P (Prim2SF t) <> S754_zero true).
  { unfold SF64add, SFadd.
    destruct P as [[]|[]| |[] mp ep]; try contradiction;
      destruct (Prim2SF t) as [[]|[]| |st mt et]; try discriminate.
    simpl in Vp, Vt.
    pose proof (bounded_facts _ _ Vp) as (Hep & _).
    pose proof (bounded_facts _ _ Vt) as (Het & _).
    unfold binary_normalize.
    destruct (cond_Zopp false _ + cond_Zopp st _) as [|p|p]; try discriminate.
    - destruct (binary_round_pos false p (Z.min ep et) ltac:(lia)) as (q & e2 & ->).
      now destruct (e2 <=? 971).
    - destruct (binary_round_pos true p (Z.min ep et) ltac:(lia)) as (q & e2 & ->).
      now destruct (e2 <=? 971). }
  unfold SF64sqrt, SFsqrt.
  destruct (SF64add P (Prim2SF t)) as [[]|[]| |[] m e];
    try (left; reflexivity); try (right; reflexivity).
  - now contradiction Ha.
  - destruct (SFsqrt_core_binary prec emax (Zpos m) e) as [[mz ez] lz].
    pose proof (binary_round_aux_shape false mz ez lz) as H.
    destruct (binary_round_aux prec emax false mz ez lz) as [b|b| |b m' e'];
      try (right; reflexivity); subst b; left; reflexivity.
Qed.

(** The square root of a number below zero is [NaN]. *)
Lemma sqrt_negative (x : float) : (x <? 0)%float = true -> is_nan (sqrt x) = true.
Proof.
  rewrite ltb_zero_spec, is_nan_val. unfold JS.val. rewrite sqrt_spec.
  now destruct (Prim2SF x) as [[]|[]| |[] m e].
Qed.


Lemma is_finite_spec (x : float) :
  is_finite x = true ->
  match Prim2SF x with
  | S754_zero _ | S754_finite _ _ _ => True
  | _ => False
  end.
Proof.
  unfold is_finite, is_nan, is_infinity.
  rewrite !eqb_spec, abs_spec, Prim2SF_infinity.
  destruct (Prim2SF x) as [s|[]| |s m e]; try exact (fun _ => I);
    discriminate.
Qed.

Lemma sub_self (x : float) : is_finite x = true -> (x - x)%float = 0%float.
Proof.
  intros H. apply is_finite_spec in H. apply Prim2SF_inj.
  rewrite sub_spec, Prim2SF_zero. unfold SF64sub, SFsub.
  destruct (Prim2SF x) as [[]|s| |s m e]; try contradiction; try reflexivity.
  now rewrite Z.sub_diag.
Qed.

Lemma abs_le_small (x c : float) (v K : Z) :
  (abs x <=? c)%float = true -> JS.val c = Some v -> v <= 2 ^ (K + 1074) ->
  -1074 <= K <= 971 ->
  IEEE.small K (Prim2SF x).
Proof.
  intros Hle Hc Hv HK. rewrite leb_val, Hc in Hle. unfold JS.val in Hle.
  rewrite abs_spec in Hle.
  pose proof (Prim2SF_valid x) as V.
  destruct (Prim2SF x) as [s|s| |s m e];
    unfold SFabs, IEEE.SFval, IEEE.small, cond_Zopp in *; try discriminate.
  - exact I.
  - apply Z.leb_le in Hle.
    assert (2 ^ (K + 1074) < 2 ^ 2099) by (apply Z.pow_lt_mono_r; lia).
    lia.
  - apply Z.leb_le in Hle. unfold valid_binary in V.
    pose proof (bounded_facts _ _ V) as (He & _).
    assert (Hp : 0 < 2 ^ (e + 1074)) by (apply pow2_pos; lia).
    assert (Hm : 2 ^ (e + 1074) <= Zpos m * 2 ^ (e + 1074)) by nia.
    assert (Hpow : 2 ^ (e + 1074) <= 2 ^ (K + 1074)) by lia.
    apply Z.pow_le_mono_r_iff in Hpow; lia.
Qed.

Lemma small_finite (K : Z) (x : float) : IEEE.small K (Prim2SF x) -> is_finite x = true.
Proof.
  unfold is_finite, is_nan, is_infinity.
  rewrite !eqb_spec, abs_spec, Prim2SF_infinity.
  pose proof (SFcompare_val (Prim2SF x) (Prim2SF x)
                (Prim2SF_valid x) (Prim2SF_valid x)) as Hc.
  unfold SFeqb. rewrite Hc.
  destruct (Prim2SF x) as [s|s| |s m e]; unfold IEEE.small; try contradiction;
    intros _; unfold IEEE.SFval; rewrite Z.compare_refl; reflexivity.
Qed.

Lemma mul_small (K1 K2 : Z) (x y : float) :
  IEEE.small K1 (Prim2SF x) -> IEEE.small K2 (Prim2SF y) ->
  Z.max (K1 + K2) (-1074) + 212 <= 971 ->
  IEEE.small (Z.max (K1 + K2) (-1074) + 212) (Prim2SF (x * y)).
Proof.
  intros Hx Hy HK. rewrite mul_spec.
  pose proof (Prim2SF_valid x) as Vx. pose proof (Prim2SF_valid y) as Vy.
  unfold SF64mul, SFmul.
  destruct (Prim2SF x) as [sx|sx| |sx mx ex]; try contradiction;
    destruct (Prim2SF y) as [sy|sy| |sy my ey]; try contradiction;
    try exact I.
  unfold IEEE.small in Hx, Hy. unfold valid_binary in Vx, Vy.
  pose proof (bounded_facts _ _ Vx) as (_ & Hmx & _).
  pose proof (bounded_facts _ _ Vy) as (_ & Hmy & _).
  assert (Hd : Zdigits2 (Zpos (mx * my)) <= 106).
  { apply Zdigits2_le; try lia.
    replace 106 with (53 + 53) by lia. rewrite Z.pow_add_r by lia.
    rewrite Pos2Z.inj_mul. apply Z.mul_lt_mono_nonneg; lia. }
  destruct (binary_round_aux_cases (xorb sx sy) (Zpos (mx * my)) (ex + ey)
              loc_Exact ltac:(lia)) as [->|(p & e2 & -> & He2)];
    [exact I|].
  destruct (Z.leb_spec e2 971); unfold IEEE.small; lia.
Qed.

Lemma div_small (K1 : Z) (x y : float) (sy : bool) (my : positive) (ey : Z) :
  IEEE.small K1 (Prim2SF x) -> Prim2SF y = S754_finite sy my ey ->
  Z.max (K1 - ey) (-1074) + 316 <= 971 ->
  IEEE.small (Z.max (K1 - ey) (-1074) + 316) (Prim2SF (x / y)).
Proof.
  intros Hx Hy HK. rewrite div_spec.
  pose proof (Prim2SF_valid x) as Vx. pose proof (Prim2SF_valid y) as Vy.
  rewrite Hy in *. unfold SF64div, SFdiv.
  destruct (Prim2SF x) as [sx|sx| |sx mx ex]; try contradiction; [exact I|].
  unfold IEEE.small in Hx. unfold valid_binary in Vx, Vy.
  pose proof (bounded_facts _ _ Vx) as (_ & Hmx & _).
  pose proof (digits2_pos_bounds mx) as [_ Hdx].
  pose proof (digits2_pos_bounds my) as [Hdy' Hdy].
  pose proof (bounded_facts _ _ Vy) as (_ & Hmy & _).
  unfold SFdiv_core_binary.
  change (fexp prec emax) with IEEE.fexp64.
  set (d1 := Zdigits2 (Zpos mx)). set (d2 := Zdigits2 (Zpos my)).
  set (e' := Z.min (IEEE.fexp64 (d1 + ex - (d2 + ey))) (ex - ey)).
  set (s := ex - ey - e').
  set (m' := match s with
             | 0 => Zpos mx
             | Zpos _ => Z.shiftl (Zpos mx) s
             | Zneg _ => 0
             end).
  assert (Hd1 : 1 <= d1 <= 53).
  { unfold d1. simpl. split; [lia|].
    apply (Zdigits2_le (Zpos mx) 53); simpl; lia. }
  assert (Hd2 : 1 <= d2 <= 53).
  { unfold d2. simpl. split; [lia|].
    apply (Zdigits2_le (Zpos my) 53); simpl; lia. }
  assert (Hs : 0 <= s <= 105) by (unfold s, e', IEEE.fexp64; lia).
  assert (Hm' : 0 <= m' < 2 ^ (53 + s)).
  { unfold m'. destruct s as [|k|k] eqn:Es; [| |lia].
    - replace (53 + 0) with 53 by lia. lia.
    - rewrite Z.shiftl_mul_pow2 by lia.
      rewrite (Z.pow_add_r 2 53 (Zpos k)) by lia.
      assert (0 < 2 ^ Zpos k) by (apply pow2_pos; lia). nia. }
  destruct (Z.div_eucl m' (Zpos my)) as [q r] eqn:Ediv.
  assert (Hq : 0 <= q <= m').
  { assert (Eq : q = m' / Zpos my) by (unfold Z.div; now rewrite Ediv).
    rewrite Eq. split; [apply Z.div_pos; lia|].
    apply Z.div_le_upper_bound; [lia|]. nia. }
  assert (Hdq : Zdigits2 q <= 158).
  { apply Zdigits2_le; try lia.
    assert (2 ^ (53 + s) <= 2 ^ 158) by (apply Z.pow_le_mono_r; lia). lia. }
  destruct (binary_round_aux_cases (xorb sx sy) q e' (new_location (Zpos my) r)
              ltac:(lia)) as [->|(p & e2 & -> & He2)];
    [exact I|].
  assert (e' <= ex - ey) by (unfold e'; lia).
  destruct (Z.leb_spec e2 971); unfold IEEE.small; lia.
Qed.

(** *** [NaN] *)

Lemma is_nan_spec (x : float) :
  is_nan x = match Prim2SF x with S754_nan => true | _ => false end.
Proof. rewrite is_nan_val. unfold JS.val. now destruct (Prim2SF x). Qed.

Lemma sub_nan_l (x y : float) : is_nan x = true -> is_nan (x - y) = true.
Proof.
  rewrite !is_nan_spec, sub_spec.
  destruct (Prim2SF x); try discriminate. intros _.
  now destruct (Prim2SF y).
Qed.

Lemma sub_nan_r (x y : float) : is_nan y = true -> is_nan (x - y) = true.
Proof.
  rewrite !is_nan_spec, sub_spec.
  destruct (Prim2SF y); try discriminate. intros _.
  now destruct (Prim2SF x).
Qed.

Lemma abs_nan (x : float) : is_nan x = true -> is_nan (abs x) = true.
Proof.
  rewrite !is_nan_spec, abs_spec. now destruct (Prim2SF x).
Qed.

Lemma leb_nan_l (x y : float) : is_nan x = true -> (x <=? y)%float = false.
Proof.
  rewrite is_nan_val, leb_val. now destruct (JS.val x).
Qed.

Lemma leb_numeric (x y : float) :
  (x <=? y)%float = true -> is_nan x = false /\ is_nan y = false.
Proof.
  rewrite !is_nan_val, leb_val. now destruct (JS.val x), (JS.val y).
Qed.

(** *** The order of the doubles *)

Lemma leb_trans (x y z : float) :
  (x <=? y)%float = true -> (y <=? z)%float = true -> (x <=? z)%float = true.
Proof.
  rewrite !leb_val.
  destruct (JS.val x), (JS.val y), (JS.val z); try discriminate.
  rewrite !Z.leb_le. lia.
Qed.

Lemma ltb_leb (x y : float) :
  (x <? y)%float = true -> (x <=? y)%float = true.
Proof.
  rewrite leb_val, ltb_val. destruct (JS.val x), (JS.val y); try discriminate.
  rewrite Z.leb_le, Z.ltb_lt. lia.
Qed.

Lemma ltb_not_leb (x y : float) :
  (x <? y)%float = true -> (y <=? x)%float = false.
Proof.
  rewrite leb_val, ltb_val. destruct (JS.val x), (JS.val y); try discriminate.
  rewrite Z.leb_gt, Z.ltb_lt. lia.
Qed.

Lemma not_ltb_leb (x y : float) :
  is_nan x = false -> is_nan y = false ->
  (y <? x)%float = false -> (x <=? y)%float = true.
Proof.
  rewrite !is_nan_val, leb_val, ltb_val.
  destruct (JS.val x), (JS.val y); try discriminate. intros _ _.
  rewrite Z.leb_le, Z.ltb_ge. lia.
Qed.

Lemma not_leb_ltb (x y : float) :
  is_nan x = false -> is_nan y = false ->
  (x <=? y)%float = false -> (y <? x)%float = true.
Proof.
  rewrite !is_nan_val, leb_val, ltb_val.
  destruct (JS.val x), (JS.val y); try discriminate. intros _ _.
  rewrite Z.leb_gt, Z.ltb_lt. lia.
Qed.

Lemma ltb_eqb_apart (x y d : float) :
  (y <? x)%float = true -> (x =? d)%float && (y =? d)%float = false.
Proof.
  rewrite ltb_val, !eqb_val.
  destruct (JS.val x), (JS.val y), (JS.val d); try discriminate;
    try reflexivity; try (intros _; apply andb_false_r).
  rewrite Z.ltb_lt. intros H.
  apply andb_false_iff. rewrite !Z.eqb_neq. lia.
Qed.

Lemma leb_antisym_eqb (x y : float) :
  (x <=? y)%float = true -> (y <=? x)%float = true -> (x =? y)%float = true.
Proof.
  rewrite !leb_val, eqb_val. destruct (JS.val x), (JS.val y); try discriminate.
  rewrite !Z.leb_le, Z.eqb_eq. lia.
Qed.

Lemma eqb_numeric_refl (x : float) : is_nan x = false -> (x =? x)%float = true.
Proof. unfold is_nan. now destruct (x =? x)%float. Qed.

Lemma leb_ltb_trans (x y z : float) :
  (x <=? y)%float = true -> (y <? z)%float = true -> (x <? z)%float = true.
Proof.
  rewrite leb_val, !ltb_val.
  destruct (JS.val x), (JS.val y), (JS.val z); try discriminate.
  rewrite Z.leb_le, !Z.ltb_lt. lia.
Qed.

Lemma not_ltb_zero_leb (x : float) :
  is_nan x = false -> (x <? 0)%float = false -> (0 <=? x)%float = true.
Proof. intros Hx H. apply not_ltb_leb; [reflexivity | exact Hx | exact H]. Qed.

(** The comparator [a - b] of the sort: it is positive exactly when [b] is
    below [a], and never when either is [NaN]. *)
Lemma sub_pos_ltb (x y : float) : (0 <? x - y)%float = (y <? x)%float.
Proof.
  destruct (JS.val x) as [a|] eqn:Ex, (JS.val y) as [b|] eqn:Ey.
  - rewrite (sub_pos x y a b Ex Ey), ltb_val, Ex, Ey. reflexivity.
  - rewrite (ltb_val y x), Ex, Ey, ltb_val.
    assert (H : is_nan (x - y) = true)
      by (apply sub_nan_r; rewrite is_nan_val, Ey; reflexivity).
    rewrite is_nan_val in H. destruct (JS.val (x - y)); [discriminate|].
    now destruct (JS.val 0%float).
  - rewrite (ltb_val y x), Ex, Ey, ltb_val.
    assert (H : is_nan (x - y) = true)
      by (apply sub_nan_l; rewrite is_nan_val, Ex; reflexivity).
    rewrite is_nan_val in H. destruct (JS.val (x - y)); [discriminate|].
    now destruct (JS.val 0%float).
  - rewrite (ltb_val y x), Ex, Ey, ltb_val.
    assert (H : is_nan (x - y) = true)
      by (apply sub_nan_l; rewrite is_nan_val, Ex; reflexivity).
    rewrite is_nan_val in H. destruct (JS.val (x - y)); [discriminate|].
    now destruct (JS.val 0%float).
Qed.

(** Below zero: the difference [1 - a] when [a] is above 1. *)
Lemma sub_neg_ltb (x y : float) :
  (x <? y)%float = true -> (x - y <? 0)%float = true.
Proof.
  rewrite (ltb_val x y).
  destruct (JS.val x) as [a|] eqn:Ex, (JS.val y) as [b|] eqn:Ey; try discriminate.
  intros H. now rewrite (sub_neg x y a b Ex Ey).
Qed.

(** *** Products with zero *)

(** A square of a number of moderate size is [+0] or a positive finite
    number. *)
Lemma square_shape (K : Z) (c : float) :
  IEEE.small K (Prim2SF c) -> 2 * K <= 700 ->
  match Prim2SF (c * c) with
  | S754_zero false | S754_finite false _ _ => True
  | _ => False
  end.
Proof.
  intros Hc HK. rewrite mul_spec.
  pose proof (Prim2SF_valid c) as Vc.
  unfold SF64mul, SFmul.
  destruct (Prim2SF c) as [[]|s| |s m e]; try contradiction; try exact I.
  unfold IEEE.small in Hc. unfold valid_binary in Vc.
  pose proof (bounded_facts _ _ Vc) as (_ & Hm & _).
  assert (Hd : Zdigits2 (Zpos (m * m)) <= 106).
  { apply Zdigits2_le; try lia.
    replace 106 with (53 + 53) by lia. rewrite Z.pow_add_r by lia.
    rewrite Pos2Z.inj_mul. apply Z.mul_lt_mono_nonneg; lia. }
  replace (xorb s s) with false by (now destruct s).
  destruct (binary_round_aux_cases false (Zpos (m * m)) (e + e)
              loc_Exact ltac:(lia)) as [->|(p & e2 & -> & He2)];
    [exact I|].
  destruct (Z.leb_spec e2 971); [exact I | lia].
Qed.

Lemma mul_zero_r (x : float) :
  match Prim2SF x with
  | S754_zero false | S754_finite false _ _ => True
  | _ => False
  end ->
  (x * 0)%float = 0%float.
Proof.
  intros H. apply Prim2SF_inj. rewrite mul_spec, Prim2SF_zero.
  now destruct (Prim2SF x) as [[]|[]| |[] m e].
Qed.

(** *** Angles in degrees *)

Lemma val_finite (x : float) (m : positive) (e : Z) :
  Prim2SF x = S754_finite false m e -> JS.val x = Some (Zpos m * 2 ^ (e + 1074)).
Proof. unfold JS.val. now intros ->. Qed.

(** A latitude or longitude within 180 degrees stays finite when it is
    turned into radians. *)
Lemma degrees_small (x : float) :
  (abs x <=? 180)%float = true -> IEEE.small 8 (Prim2SF x).
Proof.
  intros H.
  apply (abs_le_small x 180 _ 8 H (val_finite 180 _ _ eq_refl)); [|lia].
  apply Z.leb_le. vm_compute. reflexivity.
Qed.

Lemma radians_finite (x : float) :
  (abs x <=? 180)%float = true ->
  is_finite (x * JS.Math.PI / 180)%float = true.
Proof.
  intros H. apply degrees_small in H.
  assert (HPI : IEEE.small (-51) (Prim2SF JS.Math.PI)) by (vm_compute; discriminate).
  pose proof (mul_small 8 (-51) x JS.Math.PI H HPI ltac:(vm_compute; discriminate))
    as Hmul.
  pose proof (div_small _ (x * JS.Math.PI) 180 _ _ _ Hmul eq_refl
                ltac:(vm_compute; discriminate)) as Hdiv.
  exact (small_finite _ _ Hdiv).
Qed.

Lemma degrees_finite (x : float) :
  (abs x <=? 180)%float = true -> is_finite x = true.
Proof. intros H. exact (small_finite _ _ (degrees_small x H)). Qed.

Lemma leb_90_180 (x : float) :
  (abs x <=? 90)%float = true -> (abs x <=? 180)%float = true.
Proof. intros H. apply (leb_trans _ 90 _ H). reflexivity. Qed.

Lemma cos_small (c : float) :
  (abs c <=? 1)%float = true -> IEEE.small 0 (Prim2SF c).
Proof.
  intros H.
  apply (abs_le_small c 1 _ 0 H (val_finite 1 _ _ eq_refl)); [|lia].
  apply Z.leb_le. vm_compute. reflexivity.
Qed.

Lemma plus_not_negative (y : float) :
  JS.plus y || is_nan y = true -> (y <? 0)%float = false.
Proof.
  rewrite plus_spec, is_nan_spec, ltb_zero_spec.
  now destruct (Prim2SF y) as [[]|[]| |[] m e].
Qed.

Lemma ltb_numeric (x y : float) :
  (x <? y)%float = true -> is_nan x = false /\ is_nan y = false.
Proof.
  rewrite !is_nan_val, ltb_val. now destruct (JS.val x), (JS.val y).
Qed.

(** The product of two numbers with their sign bits clear has its sign bit
    clear, or is [NaN]. *)
Lemma mul_plus (x y : float) :
  JS.plus x || is_nan x = true -> JS.plus y || is_nan y = true ->
  JS.plus (x * y) || is_nan (x * y) = true.
Proof.
  rewrite !plus_spec, !is_nan_spec, mul_spec. unfold SF64mul, SFmul.
  destruct (Prim2SF x) as [[]|[]| |[] mx ex]; try discriminate;
    destruct (Prim2SF y) as [[]|[]| |[] my ey]; try discriminate;
    intros _ _; try reflexivity.
  pose proof (binary_round_aux_shape (xorb false false)
                (Zpos (mx * my)) (ex + ey) loc_Exact) as H.
  destruct (binary_round_aux prec emax (xorb false false)
              (Zpos (mx * my)) (ex + ey) loc_Exact) as [s|s| |s m e];
    try reflexivity; now subst s.
Qed.

(** A number with its sign bit clear that is at most 0 is [+0]. *)
Lemma plus_leb_zero (x : float) :
  JS.plus x || is_nan x = true -> (x <=? 0)%float = true -> x = 0%float.
Proof.
  intros Hp Hle. apply Prim2SF_inj. rewrite Prim2SF_zero.
  rewrite plus_spec, is_nan_spec in Hp. rewrite leb_val in Hle.
  unfold JS.val in Hle. rewrite Prim2SF_zero in Hle.
  pose proof (Prim2SF_valid x) as V.
  revert Hp.
  destruct (Prim2SF x) as [[]|[]| |[] m e]; try discriminate; intros _.
  - reflexivity.
  - exfalso. unfold IEEE.SFval, cond_Zopp in Hle. apply Z.leb_le in Hle.
    unfold valid_binary in V.
    pose proof (bounded_facts _ _ V) as (He & _).
    pose proof (pow2_pos (e + 1074) ltac:(lia)). nia.
Qed.

End Doubles.

(** ** The stable sort by a numeric key *)

Section SortByKey.
Context {A : Type} (key : A -> float).

Local Notation "'byKey'" := (fun a b : A => (key a - key b)%float).
Local Notation "'leKey'" := (fun a b : A => (key a <=? key b)%float = true).
Local Notation "'keyIs' d" := (fun a : A => (key a =? d)%float) (at level 10).
Local Notation "'numeric'" := (fun a : A => is_nan (key a) = false).

Lemma insert_perm (x : A) (l : list A) :
  Permutation (JS.insert byKey x l) (x :: l).
Proof.
  induction l as [|y l IH]; simpl.
  - apply Permutation_refl.
  - destruct (0 <? key x - key y)%float.
    + eapply perm_trans; [apply perm_skip, IH | apply perm_swap].
    + apply Permutation_refl.
Qed.

Lemma sort_perm (l : list A) : Permutation (JS.Array_sort byKey l) l.
Proof.
  induction l as [|x l IH]; simpl.
  - constructor.
  - eapply perm_trans; [apply insert_perm | now apply perm_skip].
Qed.

Lemma sort_numeric (l : list A) :
  Forall numeric l -> Forall numeric (JS.Array_sort byKey l).
Proof.
  intros H. rewrite Forall_forall in *. intros x Hx. apply H.
  exact (Permutation_in _ (sort_perm l) Hx).
Qed.

Lemma insert_sorted (x : A) (l : list A) :
  numeric x -> Forall numeric l ->
  StronglySorted leKey l -> StronglySorted leKey (JS.insert byKey x l).
Proof.
  intros Hx Hn. induction 1 as [|y l Hs IH Hy]; simpl.
  - repeat constructor.
  - inversion Hn as [|? ? Hny Hnl]; subst.
    rewrite sub_pos_ltb. destruct (key y <? key x)%float eqn:Hlt.
    + constructor; [now apply IH|].
      rewrite Forall_forall in *. intros z Hz.
      apply (Permutation_in _ (insert_perm x l)) in Hz.
      destruct Hz as [<-|Hz]; [now apply ltb_leb | now apply Hy].
    + assert (Hxy : (key x <=? key y)%float = true)
        by now apply not_ltb_leb.
      constructor; [now constructor|].
      constructor; [exact Hxy|].
      rewrite Forall_forall in *. intros z Hz.
      exact (leb_trans _ _ _ Hxy (Hy z Hz)).
Qed.

Lemma sort_sorted (l : list A) :
  Forall numeric l -> StronglySorted leKey (JS.Array_sort byKey l).
Proof.
  induction 1 as [|x l Hx Hl IH]; simpl; [constructor|].
  apply insert_sorted; [exact Hx | now apply sort_numeric | exact IH].
Qed.

(** Insertion moves [x] only past elements with a strictly smaller key, so
    the elements of any one key keep their order. *)
Lemma insert_keyIs (d : float) (x : A) (l : list A) :
  filter (keyIs d) (JS.insert byKey x l) = filter (keyIs d) (x :: l).
Proof.
  induction l as [|y l IH]; [reflexivity|].
  simpl JS.insert. rewrite sub_pos_ltb.
  destruct (key y <? key x)%float eqn:Hlt; [|reflexivity].
  change (filter (keyIs d) (y :: JS.insert byKey x l))
    with (if keyIs d y then y :: filter (keyIs d) (JS.insert byKey x l)
          else filter (keyIs d) (JS.insert byKey x l)).
  rewrite IH. simpl.
  pose proof (ltb_eqb_apart _ _ d Hlt) as Hd.
  destruct (key x =? d)%float, (key y =? d)%float; try reflexivity.
  discriminate Hd.
Qed.

Lemma sort_keyIs (d : float) (l : list A) :
  filter (keyIs d) (JS.Array_sort byKey l) = filter (keyIs d) l.
Proof.
  induction l as [|x l IH]; [reflexivity|].
  simpl JS.Array_sort. rewrite insert_keyIs. simpl. now rewrite IH.
Qed.

(** A list sorted by key is determined by its elements of each key, taken
    in order: whatever stable sort an engine runs, it returns the list
    [JS.Array_sort] returns. *)
Lemma sorted_by_classes (l1 l2 : list A) :
  Forall numeric l1 -> Forall numeric l2 ->
  StronglySorted leKey l1 -> StronglySorted leKey l2 ->
  (forall d, filter (keyIs d) l1 = filter (keyIs d) l2) ->
  l1 = l2.
Proof.
  intros N1 N2 H1; revert l2 N2.
  assert (Hhead : forall (x : A) l l', numeric x ->
            Forall numeric l' ->
            StronglySorted leKey (x :: l) ->
            StronglySorted leKey l' ->
            (forall d, filter (keyIs d) (x :: l) = filter (keyIs d) l') ->
            exists t, l' = x :: t).
  { intros x l l' Nx Nl' Hx Hl' E.
    destruct l' as [|y t].
    - specialize (E (key x)). simpl in E.
      rewrite (eqb_numeric_refl _ Nx) in E. discriminate.
    - exists t. f_equal.
      inversion Nl' as [|? ? Ny _]; subst.
      inversion Hx as [|? ? _ Fx]; subst. inversion Hl' as [|? ? _ Fy]; subst.
      rewrite Forall_forall in Fx, Fy.
      assert (Hyx : (key x <=? key y)%float = true).
      { pose proof (E (key y)) as Ey.
        assert (Hin : In y (filter (keyIs (key y)) (x :: l))).
        { rewrite Ey. simpl. rewrite (eqb_numeric_refl _ Ny). now left. }
        apply filter_In in Hin. destruct Hin as [[<-|Hin] _].
        - apply not_ltb_leb; try assumption.
          destruct (key x <? key x)%float eqn:Hlt; [|reflexivity].
          apply ltb_not_leb in Hlt.
          assert (Hle : (key x <=? key x)%float = true).
          { apply not_ltb_leb; try assumption.
            rewrite ltb_val in *. destruct (JS.val (key x)); [|reflexivity].
            apply Z.ltb_irrefl. }
          congruence.
        - now apply Fx. }
      assert (Hxy : (key y <=? key x)%float = true).
      { pose proof (E (key x)) as Ex.
        assert (Hin : In x (filter (keyIs (key x)) (y :: t))).
        { rewrite <- Ex. simpl. rewrite (eqb_numeric_refl _ Nx). now left. }
        apply filter_In in Hin. destruct Hin as [[<-|Hin] _].
        - exact Hyx.
        - now apply Fy. }
      specialize (E (key x)). simpl in E.
      rewrite (eqb_numeric_refl _ Nx) in E.
      rewrite (leb_antisym_eqb _ _ Hxy Hyx) in E.
      congruence. }
  induction H1 as [|x l Hs IH Hx]; intros l2 N2 H2 E.
  - destruct l2 as [|y t]; [reflexivity|].
    inversion N2 as [|? ? Ny _]; subst.
    specialize (E (key y)). simpl in E.
    rewrite (eqb_numeric_refl _ Ny) in E. discriminate.
  - inversion N1 as [|? ? Nx Nl]; subst.
    destruct (Hhead x l l2) as [t ->]; auto.
    { now constructor. }
    f_equal. apply IH.
    + exact Nl.
    + now inversion N2.
    + now inversion H2.
    + intros d. specialize (E d). simpl in E.
      destruct (keyIs d x); congruence.
Qed.

End SortByKey.

(** Whatever stable sort by key an engine runs on keys that are not [NaN],
    its result is that of [JS.Array_sort]. *)
Lemma Array_sort_unique {A : Type} (key : A -> float) (l out : list A) :
  Forall (fun a => is_nan (key a) = false) l ->
  Forall (fun a => is_nan (key a) = false) out ->
  StronglySorted (fun a b => (key a <=? key b)%float = true) out ->
  (forall d, filter (fun a => (key a =? d)%float) out
             = filter (fun a => (key a =? d)%float) l) ->
  out = JS.Array_sort (fun a b => (key a - key b)%float) l.
Proof.
  intros Nl Nout Hs Hst.
  apply (sorted_by_classes key);
    [exact Nout | now apply sort_numeric | exact Hs | now apply sort_sorted |].
  intros d. rewrite Hst. symmetry. apply (sort_keyIs key).
Qed.

(** ** The haversine distance *)

Section Distance.
Import ShopsTab.
Context (M : JS.Math.t).
Local Open Scope float_scope.

Lemma calculateDistance_unfold (lat1 lng1 lat2 lng2 : float) :
  calculateDistance M lat1 lng1 lat2 lng2
  = 6371 * (2 * JS.Math.atan2 M
                  (JS.Math.sqrt (haversine M lat1 lng1 lat2 lng2))
                  (JS.Math.sqrt (1 - haversine M lat1 lng1 lat2 lng2))).
Proof. reflexivity. Qed.

(** When rounding lifts the haversine above 1, the second square root is
    taken of a number below zero: the distance is [NaN]. *)
Lemma calculateDistance_above_one (lat1 lng1 lat2 lng2 : float) :
  JS.Math.ecma262 M ->
  (1 <? haversine M lat1 lng1 lat2 lng2) = true ->
  is_nan (calculateDistance M lat1 lng1 lat2 lng2) = true.
Proof.
  intros E Ha. rewrite calculateDistance_unfold.
  apply mul_nan_r, mul_nan_r, (JS.Math.atan2_nan M E).
  apply orb_true_iff. right.
  apply sqrt_negative. now apply sub_neg_ltb.
Qed.

(** A distance that is [NaN] is not within any tolerance of any number. *)
Lemma nan_not_within (x d tolerance : float) :
  is_nan x = true ->
  (abs (x - d) <=? tolerance) = false /\ (abs (d - x) <=? tolerance) = false.
Proof.
  intros H. split; apply leb_nan_l, abs_nan;
    [now apply sub_nan_l | now apply sub_nan_r].
Qed.

(** Between a point and itself the differences are [+0], and so is every
    term of the haversine. *)
Lemma calculateDistance_same (lat lng : float) :
  JS.Math.ecma262 M -> JS.Math.in_range M ->
  (abs lat <=? 90) = true -> (abs lng <=? 180) = true ->
  calculateDistance M lat lng lat lng = 0.
Proof.
  intros E R Hlat Hlng.
  pose proof (leb_90_180 _ Hlat) as Hlat'.
  unfold calculateDistance. cbv zeta.
  rewrite (sub_self lat (degrees_finite _ Hlat')).
  rewrite (sub_self lng (degrees_finite _ Hlng)).
  change (0 * JS.Math.PI / 180 / 2) with 0.
  rewrite (JS.Math.sin_zero M E).
  pose proof (JS.Math.cos_range M R _ (radians_finite _ Hlat')) as Hc.
  set (c := JS.Math.cos M (lat * JS.Math.PI / 180)) in *.
  rewrite (mul_zero_r (c * c)
             (square_shape 0 c (cos_small c Hc) ltac:(lia))).
  change (0 * 0 + 0 * 0) with 0.
  change (JS.Math.sqrt 0) with 0.
  change (JS.Math.sqrt (1 - 0)) with 1.
  rewrite (JS.Math.atan2_zero M E 1 eq_refl).
  reflexivity.
Qed.

(** The distance is [+0], positive or [NaN]; it is never negative. *)
Lemma calculateDistance_plus (lat1 lng1 lat2 lng2 : float) :
  JS.Math.in_range M ->
  JS.plus (calculateDistance M lat1 lng1 lat2 lng2)
  || is_nan (calculateDistance M lat1 lng1 lat2 lng2) = true.
Proof.
  intros R. unfold calculateDistance. cbv zeta.
  apply mul_plus; [reflexivity|].
  apply mul_plus; [reflexivity|].
  apply (JS.Math.atan2_sign M R).
  apply orb_true_iff. unfold JS.Math.sqrt. apply sqrt_square_plus.
Qed.

Lemma calculateDistance_not_negative (lat1 lng1 lat2 lng2 : float) :
  JS.Math.in_range M ->
  (calculateDistance M lat1 lng1 lat2 lng2 <? 0) = false.
Proof. intros R. now apply plus_not_negative, calculateDistance_plus. Qed.

End Distance.

(** ** The engine of the examples *)

Lemma sample_ecma262 : JS.Math.ecma262 Samples.engine.
Proof.
  constructor.
  - reflexivity.
  - intros x Hx. simpl. unfold Samples.atan2.
    destruct (ltb_numeric _ _ Hx) as [_ Nx]. rewrite Nx, Hx. reflexivity.
  - intros y x H. simpl. unfold Samples.atan2. now rewrite H.
Qed.

Lemma sample_in_range : JS.Math.in_range Samples.engine.
Proof.
  constructor.
  - intros x Hx. simpl. unfold Samples.cos.
    destruct (abs x =? 0x1.6e05a695f8191p-10)%float; [reflexivity|].
    destruct (abs x =? 0x1.3ed9aadfce7b2p-1)%float; [reflexivity|].
    now rewrite Hx.
  - intros y x H. simpl. unfold Samples.atan2.
    destruct (is_nan y || is_nan x); [reflexivity|].
    destruct ((y =? 0)%float && (0 <? x)%float); [exact H|].
    rewrite (plus_not_negative y H). reflexivity.
Qed.

(** ** The distance of points almost opposite on the globe *)

Section Rounding.
Import ShopsTab.
Local Open Scope float_scope.

(** C8. Where rounding lifts the haversine above 1, as it does between
    points almost opposite on the globe, the distance computed is [NaN]: it
    is within no tolerance of any number, so neither of the distance
    computed the other way round nor of itself. Between a point of the
    globe and itself the distance computed is 0. This holds on every
    engine; the second half needs cosines no larger than 1. *)
Theorem calculateDistance_rounding (M : JS.Math.t) :
  JS.Math.ecma262 M ->
  (forall lat1 lng1 lat2 lng2 : float,
      (1 <? JS.Math.sin M ((lat2 - lat1) * JS.Math.PI / 180 / 2)
            * JS.Math.sin M ((lat2 - lat1) * JS.Math.PI / 180 / 2)
            + JS.Math.cos M (lat1 * JS.Math.PI / 180)
              * JS.Math.cos M (lat2 * JS.Math.PI / 180)
              * JS.Math.sin M ((lng2 - lng1) * JS.Math.PI / 180 / 2)
              * JS.Math.sin M ((lng2 - lng1) * JS.Math.PI / 180 / 2)) = true ->
      is_nan (calculateDistance M lat1 lng1 lat2 lng2) = true
      /\ forall d : float,
           (abs (calculateDistance M lat1 lng1 lat2 lng2 - d) <=? 1e-6) = false
           /\ (abs (d - calculateDistance M lat1 lng1 lat2 lng2) <=? 1e-6) = false)
  /\ (JS.Math.in_range M ->
      forall lat lng : float,
        (abs lat <=? 90) = true -> (abs lng <=? 180) = true ->
        calculateDistance M lat lng lat lng = 0
        /\ (abs (calculateDistance M lat lng lat lng - 0) <=? 1e-6) = true).
Proof.
  intros E. split.
  - intros lat1 lng1 lat2 lng2 Ha.
    pose proof (calculateDistance_above_one M lat1 lng1 lat2 lng2 E Ha) as Hnan.
    split; [exact Hnan|]. intros d. now apply nan_not_within.
  - intros R lat lng Hlat Hlng.
    rewrite (calculateDistance_same M lat lng E R Hlat Hlng).
    split; reflexivity.
Qed.

End Rounding.

(** C8 between (0.08, 0) and (-0.08, 180), about 20015 km apart: the
    haversine computed is 1 + 2^-52, the distance is [NaN] in both
    directions, and the two are not within 1e-6 of each other; and at Tokyo
    Station, where the distance to itself is 0. *)
Lemma calculateDistance_rounding_witness :
  ShopsTab.haversine Samples.engine 0.08 0 (-0.08) 180 = 0x1.0000000000001p+0%float
  /\ is_nan (ShopsTab.calculateDistance Samples.engine 0.08 0 (-0.08) 180) = true
  /\ is_nan (ShopsTab.calculateDistance Samples.engine (-0.08) 180 0.08 0) = true
  /\ (abs (ShopsTab.calculateDistance Samples.engine 0.08 0 (-0.08) 180
           - ShopsTab.calculateDistance Samples.engine (-0.08) 180 0.08 0)
      <=? 1e-6)%float = false
  /\ ShopsTab.calculateDistance Samples.engine 35.6812 139.7671 35.6812 139.7671
     = 0%float.
Proof.
  destruct (calculateDistance_rounding Samples.engine sample_ecma262)
    as [Hnan Hsame].
  split; [reflexivity|].
  split; [exact (proj1 (Hnan 0.08 0 (-0.08) 180 eq_refl))%float|].
  split; [exact (proj1 (Hnan (-0.08) 180 0.08 0 eq_refl))%float|].
  split.
  - exact (proj1 (proj2 (Hnan 0.08 0 (-0.08) 180 eq_refl)
                    (ShopsTab.calculateDistance Samples.engine (-0.08) 180 0.08 0)))%float.
  - exact (proj1 (Hsame sample_in_range 35.6812 139.7671 eq_refl eq_refl))%float.
Defined.

(** ** The nearby filter *)

Section NearbyShops.
Import ShopsTab.
Local Open Scope float_scope.

Lemma filter_both {A : Type} (p q : A -> bool) (l : list A) :
  filter p (filter q l) = filter (fun x => p x && q x) l.
Proof.
  induction l as [|x l IH]; [reflexivity|]. simpl.
  destruct (q x); simpl; rewrite ?andb_true_r, ?andb_false_r.
  - destruct (p x); now rewrite IH.
  - exact IH.
Qed.


(** The entries that pass the filter carry a distance that is a number. *)
Lemma kept_numeric (M : JS.Math.t) (loc : Location.t) (r : float)
      (shops : list Shop.t) :
  Forall (fun x => is_nan (distance x) = false)
         (filter (fun shop => distance shop <=? r)
                 (map (withDistance M loc) shops)).
Proof.
  rewrite Forall_forall. intros x Hx. apply filter_In in Hx.
  destruct Hx as [_ Hx]. now apply leb_numeric in Hx.
Qed.

(** C9. While [userLocation] is still [null], as it is until the geolocation
    effect stores the reported position or the Tokyo Station fallback, the
    view is the fetched list itself: nothing is filtered out, no [distance]
    key is added and the order is the fetched one, whatever the list and the
    radius. Once the effect has stored a location the view is the annotated
    list. *)
Theorem nearbyShops_without_location
        (M : JS.Math.t) (shops : list Shop.t) (searchRadius : float) :
  initialUserLocation = None
  /\ nearbyShops M shops None searchRadius = inl shops
  /\ forall outcome, exists loc result,
       setUserLocation outcome = Some loc
       /\ nearbyShops M shops (setUserLocation outcome) searchRadius = inr result.
Proof.
  split; [reflexivity|]. split; [reflexivity|].
  intros [la lo| |]; simpl; eauto.
Qed.


End NearbyShops.


(** ** The registration wizards *)

Lemma phase_confirm {F : Type} (s : State F) :
  phase s = STEP_3_CONFIRM <->
  submitted s = false /\ submitting s = false /\ step s = 3%Z.
Proof.
  unfold phase. split.
  - destruct (submitted s); [discriminate|].
    destruct (submitting s); [discriminate|].
    destruct (Z.eqb_spec (step s) 1); [discriminate|].
    destruct (Z.eqb_spec (step s) 2); [discriminate|].
    destruct (Z.eqb_spec (step s) 3); [auto | discriminate].
  - intros (-> & -> & ->). reflexivity.
Qed.

(** Splitting and rebuilding a state, for the proofs below. *)
Ltac wizard_simpl :=
  unfold setStep, setFormData, setConfirmed, setSubmitting, setSubmitted,
    setError in *; simpl in *.

Section ShopWizard.
Import ShopRegistrationForm.

Lemma shop_submit_guarded (user : option User.t) (supabase : option SupabaseClient)
      (s : ShopState) :
  confirmed s = false \/ user = None ->
  handleSubmit user supabase s
  = (setError (Some (if confirmed s then "ログインが必要です"
                     else "確認チェックを入れてください")) s, [])
  /\ handleSubmit_click user supabase s = (fst (handleSubmit user supabase s), None).
Proof.
  unfold handleSubmit, handleSubmit_click. intros [Hc | ->].
  - rewrite Hc. simpl. auto.
  - destruct (confirmed s); simpl; auto.
Qed.

Lemma shop_submit_runs (u : User.t) (client : SupabaseClient) (s : ShopState) :
  confirmed s = true ->
  handleSubmit (Some u) (Some client) s
  = (handleSubmit_settled (client (insertRow (formData s) u))
       (setError None (setSubmitting true s)),
     [insertRow (formData s) u]).
Proof.
  intros Hc. unfold handleSubmit, handleSubmit_click. rewrite Hc. reflexivity.
Qed.

Lemma shop_settled_failure (o : InsertOutcome) (s : ShopState) :
  o <> Resolved None ->
  handleSubmit_settled o s
  = setSubmitting false
      (setError (Some "登録に失敗しました。もう一度お試しください。") s).
Proof.
  intros Ho. unfold handleSubmit_settled.
  destruct o as [[e|]|r]; [reflexivity | contradiction | reflexivity].
Qed.

End ShopWizard.

Section MerchantWizard.
Import OnlineMerchantRegistrationForm.

Lemma merchant_submit_guarded (user : option User.t)
      (supabase : option SupabaseClient) (s : MerchantState) :
  confirmed s = false \/ user = None ->
  handleSubmit user supabase s
  = (setError (Some (if confirmed s then "ログインが必要です"
                     else "確認チェックを入れてください")) s, [])
  /\ handleSubmit_click user supabase s = (fst (handleSubmit user supabase s), None).
Proof.
  unfold handleSubmit, handleSubmit_click. intros [Hc | ->].
  - rewrite Hc. simpl. auto.
  - destruct (confirmed s); simpl; auto.
Qed.

Lemma merchant_submit_runs (u : User.t) (client : SupabaseClient)
      (s : MerchantState) :
  confirmed s = true ->
  handleSubmit (Some u) (Some client) s
  = (handleSubmit_settled (client (insertRow (formData s) u))
       (setError None (setSubmitting true s)),
     [insertRow (formData s) u]).
Proof.
  intros Hc. unfold handleSubmit, handleSubmit_click. rewrite Hc. reflexivity.
Qed.

Lemma merchant_settled_failure (o : InsertOutcome) (s : MerchantState) :
  o <> Resolved None ->
  handleSubmit_settled o s
  = setSubmitting false
      (setError (Some "登録に失敗しました。もう一度お試しください。") s).
Proof.
  intros Ho. unfold handleSubmit_settled.
  destruct o as [[e|]|r]; [reflexivity | contradiction | reflexivity].
Qed.

End MerchantWizard.

(** C2. At the confirmation step, [handleSubmit] with the check box unticked
    or without a signed-in user makes no insert call, leaves the wizard at
    the confirmation step with [submitted] false and [step] 3, leaves the
    draft as it was and sets an error message, the one of the first test
    that fails; in the shop form and in the merchant form. *)
Theorem handleSubmit_fails_fast :
  (forall (s : ShopRegistrationForm.ShopState) (user : option User.t)
          (supabase : option ShopRegistrationForm.SupabaseClient),
      phase s = STEP_3_CONFIRM ->
      confirmed s = false \/ user = None ->
      let r := ShopRegistrationForm.handleSubmit user supabase s in
      snd r = []
      /\ phase (fst r) = STEP_3_CONFIRM
      /\ step (fst r) = 3%Z
      /\ submitted (fst r) = false
      /\ formData (fst r) = formData s
      /\ confirmed (fst r) = confirmed s
      /\ error (fst r) <> None
      /\ error (fst r)
         = Some (if confirmed s then "ログインが必要です"
                 else "確認チェックを入れてください"))
  /\
  (forall (s : OnlineMerchantRegistrationForm.MerchantState) (user : option User.t)
          (supabase : option OnlineMerchantRegistrationForm.SupabaseClient),
      phase s = STEP_3_CONFIRM ->
      confirmed s = false \/ user = None ->
      let r := OnlineMerchantRegistrationForm.handleSubmit user supabase s in
      snd r = []
      /\ phase (fst r) = STEP_3_CONFIRM
      /\ step (fst r) = 3%Z
      /\ submitted (fst r) = false
      /\ formData (fst r) = formData s
      /\ confirmed (fst r) = confirmed s
      /\ error (fst r) <> None
      /\ error (fst r)
         = Some (if confirmed s then "ログインが必要です"
                 else "確認チェックを入れてください")).
Proof.
  split; intros s user supabase Hp Hg r; subst r.
  - destruct (shop_submit_guarded user supabase s Hg) as [-> _].
    apply phase_confirm in Hp. destruct Hp as (Hsub & Hing & Hstep).
    simpl. repeat split; try assumption; try reflexivity.
    + apply phase_confirm. wizard_simpl. auto.
    + discriminate.
  - destruct (merchant_submit_guarded user supabase s Hg) as [-> _].
    apply phase_confirm in Hp. destruct Hp as (Hsub & Hing & Hstep).
    simpl. repeat split; try assumption; try reflexivity.
    + apply phase_confirm. wizard_simpl. auto.
    + discriminate.
Qed.

(** C3. At the confirmation step with the check box ticked and a signed-in
    user, when the insert call fails (it resolves with an error or rejects)
    [handleSubmit] makes that one call and leaves the wizard at the
    confirmation step: [submitted] false, [step] 3, the draft as it was, and
    the generic failure message in the error cell; in both forms, and whether
    or not the draft is valid. *)
Theorem handleSubmit_insert_failure :
  (forall (s : ShopRegistrationForm.ShopState) (u : User.t)
          (client : ShopRegistrationForm.SupabaseClient),
      phase s = STEP_3_CONFIRM ->
      confirmed s = true ->
      client (ShopRegistrationForm.insertRow (formData s) u) <> Resolved None ->
      let r := ShopRegistrationForm.handleSubmit (Some u) (Some client) s in
      snd r = [ShopRegistrationForm.insertRow (formData s) u]
      /\ phase (fst r) = STEP_3_CONFIRM
      /\ step (fst r) = 3%Z
      /\ submitted (fst r) = false
      /\ formData (fst r) = formData s
      /\ confirmed (fst r) = true
      /\ error (fst r) = Some "登録に失敗しました。もう一度お試しください。")
  /\
  (forall (s : OnlineMerchantRegistrationForm.MerchantState) (u : User.t)
          (client : OnlineMerchantRegistrationForm.SupabaseClient),
      phase s = STEP_3_CONFIRM ->
      confirmed s = true ->
      client (OnlineMerchantRegistrationForm.insertRow (formData s) u)
      <> Resolved None ->
      let r := OnlineMerchantRegistrationForm.handleSubmit (Some u) (Some client) s in
      snd r = [OnlineMerchantRegistrationForm.insertRow (formData s) u]
      /\ phase (fst r) = STEP_3_CONFIRM
      /\ step (fst r) = 3%Z
      /\ submitted (fst r) = false
      /\ formData (fst r) = formData s
      /\ confirmed (fst r) = true
      /\ error (fst r) = Some "登録に失敗しました。もう一度お試しください。").
Proof.
  split; intros s u client Hp Hc Hfail r; subst r;
    apply phase_confirm in Hp; destruct Hp as (Hsub & Hing & Hstep).
  - rewrite (shop_submit_runs u client s Hc).
    rewrite (shop_settled_failure _ _ Hfail). simpl.
    repeat split; try assumption.
    apply phase_confirm. wizard_simpl. auto.
  - rewrite (merchant_submit_runs u client s Hc).
    rewrite (merchant_settled_failure _ _ Hfail). simpl.
    repeat split; try assumption.
    apply phase_confirm. wizard_simpl. auto.
Qed.

(** *** The step index *)

Ltac split_ifs :=
  repeat match goal with
         | |- context [if ?c then _ else _] => destruct c eqn:?
         | |- context [match ?c with (_, _) => _ end] => destruct c eqn:?
         end.

Section ShopSteps.
Import ShopRegistrationForm.

Lemma shop_validateStep1_keeps (s : ShopState) :
  step (snd (validateStep1 s)) = step s
  /\ formData (snd (validateStep1 s)) = formData s.
Proof. unfold validateStep1. split_ifs; auto. Qed.

Lemma shop_validateStep2_keeps (s : ShopState) :
  step (snd (validateStep2 s)) = step s
  /\ formData (snd (validateStep2 s)) = formData s.
Proof. unfold validateStep2. split_ifs; auto. Qed.

Lemma shop_nextStep_step (s : ShopState) :
  step (nextStep s) = step s
  \/ (step s = 1 /\ step (nextStep s) = 2)%Z
  \/ (step s = 2 /\ step (nextStep s) = 3)%Z.
Proof.
  unfold nextStep.
  destruct (Z.eqb_spec (step s) 1) as [H1|H1].
  - pose proof (shop_validateStep1_keeps s) as [K _].
    destruct (validateStep1 s) as [[|] s1]; simpl in *; auto.
  - destruct (Z.eqb_spec (step s) 2) as [H2|H2]; [|auto].
    pose proof (shop_validateStep2_keeps s) as [K _].
    destruct (validateStep2 s) as [[|] s2]; simpl in *; auto.
Qed.

Lemma shop_fire_step (w : World) (e : Event) :
  (1 <= step (view w) <= 3)%Z -> offered w e = true ->
  (1 <= step (view (fire e w)) <= 3)%Z.
Proof.
  intros Hs He.
  destruct e as [nm v|f v|la lo|la lo|c| | |u sb|o| ]; simpl in *.
  1-5: exact Hs.
  - (* ClickNext *)
    destruct (shop_nextStep_step (view w)) as [K | [[_ K] | [_ K]]]; lia.
  - (* ClickBack: rendered only when [step > 1] *)
    apply andb_prop in He. destruct He as [_ He].
    apply Z.ltb_lt in He. lia.
  - (* ClickSubmit *)
    unfold handleSubmit_click.
    destruct (confirmed (view w)); simpl; [|exact Hs].
    destruct u; [destruct sb|]; simpl; exact Hs.
  - (* InsertSettled *)
    destruct o as [[err|]|reason]; simpl; exact Hs.
  - (* ClickReset *)
    lia.
Qed.

Lemma shop_reachable_step (w : World) :
  reachable w -> (1 <= step (view w) <= 3)%Z.
Proof.
  induction 1 as [|w e _ IH He]; [simpl; lia | now apply shop_fire_step].
Qed.

Lemma shop_handleSubmit_step (user : option User.t)
      (supabase : option SupabaseClient) (s : ShopState) :
  step (fst (handleSubmit user supabase s)) = step s.
Proof.
  unfold handleSubmit, handleSubmit_click.
  destruct (confirmed s); simpl; [|reflexivity].
  destruct user as [u|]; [|reflexivity].
  destruct supabase as [client|]; [|reflexivity].
  unfold handleSubmit_settled.
  destruct (client _) as [[err|]|reason]; reflexivity.
Qed.

Lemma shop_resetForm_step (s : ShopState) : step (resetForm s) = 1%Z.
Proof. reflexivity. Qed.

(** The guard is in the render, not in the handler: on its own [prevStep]
    leaves the range at the first step. *)
Lemma shop_prevStep_unguarded : step (prevStep initialState) = 0%Z.
Proof. reflexivity. Qed.

End ShopSteps.

Section MerchantSteps.
Import OnlineMerchantRegistrationForm.

Lemma merchant_validateStep1_keeps (s : MerchantState) :
  step (snd (validateStep1 s)) = step s
  /\ formData (snd (validateStep1 s)) = formData s.
Proof. unfold validateStep1. split_ifs; auto. Qed.

Lemma merchant_validateStep2_keeps (s : MerchantState) :
  step (snd (validateStep2 s)) = step s
  /\ formData (snd (validateStep2 s)) = formData s.
Proof. unfold validateStep2. split_ifs; auto. Qed.

Lemma merchant_nextStep_step (s : MerchantState) :
  step (nextStep s) = step s
  \/ (step s = 1 /\ step (nextStep s) = 2)%Z
  \/ (step s = 2 /\ step (nextStep s) = 3)%Z.
Proof.
  unfold nextStep.
  destruct (Z.eqb_spec (step s) 1) as [H1|H1].
  - pose proof (merchant_validateStep1_keeps s) as [K _].
    destruct (validateStep1 s) as [[|] s1]; simpl in *; auto.
  - destruct (Z.eqb_spec (step s) 2) as [H2|H2]; [|auto].
    pose proof (merchant_validateStep2_keeps s) as [K _].
    destruct (validateStep2 s) as [[|] s2]; simpl in *; auto.
Qed.

Lemma merchant_fire_step (w : World) (e : Event) :
  (1 <= step (view w) <= 3)%Z -> offered w e = true ->
  (1 <= step (view (fire e w)) <= 3)%Z.
Proof.
  intros Hs He.
  destruct e as [nm v|f v| |tg|c| | |u sb|o| ]; simpl in *.
  1-5: exact Hs.
  - (* ClickNext *)
    destruct (merchant_nextStep_step (view w)) as [K | [[_ K] | [_ K]]]; lia.
  - (* ClickBack: rendered only when [step > 1] *)
    apply andb_prop in He. destruct He as [_ He].
    apply Z.ltb_lt in He. lia.
  - (* ClickSubmit *)
    unfold handleSubmit_click.
    destruct (confirmed (view w)); simpl; [|exact Hs].
    destruct u; [destruct sb|]; simpl; exact Hs.
  - (* InsertSettled *)
    destruct o as [[err|]|reason]; simpl; exact Hs.
  - (* ClickReset *)
    lia.
Qed.

Lemma merchant_reachable_step (w : World) :
  reachable w -> (1 <= step (view w) <= 3)%Z.
Proof.
  induction 1 as [|w e _ IH He]; [simpl; lia | now apply merchant_fire_step].
Qed.

Lemma merchant_handleSubmit_step (user : option User.t)
      (supabase : option SupabaseClient) (s : MerchantState) :
  step (fst (handleSubmit user supabase s)) = step s.
Proof.
  unfold handleSubmit, handleSubmit_click.
  destruct (confirmed s); simpl; [|reflexivity].
  destruct user as [u|]; [|reflexivity].
  destruct supabase as [client|]; [|reflexivity].
  unfold handleSubmit_settled.
  destruct (client _) as [[err|]|reason]; reflexivity.
Qed.

Lemma merchant_resetForm_step (s : MerchantState) : step (resetForm s) = 1%Z.
Proof. reflexivity. Qed.

Lemma merchant_prevStep_unguarded : step (prevStep initialState) = 0%Z.
Proof. reflexivity. Qed.

End MerchantSteps.

Lemma in_123 (z : Z) : (1 <= z <= 3)%Z -> In z [1; 2; 3]%Z.
Proof. intros H. simpl. lia. Qed.

(** C7. In every state the wizard reaches from its initial state the step
    index is 1, 2 or 3, and each operation keeps it there: [nextStep],
    [prevStep] where the back button is rendered, [handleSubmit] whatever its
    outcome, [resetForm], and more generally any event the rendered form
    offers in that state; in both forms. *)
Theorem wizard_step_invariant :
  (forall w : ShopRegistrationForm.World,
      ShopRegistrationForm.reachable w ->
      let s := ShopRegistrationForm.view w in
      In (step s) [1; 2; 3]%Z
      /\ In (step (ShopRegistrationForm.nextStep s)) [1; 2; 3]%Z
      /\ (ShopRegistrationForm.offered w ShopRegistrationForm.ClickBack = true ->
          In (step (ShopRegistrationForm.prevStep s)) [1; 2; 3]%Z)
      /\ (forall user supabase,
            In (step (fst (ShopRegistrationForm.handleSubmit user supabase s)))
               [1; 2; 3]%Z)
      /\ In (step (ShopRegistrationForm.resetForm s)) [1; 2; 3]%Z
      /\ (forall e, ShopRegistrationForm.offered w e = true ->
            In (step (ShopRegistrationForm.view (ShopRegistrationForm.fire e w)))
               [1; 2; 3]%Z))
  /\
  (forall w : OnlineMerchantRegistrationForm.World,
      OnlineMerchantRegistrationForm.reachable w ->
      let s := OnlineMerchantRegistrationForm.view w in
      In (step s) [1; 2; 3]%Z
      /\ In (step (OnlineMerchantRegistrationForm.nextStep s)) [1; 2; 3]%Z
      /\ (OnlineMerchantRegistrationForm.offered w
            OnlineMerchantRegistrationForm.ClickBack = true ->
          In (step (OnlineMerchantRegistrationForm.prevStep s)) [1; 2; 3]%Z)
      /\ (forall user supabase,
            In (step (fst (OnlineMerchantRegistrationForm.handleSubmit
                             user supabase s)))
               [1; 2; 3]%Z)
      /\ In (step (OnlineMerchantRegistrationForm.resetForm s)) [1; 2; 3]%Z
      /\ (forall e, OnlineMerchantRegistrationForm.offered w e = true ->
            In (step (OnlineMerchantRegistrationForm.view
                        (OnlineMerchantRegistrationForm.fire e w)))
               [1; 2; 3]%Z)).
Proof.
  split; intros w Hw s; subst s.
  - pose proof (shop_reachable_step w Hw) as Hs.
    split; [now apply in_123|].
    split.
    { apply in_123.
      destruct (shop_nextStep_step (ShopRegistrationForm.view w))
        as [K | [[_ K] | [_ K]]]; lia. }
    split.
    { intros He. apply in_123.
      apply (shop_fire_step w ShopRegistrationForm.ClickBack Hs He). }
    split.
    { intros user supabase. rewrite shop_handleSubmit_step. now apply in_123. }
    split.
    { rewrite shop_resetForm_step. simpl. auto. }
    intros e He. apply in_123. now apply shop_fire_step.
  - pose proof (merchant_reachable_step w Hw) as Hs.
    split; [now apply in_123|].
    split.
    { apply in_123.
      destruct (merchant_nextStep_step (OnlineMerchantRegistrationForm.view w))
        as [K | [[_ K] | [_ K]]]; lia. }
    split.
    { intros He. apply in_123.
      apply (merchant_fire_step w OnlineMerchantRegistrationForm.ClickBack Hs He). }
    split.
    { intros user supabase. rewrite merchant_handleSubmit_step. now apply in_123. }
    split.
    { rewrite merchant_resetForm_step. simpl. auto. }
    intros e He. apply in_123. now apply merchant_fire_step.
Qed.

(** *** What the shop form submits *)

Section ShopRows.
Import ShopRegistrationForm ShopFormData.

Lemma includes_true_iff (arr : list string) (v : string) :
  JS.includes arr v = true <-> In v arr.
Proof.
  unfold JS.includes. rewrite existsb_exists. split.
  - intros [x [Hx He]]. apply String.eqb_eq in He. now subst.
  - intros Hv. exists v. split; [exact Hv | apply String.eqb_refl].
Qed.

Lemma not_in_without (v : string) (arr : list string) :
  ~ In v (filter (fun x => negb (String.eqb x v)) arr).
Proof.
  intros H. apply filter_In in H. destruct H as [_ H].
  now rewrite String.eqb_refl in H.
Qed.

(** C4. Scenario A: for the draft with name "Crypto Cafe", address "Tokyo",
    category "カフェ", use cases ["店頭決済"], networks ["Polygon"] and payment
    method "QRコード決済", with the check box ticked and a signed-in user,
    [handleSubmit] makes one insert call, whose row has tags ["カフェ"],
    jpyc_networks ["Polygon"], payment_methods ["QRコード決済"], status
    "pending", created_by the user's id, and both vote counters 0. *)
Theorem shop_scenario_A (s : ShopState) (u : User.t) (client : SupabaseClient) :
  confirmed s = true ->
  name (formData s) = "Crypto Cafe" ->
  address (formData s) = "Tokyo" ->
  category (formData s) = "カフェ" ->
  jpycUseCases (formData s) = ["店頭決済"] ->
  networks (formData s) = ["Polygon"] ->
  paymentMethod (formData s) = "QRコード決済" ->
  exists row,
    snd (handleSubmit (Some u) (Some client) s) = [row]
    /\ Row.name row = "Crypto Cafe"
    /\ Row.address row = "Tokyo"
    /\ Row.tags row = ["カフェ"]
    /\ Row.jpyc_networks row = ["Polygon"]
    /\ Row.payment_methods row = ["QRコード決済"]
    /\ Row.status row = "pending"
    /\ Row.created_by row = User.id u
    /\ Row.upvotes row = 0%Z
    /\ Row.downvotes row = 0%Z.
Proof.
  intros Hc Hn Ha Hcat Huc Hnet Hpm.
  rewrite (shop_submit_runs u client s Hc). simpl.
  eexists. split; [reflexivity|].
  unfold insertRow. rewrite Hn, Ha, Hcat, Hnet, Hpm. simpl.
  repeat split; reflexivity.
Qed.

(** The inserted row is the same whatever the use-case cells of the draft
    hold: neither the boxes ticked nor the free text reach the store. *)
Lemma shop_row_ignores_use_cases (fd : ShopFormData.t) (u : User.t) (v : string) :
  insertRow (handleInputChange n_jpycUseCaseOther v fd) u = insertRow fd u
  /\ insertRow (handleCheckboxChange f_jpycUseCases v fd) u = insertRow fd u.
Proof. split; reflexivity. Qed.

(** The network half of the shaping: the ticked networks without the
    sentinel, followed by the trimmed free text when the sentinel is ticked
    and the free text is not blank. *)
Lemma shop_row_networks (fd : ShopFormData.t) (u : User.t) :
  Row.jpyc_networks (insertRow fd u)
  = (filter (fun n => negb (String.eqb n sonota)) (networks fd)
     ++ (if JS.includes (networks fd) sonota
            && JS.truthy (JS.trim (networkOther fd))
         then [JS.trim (networkOther fd)] else []))%list.
Proof.
  unfold insertRow. simpl.
  destruct (JS.includes (networks fd) sonota && JS.truthy (JS.trim (networkOther fd)));
    [reflexivity | now rewrite app_nil_r].
Qed.

(** C6 at a concrete draft. Use cases ["店頭決済"] with the free text "寄付",
    networks ["Polygon"; "その他"] with the free text "Astar": the one row
    inserted carries the network free text, appended to the networks ticked,
    and carries the use cases nowhere. *)
Theorem shop_use_cases_not_submitted :
  jpycUseCases Samples.scenarioA_others = ["店頭決済"]
  /\ jpycUseCaseOther Samples.scenarioA_others = "寄付"
  /\ handleSubmit (Some Samples.user1) (Some (fun _ => Resolved None))
                  (Samples.atConfirm Samples.scenarioA_others true)
     = (setSubmitted true (Samples.atConfirm Samples.scenarioA_others true),
        [ {| Row.name := "Crypto Cafe";
             Row.address := "Tokyo";
             Row.lat := 35.6812;
             Row.lng := 139.7671;
             Row.jpyc_networks := ["Polygon"; "Astar"];
             Row.payment_methods := ["QRコード決済"];
             Row.url := None;
             Row.tags := ["カフェ"];
             Row.status := "pending";
             Row.created_by := "user-1";
             Row.upvotes := 0;
             Row.downvotes := 0 |} ]).
Proof. repeat split; reflexivity. Qed.

(** C10. A draft whose networks are exactly ["その他"] with a blank free text
    passes the network test of step 2: [validateStep2] succeeds as soon as
    the use-case and payment tests do, and never reports the network
    message. On submit the row's jpyc_networks is empty. *)
Theorem shop_sentinel_only_network
        (s : ShopState) (u : User.t) (client : SupabaseClient) :
  networks (formData s) = [sonota] ->
  JS.truthy (JS.trim (networkOther (formData s))) = false ->
  (fst (validateStep2 s) = true <->
     (jpycUseCases (formData s) <> []
      \/ JS.truthy (JS.trim (jpycUseCaseOther (formData s))) = true)
     /\ JS.truthy (paymentMethod (formData s)) = true)
  /\ error (snd (validateStep2 s))
     <> Some "対応ネットワークを1つ以上選択してください"
  /\ (step s = 2%Z -> fst (validateStep2 s) = true -> step (nextStep s) = 3%Z)
  /\ (confirmed s = true ->
      exists row,
        snd (handleSubmit (Some u) (Some client) s) = [row]
        /\ Row.jpyc_networks row = []).
Proof.
  intros Hnet Hblank.
  assert (Hv : validateStep2 s
               = if (List.length (jpycUseCases (formData s)) =? 0)%nat
                    && negb (JS.truthy (JS.trim (jpycUseCaseOther (formData s))))
                 then (false, setError (Some "JPYCの使い方を1つ以上選択してください") s)
                 else if negb (JS.truthy (paymentMethod (formData s)))
                 then (false, setError (Some "支払い方法を選択してください") s)
                 else (true, setError None s)).
  { unfold validateStep2. rewrite Hnet. reflexivity. }
  split; [|split; [|split]].
  - rewrite Hv.
    destruct (jpycUseCases (formData s)) as [|c cs]; simpl;
      destruct (JS.truthy (JS.trim (jpycUseCaseOther (formData s)))); simpl;
      destruct (JS.truthy (paymentMethod (formData s))); simpl;
      intuition (discriminate || congruence).
  - rewrite Hv. split_ifs; simpl; discriminate.
  - intros Hstep Hok. unfold nextStep. rewrite Hstep. simpl.
    destruct (validateStep2 s) as [ok s2] eqn:E. simpl in Hok. subst ok.
    pose proof (shop_validateStep2_keeps s) as [K _]. rewrite E in K. simpl in K.
    reflexivity.
  - intros Hc. rewrite (shop_submit_runs u client s Hc). simpl.
    eexists. split; [reflexivity|].
    rewrite shop_row_networks. rewrite Hnet, Hblank. reflexivity.
Qed.

End ShopRows.

(** *** What the merchant form submits *)

Section MerchantRows.
Import OnlineMerchantRegistrationForm MerchantFormData.

(** The platform half of the shaping. *)
Lemma merchant_row_platforms (fd : MerchantFormData.t) (u : User.t) :
  Row.platforms (insertRow fd u)
  = (filter (fun p => negb (String.eqb p sonota)) (platforms fd)
     ++ (if JS.includes (platforms fd) sonota
            && JS.truthy (JS.trim (platformOther fd))
         then [JS.trim (platformOther fd)] else []))%list.
Proof.
  unfold insertRow. simpl.
  destruct (JS.includes (platforms fd) sonota
            && JS.truthy (JS.trim (platformOther fd)));
    [reflexivity | now rewrite app_nil_r].
Qed.

(** The sentinel reaches the store in exactly one way: it is ticked and the
    free text, once trimmed, is the sentinel itself. *)
Lemma merchant_row_sentinel (fd : MerchantFormData.t) (u : User.t) :
  In sonota (Row.platforms (insertRow fd u)) <->
  In sonota (platforms fd) /\ JS.trim (platformOther fd) = sonota.
Proof.
  rewrite merchant_row_platforms, in_app_iff. split.
  - intros [H | H]; [now apply not_in_without in H|].
    destruct (JS.includes (platforms fd) sonota) eqn:Hinc; simpl in H;
      [|contradiction].
    destruct (JS.truthy (JS.trim (platformOther fd))); simpl in H;
      [|contradiction].
    destruct H as [H | []]. split; [now apply includes_true_iff | exact H].
  - intros [Hin Heq]. right.
    apply includes_true_iff in Hin. rewrite Hin, Heq. simpl. now left.
Qed.

(** C5, as stated, fails: with the sentinel ticked and "その他" typed as the
    free text, the draft is valid, the free text is not blank, and the row
    inserted lists the sentinel. *)
Lemma merchant_sentinel_submitted :
  fst (validateStep1 (Samples.atConfirm (Samples.scenarioB "その他") true)) = true
  /\ fst (validateStep2 (Samples.atConfirm (Samples.scenarioB "その他") true)) = true
  /\ JS.includes (platforms (Samples.scenarioB "その他")) "その他" = true
  /\ JS.truthy (JS.trim (platformOther (Samples.scenarioB "その他"))) = true
  /\ exists row,
       snd (handleSubmit (Some Samples.user1) (Some (fun _ => Resolved None))
                         (Samples.atConfirm (Samples.scenarioB "その他") true))
       = [row]
       /\ Row.platforms row = ["その他"]
       /\ In "その他" (Row.platforms row).
Proof.
  repeat split; try reflexivity.
  eexists. split; [reflexivity|]. split; [reflexivity|]. now left.
Qed.

(** C5, amended. For a draft with the check box ticked, the sentinel among
    the platforms and a free text that is not blank, the row inserted lists
    the platforms ticked without the sentinel, followed by the trimmed free
    text; it lists the literal sentinel only if the trimmed free text is the
    sentinel itself. *)
Theorem merchant_platform_other
        (s : MerchantState) (u : User.t) (client : SupabaseClient) :
  confirmed s = true ->
  JS.includes (platforms (formData s)) sonota = true ->
  JS.truthy (JS.trim (platformOther (formData s))) = true ->
  exists row,
    snd (handleSubmit (Some u) (Some client) s) = [row]
    /\ Row.platforms row
       = (filter (fun p => negb (String.eqb p sonota)) (platforms (formData s))
          ++ [JS.trim (platformOther (formData s))])%list
    /\ In (JS.trim (platformOther (formData s))) (Row.platforms row)
    /\ (In sonota (Row.platforms row)
        <-> JS.trim (platformOther (formData s)) = sonota)
    /\ (forall fd' u',
          In sonota (Row.platforms (insertRow fd' u')) ->
          JS.trim (platformOther fd') = sonota).
Proof.
  intros Hc Hinc Hother.
  rewrite (merchant_submit_runs u client s Hc). simpl.
  eexists. split; [reflexivity|].
  assert (E : Row.platforms (insertRow (formData s) u)
              = (filter (fun p => negb (String.eqb p sonota)) (platforms (formData s))
                 ++ [JS.trim (platformOther (formData s))])%list).
  { rewrite merchant_row_platforms, Hinc, Hother. reflexivity. }
  split; [exact E|]. split; [|split].
  - rewrite E. apply in_or_app. right. now left.
  - rewrite merchant_row_sentinel. apply includes_true_iff in Hinc. tauto.
  - intros fd' u' H. now apply merchant_row_sentinel in H.
Qed.

End MerchantRows.

(** ** The properties at concrete inputs *)

Lemma shop_fires_reachable (es : list ShopRegistrationForm.Event)
      (w w' : ShopRegistrationForm.World) :
  ShopRegistrationForm.reachable w ->
  ShopRegistrationForm.fires es w = Some w' ->
  ShopRegistrationForm.reachable w'.
Proof.
  revert w. induction es as [|e es IH]; simpl; intros w Hw H.
  - now inversion H; subst.
  - destruct (ShopRegistrationForm.offered w e) eqn:He; [|discriminate].
    apply (IH _ (ShopRegistrationForm.reach_fire w e Hw He) H).
Qed.

Lemma merchant_fires_reachable (es : list OnlineMerchantRegistrationForm.Event)
      (w w' : OnlineMerchantRegistrationForm.World) :
  OnlineMerchantRegistrationForm.reachable w ->
  OnlineMerchantRegistrationForm.fires es w = Some w' ->
  OnlineMerchantRegistrationForm.reachable w'.
Proof.
  revert w. induction es as [|e es IH]; simpl; intros w Hw H.
  - now inversion H; subst.
  - destruct (OnlineMerchantRegistrationForm.offered w e) eqn:He; [|discriminate].
    apply (IH _ (OnlineMerchantRegistrationForm.reach_fire w e Hw He) H).
Qed.

(** C2 at the confirmation step of scenario A with the box unticked and a
    user signed in, and of scenario B with the box ticked and nobody signed
    in. *)
Lemma handleSubmit_fails_fast_witness :
  (let r := ShopRegistrationForm.handleSubmit
              (Some Samples.user1) (Some (fun _ => Resolved None))
              (Samples.atConfirm Samples.scenarioA false) in
   snd r = [] /\ phase (fst r) = STEP_3_CONFIRM
   /\ error (fst r) = Some "確認チェックを入れてください")
  /\
  (let r := OnlineMerchantRegistrationForm.handleSubmit
              None (Some (fun _ => Resolved None))
              (Samples.atConfirm (Samples.scenarioB "Discord Bot") true) in
   snd r = [] /\ phase (fst r) = STEP_3_CONFIRM
   /\ error (fst r) = Some "ログインが必要です").
Proof.
  split.
  - destruct (proj1 handleSubmit_fails_fast
                (Samples.atConfirm Samples.scenarioA false)
                (Some Samples.user1) (Some (fun _ => Resolved None))
                eq_refl (or_introl eq_refl))
      as (H1 & H2 & _ & _ & _ & _ & _ & H3).
    exact (conj H1 (conj H2 H3)).
  - destruct (proj2 handleSubmit_fails_fast
                (Samples.atConfirm (Samples.scenarioB "Discord Bot") true)
                None (Some (fun _ => Resolved None))
                eq_refl (or_intror eq_refl))
      as (H1 & H2 & _ & _ & _ & _ & _ & H3).
    exact (conj H1 (conj H2 H3)).
Defined.

(** C3 at the confirmation step of scenario A, with a client whose insert
    resolves with an error, and of scenario B, with a client whose insert
    rejects. *)
Lemma handleSubmit_insert_failure_witness :
  (let s := Samples.atConfirm Samples.scenarioA true in
   let r := ShopRegistrationForm.handleSubmit
              (Some Samples.user1)
              (Some (fun _ => Resolved (Some "permission denied"))) s in
   phase (fst r) = STEP_3_CONFIRM /\ formData (fst r) = Samples.scenarioA
   /\ error (fst r) = Some "登録に失敗しました。もう一度お試しください。")
  /\
  (let s := Samples.atConfirm (Samples.scenarioB "Discord Bot") true in
   let r := OnlineMerchantRegistrationForm.handleSubmit
              (Some Samples.user1) (Some (fun _ => Rejected "network")) s in
   phase (fst r) = STEP_3_CONFIRM
   /\ formData (fst r) = Samples.scenarioB "Discord Bot"
   /\ error (fst r) = Some "登録に失敗しました。もう一度お試しください。").
Proof.
  split.
  - destruct (proj1 handleSubmit_insert_failure
                (Samples.atConfirm Samples.scenarioA true)
                Samples.user1
                (fun _ => Resolved (Some "permission denied"))
                eq_refl eq_refl ltac:(discriminate))
      as (_ & H1 & _ & _ & H2 & _ & H3).
    exact (conj H1 (conj H2 H3)).
  - destruct (proj2 handleSubmit_insert_failure
                (Samples.atConfirm (Samples.scenarioB "Discord Bot") true)
                Samples.user1
                (fun _ => Rejected "network")
                eq_refl eq_refl ltac:(discriminate))
      as (_ & H1 & _ & _ & H2 & _ & H3).
    exact (conj H1 (conj H2 H3)).
Defined.

(** C4 at the draft of scenario A, the other cells at their defaults. *)
Lemma shop_scenario_A_witness :
  exists row,
    snd (ShopRegistrationForm.handleSubmit
           (Some Samples.user1) (Some (fun _ => Resolved None))
           (Samples.atConfirm Samples.scenarioA true)) = [row]
    /\ ShopRegistrationForm.Row.tags row = ["カフェ"]
    /\ ShopRegistrationForm.Row.jpyc_networks row = ["Polygon"]
    /\ ShopRegistrationForm.Row.payment_methods row = ["QRコード決済"]
    /\ ShopRegistrationForm.Row.status row = "pending"
    /\ ShopRegistrationForm.Row.created_by row = "user-1"
    /\ ShopRegistrationForm.Row.upvotes row = 0%Z
    /\ ShopRegistrationForm.Row.downvotes row = 0%Z.
Proof.
  destruct (shop_scenario_A
              (Samples.atConfirm Samples.scenarioA true)
              Samples.user1 (fun _ => Resolved None)
              eq_refl eq_refl eq_refl eq_refl eq_refl eq_refl eq_refl)
    as (row & H & _ & _ & H1 & H2 & H3 & H4 & H5 & H6 & H7).
  exists row. repeat split; assumption.
Defined.

(** C5, amended, at scenario B: platforms ["その他"] with the free text
    "Discord Bot". *)
Lemma merchant_platform_other_witness :
  exists row,
    snd (OnlineMerchantRegistrationForm.handleSubmit
           (Some Samples.user1) (Some (fun _ => Resolved None))
           (Samples.atConfirm (Samples.scenarioB "Discord Bot") true)) = [row]
    /\ OnlineMerchantRegistrationForm.Row.platforms row = ["Discord Bot"]
    /\ ~ In "その他" (OnlineMerchantRegistrationForm.Row.platforms row).
Proof.
  destruct (merchant_platform_other
              (Samples.atConfirm (Samples.scenarioB "Discord Bot") true)
              Samples.user1 (fun _ => Resolved None)
              eq_refl eq_refl eq_refl)
    as (row & H & H1 & _ & H2 & _).
  exists row. split; [exact H|]. split; [exact H1|].
  intros Hin. apply H2 in Hin. discriminate Hin.
Defined.

(** C7 along a session of each form: the steps are filled in and passed, the
    box is ticked, the insert fails, and the user goes back one step. *)
Lemma wizard_step_invariant_witness :
  (exists w,
      ShopRegistrationForm.fires
        [ ShopRegistrationForm.InputChange ShopRegistrationForm.n_name "Crypto Cafe";
          ShopRegistrationForm.InputChange ShopRegistrationForm.n_address "Tokyo";
          ShopRegistrationForm.InputChange ShopRegistrationForm.n_category "カフェ";
          ShopRegistrationForm.ClickNext;
          ShopRegistrationForm.CheckboxChange
            ShopRegistrationForm.f_jpycUseCases "店頭決済";
          ShopRegistrationForm.CheckboxChange
            ShopRegistrationForm.f_networks "Polygon";
          ShopRegistrationForm.InputChange
            ShopRegistrationForm.n_paymentMethod "QRコード決済";
          ShopRegistrationForm.ClickNext;
          ShopRegistrationForm.ConfirmedChange true;
          ShopRegistrationForm.ClickSubmit
            (Some Samples.user1) (Some (fun _ => Resolved None));
          ShopRegistrationForm.InsertSettled (Rejected "network");
          ShopRegistrationForm.ClickBack ]
        ShopRegistrationForm.initialWorld = Some w
      /\ step (ShopRegistrationForm.view w) = 2%Z
      /\ In (step (ShopRegistrationForm.view w)) [1; 2; 3]%Z)
  /\
  (exists w,
      OnlineMerchantRegistrationForm.fires
        [ OnlineMerchantRegistrationForm.InputChange
            OnlineMerchantRegistrationForm.n_name "Bot Shop";
          OnlineMerchantRegistrationForm.InputChange
            OnlineMerchantRegistrationForm.n_url "https://example.com";
          OnlineMerchantRegistrationForm.InputChange
            OnlineMerchantRegistrationForm.n_serviceType "EC";
          OnlineMerchantRegistrationForm.ClickNext;
          OnlineMerchantRegistrationForm.InputChange
            OnlineMerchantRegistrationForm.n_jpycUseCase "決済";
          OnlineMerchantRegistrationForm.CheckboxChange
            OnlineMerchantRegistrationForm.f_platforms "Web";
          OnlineMerchantRegistrationForm.ClickNext;
          OnlineMerchantRegistrationForm.ConfirmedChange true;
          OnlineMerchantRegistrationForm.ClickSubmit
            (Some Samples.user1) (Some (fun _ => Resolved None));
          OnlineMerchantRegistrationForm.InsertSettled (Rejected "network");
          OnlineMerchantRegistrationForm.ClickBack ]
        OnlineMerchantRegistrationForm.initialWorld = Some w
      /\ step (OnlineMerchantRegistrationForm.view w) = 2%Z
      /\ In (step (OnlineMerchantRegistrationForm.view w)) [1; 2; 3]%Z).
Proof.
  split.
  - match goal with
    | |- exists w, ShopRegistrationForm.fires ?es _ = Some w /\ _ =>
        pose (session := es)
    end.
    eexists. split; [vm_compute; reflexivity|]. split; [reflexivity|].
    refine (proj1 (proj1 wizard_step_invariant _ _)).
    apply (shop_fires_reachable session ShopRegistrationForm.initialWorld);
      [apply ShopRegistrationForm.reach_init | vm_compute; reflexivity].
  - match goal with
    | |- exists w, OnlineMerchantRegistrationForm.fires ?es _ = Some w /\ _ =>
        pose (session := es)
    end.
    eexists. split; [vm_compute; reflexivity|]. split; [reflexivity|].
    refine (proj1 (proj2 wizard_step_invariant _ _)).
    apply (merchant_fires_reachable session
             OnlineMerchantRegistrationForm.initialWorld);
      [apply OnlineMerchantRegistrationForm.reach_init | vm_compute; reflexivity].
Defined.

(** C10 at scenario A with the sentinel as its only network and a blank
    free text. *)
Lemma shop_sentinel_only_network_witness :
  fst (ShopRegistrationForm.validateStep2
         (Samples.atConfirm Samples.scenarioA_sentinel true)) = true
  /\ exists row,
       snd (ShopRegistrationForm.handleSubmit
              (Some Samples.user1) (Some (fun _ => Resolved None))
              (Samples.atConfirm Samples.scenarioA_sentinel true)) = [row]
       /\ ShopRegistrationForm.Row.jpyc_networks row = [].
Proof.
  destruct (shop_sentinel_only_network
              (Samples.atConfirm Samples.scenarioA_sentinel true)
              Samples.user1 (fun _ => Resolved None)
              eq_refl eq_refl)
    as (Hv & _ & _ & Hrow).
  split.
  - apply Hv. split; [left; discriminate | reflexivity].
  - exact (Hrow eq_refl).
Defined.

(** ** The program run on small inputs *)

Example trim_examples :
  JS.trim "  Discord Bot " = "Discord Bot"
  /\ JS.trim "　その他　" = "その他"
  /\ JS.trim (" " ++ LF ++ String (ascii_of_N 9) "") = ""
  /\ JS.trim "a  b" = "a  b"
  /\ JS.trim "" = "".
Proof. repeat split; reflexivity. Qed.

(** Two shops at the user's own position are both at distance 0: they stay in
    the order fetched, whichever comes first. *)
Example nearbyShops_tie (M : JS.Math.t) (a b : Shop.t) (loc : Location.t) :
  JS.Math.ecma262 M -> JS.Math.in_range M ->
  (abs (Location.lat loc) <=? 90)%float = true ->
  (abs (Location.lng loc) <=? 180)%float = true ->
  Shop.lat a = Location.lat loc -> Shop.lng a = Location.lng loc ->
  Shop.lat b = Location.lat loc -> Shop.lng b = Location.lng loc ->
  ShopsTab.nearbyShops M [a; b] (Some loc) 10
  = inr [ {| ShopsTab.shop := a; ShopsTab.distance := 0 |};
          {| ShopsTab.shop := b; ShopsTab.distance := 0 |} ].
Proof.
  intros E R Hlat Hlng Ha1 Ha2 Hb1 Hb2.
  unfold ShopsTab.nearbyShops, ShopsTab.withDistance. simpl map.
  rewrite Ha1, Ha2, Hb1, Hb2, (calculateDistance_same M _ _ E R Hlat Hlng).
  reflexivity.
Qed.

(** The shop wizard from the empty form to the success screen: one insert,
    with the row of scenario A. *)
Example shop_session :
  exists w,
    ShopRegistrationForm.fires
      [ ShopRegistrationForm.InputChange ShopRegistrationForm.n_name "Crypto Cafe";
        ShopRegistrationForm.InputChange ShopRegistrationForm.n_address "Tokyo";
        ShopRegistrationForm.InputChange ShopRegistrationForm.n_category "カフェ";
        ShopRegistrationForm.ClickNext;
        ShopRegistrationForm.CheckboxChange
          ShopRegistrationForm.f_jpycUseCases "店頭決済";
        ShopRegistrationForm.CheckboxChange
          ShopRegistrationForm.f_networks "Polygon";
        ShopRegistrationForm.InputChange
          ShopRegistrationForm.n_paymentMethod "QRコード決済";
        ShopRegistrationForm.ClickNext;
        ShopRegistrationForm.ConfirmedChange true;
        ShopRegistrationForm.ClickSubmit
          (Some Samples.user1) (Some (fun _ => Resolved None));
        ShopRegistrationForm.InsertSettled (Resolved None) ]
      ShopRegistrationForm.initialWorld = Some w
    /\ phase (ShopRegistrationForm.view w) = SUBMITTED
    /\ ShopRegistrationForm.awaiting w = false
    /\ ShopRegistrationForm.inserts w
       = [ {| ShopRegistrationForm.Row.name := "Crypto Cafe";
              ShopRegistrationForm.Row.address := "Tokyo";
              ShopRegistrationForm.Row.lat := 35.6812;
              ShopRegistrationForm.Row.lng := 139.7671;
              ShopRegistrationForm.Row.jpyc_networks := ["Polygon"];
              ShopRegistrationForm.Row.payment_methods := ["QRコード決済"];
              ShopRegistrationForm.Row.url := None;
              ShopRegistrationForm.Row.tags := ["カフェ"];
              ShopRegistrationForm.Row.status := "pending";
              ShopRegistrationForm.Row.created_by := "user-1";
              ShopRegistrationForm.Row.upvotes := 0;
              ShopRegistrationForm.Row.downvotes := 0 |} ].
Proof.
  eexists. split; [vm_compute; reflexivity|].
  repeat split; vm_compute; reflexivity.
Qed.

(** The back button is not offered on the first step, nor the submit button
    before the third. *)
Example shop_buttons_of_step_1 :
  ShopRegistrationForm.offered ShopRegistrationForm.initialWorld
    ShopRegistrationForm.ClickBack = false
  /\ ShopRegistrationForm.offered ShopRegistrationForm.initialWorld
       (ShopRegistrationForm.ClickSubmit None None) = false
  /\ ShopRegistrationForm.offered ShopRegistrationForm.initialWorld
       ShopRegistrationForm.ClickNext = true.
Proof. repeat split; reflexivity. Qed.

(** The merchant shaping of service type "その他": the free text becomes a
    labelled note after the description, and the column keeps the sentinel. *)
Example merchant_service_type_other :
  let row :=
    OnlineMerchantRegistrationForm.insertRow
      {| OnlineMerchantRegistrationForm.MerchantFormData.name := " DAO Tools ";
         OnlineMerchantRegistrationForm.MerchantFormData.url := "https://example.com";
         OnlineMerchantRegistrationForm.MerchantFormData.description := "Tools";
         OnlineMerchantRegistrationForm.MerchantFormData.serviceType := "その他";
         OnlineMerchantRegistrationForm.MerchantFormData.serviceTypeOther := "DAO";
         OnlineMerchantRegistrationForm.MerchantFormData.country := "";
         OnlineMerchantRegistrationForm.MerchantFormData.jpycUseCase := "その他";
         OnlineMerchantRegistrationForm.MerchantFormData.jpycUseCaseOther := " 報酬 ";
         OnlineMerchantRegistrationForm.MerchantFormData.platforms := ["Web"; "その他"];
         OnlineMerchantRegistrationForm.MerchantFormData.platformOther := " ";
         OnlineMerchantRegistrationForm.MerchantFormData.tags := [];
         OnlineMerchantRegistrationForm.MerchantFormData.customTag := "" |}
      {| User.id := "user-1" |} in
  OnlineMerchantRegistrationForm.Row.name row = "DAO Tools"
  /\ OnlineMerchantRegistrationForm.Row.description row
     = Some ("Tools" ++ LF ++ LF ++ "【サービス種別補足】DAO")
  /\ OnlineMerchantRegistrationForm.Row.service_type row = "その他"
  /\ OnlineMerchantRegistrationForm.Row.country row = None
  /\ OnlineMerchantRegistrationForm.Row.jpyc_use_case row = "報酬"
  /\ OnlineMerchantRegistrationForm.Row.platforms row = ["Web"]
  /\ OnlineMerchantRegistrationForm.Row.tags row = None.
Proof. repeat split; reflexivity. Qed.

(* ================================================================== *)
(** * Part III.  Further properties of the code                         *)
(* ================================================================== *)

(** ** Distances and the nearby list *)

Section DistanceRange.
Import ShopsTab.
Local Open Scope float_scope.

(** X1. The distance computed between any two points is never negative and
    never the negative zero: it is [+0], a positive number or [NaN], and
    when it is a number it is at least 0. On every engine whose
    [Math.atan2] gives [+0] or a positive angle in the upper half plane. *)
Theorem calculateDistance_bounds
        (M : JS.Math.t) (lat1 lng1 lat2 lng2 : float) :
  JS.Math.in_range M ->
  (calculateDistance M lat1 lng1 lat2 lng2 <? 0) = false
  /\ JS.plus (calculateDistance M lat1 lng1 lat2 lng2)
     || is_nan (calculateDistance M lat1 lng1 lat2 lng2) = true
  /\ (is_nan (calculateDistance M lat1 lng1 lat2 lng2) = false ->
      (0 <=? calculateDistance M lat1 lng1 lat2 lng2) = true).
Proof.
  intros R.
  pose proof (calculateDistance_plus M lat1 lng1 lat2 lng2 R) as Hp.
  pose proof (calculateDistance_not_negative M lat1 lng1 lat2 lng2 R) as Hn.
  split; [exact Hn|]. split; [exact Hp|].
  intros Hnum. now apply not_ltb_zero_leb.
Qed.

End DistanceRange.

(** X1 between the two points almost opposite on the globe, where the
    distance is [NaN], and at Tokyo Station, where it is 0. *)
Lemma calculateDistance_bounds_witness :
  (ShopsTab.calculateDistance Samples.engine 0.08 0 (-0.08) 180 <? 0)%float = false
  /\ (0 <=? ShopsTab.calculateDistance Samples.engine
              35.6812 139.7671 35.6812 139.7671)%float = true.
Proof.
  split.
  - exact (proj1 (calculateDistance_bounds Samples.engine 0.08 0 (-0.08) 180
                    sample_in_range))%float.
  - exact (proj2 (proj2 (calculateDistance_bounds Samples.engine
                           35.6812 139.7671 35.6812 139.7671 sample_in_range))
             eq_refl)%float.
Defined.

Section SortAndFilter.
Context {A : Type} (key : A -> float).

Local Notation "'byKey'" := (fun a b : A => (key a - key b)%float).
Local Notation "'leKey'" := (fun a b : A => (key a <=? key b)%float = true).
Local Notation "'numeric'" := (fun a : A => is_nan (key a) = false).

Lemma insert_below (x : A) (l : list A) :
  Forall (fun z => (key x <=? key z)%float = true) l ->
  JS.insert byKey x l = x :: l.
Proof.
  intros H. destruct l as [|y l]; [reflexivity|]. simpl.
  inversion H as [|? ? Hxy _]; subst.
  rewrite sub_pos_ltb.
  destruct (key y <? key x)%float eqn:Hlt; [|reflexivity].
  apply ltb_not_leb in Hlt. congruence.
Qed.

Lemma filter_insert (p : A -> bool) (x : A) (l : list A) :
  numeric x -> Forall numeric l -> StronglySorted leKey l ->
  filter p (JS.insert byKey x l)
  = if p x then JS.insert byKey x (filter p l) else filter p l.
Proof.
  intros Nx Nl. induction 1 as [|y l Hs IH Hy]; simpl.
  - now destruct (p x).
  - inversion Nl as [|? ? Ny Nl']; subst.
    destruct (0 <? key x - key y)%float eqn:Hgt; simpl.
    + rewrite (IH Nl'). destruct (p y), (p x); simpl; try reflexivity.
      now rewrite Hgt.
    + destruct (p x); [|reflexivity].
      symmetry. apply insert_below.
      rewrite sub_pos_ltb in Hgt.
      assert (Hxy : (key x <=? key y)%float = true) by now apply not_ltb_leb.
      assert (Hall : Forall (fun z => (key x <=? key z)%float = true) (y :: l)).
      { constructor; [exact Hxy|].
        rewrite Forall_forall in *. intros z Hz.
        exact (leb_trans _ _ _ Hxy (Hy z Hz)). }
      rewrite Forall_forall in *. intros z Hz.
      apply Hall. change (In z (filter p (y :: l))) in Hz.
      apply filter_In in Hz. tauto.
Qed.

(** Filtering commutes with the stable sort. *)
Lemma filter_sort (p : A -> bool) (l : list A) :
  Forall numeric l ->
  filter p (JS.Array_sort byKey l) = JS.Array_sort byKey (filter p l).
Proof.
  induction 1 as [|x l Nx Nl IH]; [reflexivity|].
  simpl JS.Array_sort.
  rewrite filter_insert;
    [|exact Nx | now apply sort_numeric | now apply sort_sorted].
  simpl. destruct (p x); simpl; now rewrite IH.
Qed.

(** A sorted list splits at any bound into the part within the bound and
    the part beyond it. *)
Lemma sorted_split (r : float) (l : list A) :
  StronglySorted leKey l ->
  l = (filter (fun x => (key x <=? r)%float) l
       ++ filter (fun x => negb (key x <=? r)%float) l)%list.
Proof.
  induction 1 as [|x l Hs IH Hx]; [reflexivity|]. simpl.
  destruct (key x <=? r)%float eqn:E; simpl.
  - f_equal. exact IH.
  - assert (E0 : filter (fun z => (key z <=? r)%float) l = []).
    { rewrite Forall_forall in Hx. clear IH Hs.
      induction l as [|z l IHl]; [reflexivity|]. simpl.
      assert (Hz : (key x <=? key z)%float = true) by (apply Hx; now left).
      destruct (key z <=? r)%float eqn:Ez.
      - rewrite (leb_trans _ _ _ Hz Ez) in E. discriminate.
      - apply IHl. intros y Hy. apply Hx. now right. }
    rewrite E0 in IH |- *. simpl in *. f_equal. exact IH.
Qed.

End SortAndFilter.

Section NearbyList.
Import ShopsTab.
Local Open Scope float_scope.

(** X2. Widening the radius only appends: the list for the smaller radius is
    the list for the larger one cut at the smaller radius, and it is a
    prefix of it, followed by the shops beyond the smaller radius. *)
Theorem nearbyShops_radius_monotone
        (M : JS.Math.t) (shops : list Shop.t) (userLocation : Location.t)
        (r1 r2 : float) (near wide : list ShopWithDistance) :
  (r1 <=? r2) = true ->
  nearbyShops M shops (Some userLocation) r1 = inr near ->
  nearbyShops M shops (Some userLocation) r2 = inr wide ->
  near = filter (fun x => distance x <=? r1) wide
  /\ exists beyond,
       wide = (near ++ beyond)%list
       /\ Forall (fun x => (r1 <? distance x) = true
                           /\ (distance x <=? r2) = true) beyond.
Proof.
  intros Hr H1 H2. simpl in H1, H2.
  injection H1 as <-. injection H2 as <-.
  set (L := map (withDistance M userLocation) shops).
  assert (Hcut : JS.Array_sort (fun a b => distance a - distance b)
                   (filter (fun shop => distance shop <=? r1) L)
                 = filter (fun x => distance x <=? r1)
                     (JS.Array_sort (fun a b => distance a - distance b)
                        (filter (fun shop => distance shop <=? r2) L))).
  { rewrite (filter_sort distance) by apply kept_numeric.
    rewrite filter_both. f_equal.
    apply filter_ext. intros x.
    destruct (distance x <=? r1) eqn:E1; [|reflexivity].
    now rewrite (leb_trans _ _ _ E1 Hr). }
  split; [exact Hcut|].
  set (W := JS.Array_sort (fun a b => distance a - distance b)
              (filter (fun shop => distance shop <=? r2) L)) in *.
  exists (filter (fun x => negb (distance x <=? r1)) W).
  split.
  - rewrite Hcut. apply (sorted_split distance).
    apply (sort_sorted distance). apply kept_numeric.
  - rewrite Forall_forall. intros x Hx. apply filter_In in Hx.
    destruct Hx as [Hin Hfar]. apply negb_true_iff in Hfar.
    apply (Permutation_in _ (sort_perm distance _)) in Hin.
    apply filter_In in Hin. destruct Hin as [_ Hin].
    split; [|exact Hin].
    apply not_leb_ltb; [| |exact Hfar].
    + now apply leb_numeric in Hin.
    + now apply leb_numeric in Hr.
Qed.

(** X3. Every distance the list shows lies between 0 and the radius, so a
    negative radius empties the list; there are never more entries than
    shops fetched. On every engine whose [Math.atan2] gives no negative
    angle in the upper half plane. *)
Theorem nearbyShops_distance_range
        (M : JS.Math.t) (shops : list Shop.t) (userLocation : Location.t)
        (searchRadius : float) :
  JS.Math.in_range M ->
  exists result,
    nearbyShops M shops (Some userLocation) searchRadius = inr result
    /\ Forall (fun x => (0 <=? distance x) = true
                        /\ (distance x <=? searchRadius) = true) result
    /\ (List.length result <= List.length shops)%nat
    /\ ((searchRadius <? 0) = true -> result = []).
Proof.
  intros R. eexists. split; [reflexivity|].
  set (kept := filter (fun shop => distance shop <=? searchRadius)
                      (map (withDistance M userLocation) shops)).
  assert (Hperm := sort_perm distance kept).
  assert (Hall : Forall (fun x => (0 <=? distance x) = true
                                  /\ (distance x <=? searchRadius) = true)
                        (JS.Array_sort (fun a b => distance a - distance b) kept)).
  { rewrite Forall_forall. intros x Hx.
    apply (Permutation_in _ Hperm) in Hx. apply filter_In in Hx.
    destruct Hx as [Hin Hle]. split; [|exact Hle].
    apply in_map_iff in Hin. destruct Hin as [s [<- _]]. simpl in *.
    apply not_ltb_zero_leb; [now apply leb_numeric in Hle|].
    now apply calculateDistance_not_negative. }
  split; [exact Hall|]. split.
  - rewrite (Permutation_length Hperm). unfold kept.
    etransitivity; [apply filter_length_le|]. now rewrite length_map.
  - intros Hneg.
    destruct (JS.Array_sort (fun a b => distance a - distance b) kept)
      as [|x l]; [reflexivity|].
    inversion Hall as [|? ? [H0 Hr] _]; subst. exfalso.
    pose proof (leb_ltb_trans _ _ _ (leb_trans _ _ _ H0 Hr) Hneg) as Habs.
    discriminate Habs.
Qed.

End NearbyList.

(** X2 at the two shops of Tokyo Station seen from the station, with radii
    5 km and 10 km. *)
Lemma nearbyShops_radius_monotone_witness :
  exists near wide,
    ShopsTab.nearbyShops Samples.engine Listings.stationShops
      (Some ShopsTab.tokyoStation) 5 = inr near
    /\ ShopsTab.nearbyShops Samples.engine Listings.stationShops
         (Some ShopsTab.tokyoStation) 10 = inr wide
    /\ near = filter (fun x => (ShopsTab.distance x <=? 5)%float) wide.
Proof.
  eexists. eexists. split; [reflexivity|]. split; [reflexivity|].
  apply (nearbyShops_radius_monotone
           Samples.engine Listings.stationShops ShopsTab.tokyoStation 5 10 _ _
           eq_refl eq_refl eq_refl).
Defined.

(** X3 at the two shops of Tokyo Station seen from the station, within
    10 km. *)
Lemma nearbyShops_distance_range_witness :
  exists result,
    ShopsTab.nearbyShops Samples.engine Listings.stationShops
      (Some ShopsTab.tokyoStation) 10 = inr result
    /\ Forall (fun x => (0 <=? ShopsTab.distance x)%float = true
                        /\ (ShopsTab.distance x <=? 10)%float = true) result
    /\ (List.length result <= 2)%nat.
Proof.
  destruct (nearbyShops_distance_range Samples.engine Listings.stationShops
              ShopsTab.tokyoStation 10 sample_in_range)
    as (result & Hres & Hall & Hlen & _).
  exists result. split; [exact Hres|]. split; [exact Hall | exact Hlen].
Defined.

(** ** Fetching the listings *)

(** X4. When the fetch effect has run, the spinner is gone whatever
    happened. Without a configured store the sample data are shown; a query
    that answers with rows shows them, and one that answers with no [data]
    shows the empty list, in both cases without touching the error; a query
    that answers with an error, or rejects, leaves the list as it was, empty
    on a fresh tab, and shows the error panel. In both tabs. *)
Theorem fetch_outcomes :
  (forall (dummyShops : list Shop.t) (supabase : option (SelectOutcome Shop.t)),
      let s := ShopsTab.fetchShops dummyShops supabase ShopsTab.initialCells in
      ShopsTab.Cells.loading s = false
      /\ ShopsTab.screen s <> Spinner
      /\ match supabase with
         | None =>
             ShopsTab.Cells.shops s = dummyShops /\ ShopsTab.screen s = Content
         | Some (SelectResolved (Some rows) None) =>
             ShopsTab.Cells.shops s = rows /\ ShopsTab.screen s = Content
         | Some (SelectResolved None None) =>
             ShopsTab.Cells.shops s = [] /\ ShopsTab.screen s = Content
         | Some (SelectResolved _ (Some _)) | Some (SelectRejected _) =>
             ShopsTab.Cells.shops s = []
             /\ ShopsTab.screen s = ErrorPanel "店舗データの取得に失敗しました"
         end)
  /\
  (forall (dummyOnlineMerchants : list OnlineMerchant.t)
          (supabase : option (SelectOutcome OnlineMerchant.t)),
      let s := OnlineMerchantsTab.fetchMerchants dummyOnlineMerchants supabase
                 OnlineMerchantsTab.initialCells in
      OnlineMerchantsTab.Cells.loading s = false
      /\ OnlineMerchantsTab.screen s <> Spinner
      /\ match supabase with
         | None =>
             OnlineMerchantsTab.Cells.merchants s = dummyOnlineMerchants
             /\ OnlineMerchantsTab.screen s = Content
         | Some (SelectResolved (Some rows) None) =>
             OnlineMerchantsTab.Cells.merchants s = rows
             /\ OnlineMerchantsTab.screen s = Content
         | Some (SelectResolved None None) =>
             OnlineMerchantsTab.Cells.merchants s = []
             /\ OnlineMerchantsTab.screen s = Content
         | Some (SelectResolved _ (Some _)) | Some (SelectRejected _) =>
             OnlineMerchantsTab.Cells.merchants s = []
             /\ OnlineMerchantsTab.screen s
                = ErrorPanel "オンライン事業者データの取得に失敗しました"
         end).
Proof.
  split; intros dummy supabase s; subst s;
    destruct supabase as [[[rows|] [err|]|reason]|]; simpl;
    repeat split; try reflexivity; discriminate.
Qed.

(** ** The merchant list: categories and search *)

Section MerchantList.
Import OnlineMerchantsTab.

Lemma prefix_refl (s : string) : String.prefix s s = true.
Proof.
  induction s as [|c s IH]; [reflexivity|]. simpl.
  destruct (ascii_dec c c); [exact IH | congruence].
Qed.

Lemma String_includes_refl (s : string) : JS.String_includes s s = true.
Proof.
  destruct s as [|c s]; [reflexivity|].
  change (JS.String_includes (String c s) (String c s))
    with (if String.prefix (String c s) (String c s) then true
          else JS.String_includes s (String c s)).
  now rewrite prefix_refl.
Qed.

Lemma Set_add_spec (set : list string) (v x : string) :
  In x (JS.Set_add set v) <-> In x set \/ x = v.
Proof.
  unfold JS.Set_add. destruct (JS.includes set v) eqn:E.
  - apply includes_true_iff in E. split; [auto|]. intros [H| ->]; assumption.
  - rewrite in_app_iff. simpl. intuition congruence.
Qed.

Lemma Set_add_NoDup (set : list string) (v : string) :
  NoDup set -> NoDup (JS.Set_add set v).
Proof.
  intros H. unfold JS.Set_add. destruct (JS.includes set v) eqn:E; [exact H|].
  assert (Hv : ~ In v set).
  { intros Hin. apply includes_true_iff in Hin. congruence. }
  apply NoDup_rev in H. apply (NoDup_cons v) in H.
  - apply NoDup_rev in H. simpl in H. now rewrite rev_involutive in H.
  - now rewrite <- in_rev.
Qed.

Lemma fold_Set_add (arr set : list string) :
  (NoDup set -> NoDup (fold_left JS.Set_add arr set))
  /\ forall x, In x (fold_left JS.Set_add arr set) <-> In x set \/ In x arr.
Proof.
  revert set. induction arr as [|v arr IH]; intros set; simpl.
  - split; [auto|]. tauto.
  - destruct (IH (JS.Set_add set v)) as [IH1 IH2]. split.
    + intros H. apply IH1. now apply Set_add_NoDup.
    + intros x. rewrite IH2, Set_add_spec. intuition (subst; auto).
Qed.

Lemma filter_Boolean_spec (arr : list (option string)) (t : string) :
  In t (JS.filter_Boolean arr) <-> t <> "" /\ In (Some t) arr.
Proof.
  induction arr as [|[v|] arr IH]; simpl.
  - tauto.
  - destruct v as [|c v]; simpl.
    + rewrite IH. intuition congruence.
    + rewrite IH. split.
      * intros [<-|[H1 H2]]; [split; [discriminate | now left] | auto].
      * intros [H1 [H2|H2]]; [left; congruence | auto].
  - rewrite IH. intuition congruence.
Qed.

Lemma serviceTypes_NoDup (merchants : list OnlineMerchant.t) :
  NoDup (serviceTypes merchants).
Proof.
  unfold serviceTypes, JS.Array_from_Set.
  apply (proj1 (fold_Set_add _ [])). constructor.
Qed.

Lemma serviceTypes_in (merchants : list OnlineMerchant.t) (t : string) :
  In t (serviceTypes merchants) <->
  t <> ""
  /\ exists m, In m merchants /\ OnlineMerchant.service_type m = Some t.
Proof.
  unfold serviceTypes, JS.Array_from_Set.
  rewrite (proj2 (fold_Set_add _ [])), filter_Boolean_spec, in_map_iff. simpl.
  split.
  - intros [[]|[Ht [m [E Hm]]]]. split; [exact Ht|]. now exists m.
  - intros [Ht [m [Hm E]]]. right. split; [exact Ht|]. now exists m.
Qed.

(** X5. The categories offered by the select are pairwise distinct, none is
    empty, and they are exactly the non-empty [service_type] values of the
    merchants fetched: merchants without a type, or with the empty type, add
    no entry. *)
Theorem serviceTypes_spec (merchants : list OnlineMerchant.t) :
  NoDup (serviceTypes merchants)
  /\ (forall t, In t (serviceTypes merchants) <->
        t <> ""
        /\ exists m, In m merchants /\ OnlineMerchant.service_type m = Some t)
  /\ (serviceTypes [] = []).
Proof.
  split; [apply serviceTypes_NoDup|]. split; [|reflexivity].
  apply serviceTypes_in.
Qed.

Variable toLowerCase : string -> string.

Lemma matches_all (m : OnlineMerchant.t) : matches toLowerCase "" "all" m = true.
Proof. reflexivity. Qed.

Lemma matches_type_only (t : string) (m : OnlineMerchant.t) :
  matches toLowerCase "" t m
  = (String.eqb t "all"
     || match OnlineMerchant.service_type m with
        | Some service_type => String.eqb service_type t
        | None => false
        end).
Proof. reflexivity. Qed.

Lemma filteredMerchants_unfiltered (merchants : list OnlineMerchant.t) :
  filteredMerchants toLowerCase merchants "" "all" = merchants.
Proof.
  unfold filteredMerchants.
  induction merchants as [|m ms IH]; [reflexivity|]. simpl. now rewrite IH.
Qed.

(** X6. With an empty query and the category ["all"] the list is the list
    fetched, unchanged. A category narrows whatever the query kept: the list
    for a query and a category is the list for that query and ["all"],
    filtered by the category, in the same order. *)
Theorem filteredMerchants_identity_and_narrowing
        (merchants : list OnlineMerchant.t) (searchQuery category : string) :
  filteredMerchants toLowerCase merchants "" "all" = merchants
  /\ filteredMerchants toLowerCase merchants searchQuery category
     = filteredMerchants toLowerCase
         (filteredMerchants toLowerCase merchants searchQuery "all") "" category
  /\ filteredMerchants toLowerCase merchants searchQuery category
     = filteredMerchants toLowerCase
         (filteredMerchants toLowerCase merchants "" category) searchQuery "all".
Proof.
  split; [apply filteredMerchants_unfiltered|].
  unfold filteredMerchants. split.
  - rewrite filter_both. apply filter_ext. intros m.
    unfold matches. simpl.
    match goal with |- ?a && ?b = _ => destruct a, b; reflexivity end.
  - rewrite filter_both. apply filter_ext. intros m.
    unfold matches. simpl.
    match goal with |- ?a && ?b = _ => destruct a, b; reflexivity end.
Qed.

(** X7. Every category the select offers has merchants: choosing it with an
    empty query never gives the empty list. Unless the category is spelled
    ["all"], the list is then exactly the merchants of that type, in the
    order fetched; a type spelled ["all"] is read as the entry for every
    merchant and lists them all. *)
Theorem serviceTypes_selectable (merchants : list OnlineMerchant.t) (t : string) :
  In t (serviceTypes merchants) ->
  filteredMerchants toLowerCase merchants "" t <> []
  /\ (t <> "all" ->
      filteredMerchants toLowerCase merchants "" t
      = filter (fun m => match OnlineMerchant.service_type m with
                         | Some service_type => String.eqb service_type t
                         | None => false
                         end) merchants)
  /\ (t = "all" -> filteredMerchants toLowerCase merchants "" t = merchants).
Proof.
  intros Ht. apply serviceTypes_in in Ht. destruct Ht as [_ [m [Hm E]]].
  split; [|split].
  - intros Hnil.
    assert (Hin : In m (filteredMerchants toLowerCase merchants "" t)).
    { apply filter_In. split; [exact Hm|].
      rewrite matches_type_only, E, String.eqb_refl. apply orb_true_r. }
    rewrite Hnil in Hin. exact Hin.
  - intros Hne. unfold filteredMerchants. apply filter_ext. intros m'.
    rewrite matches_type_only.
    destruct (String.eqb_spec t "all"); [contradiction | reflexivity].
  - intros ->. apply filteredMerchants_unfiltered.
Qed.

(** X8. A merchant is always found by its own name, by any of its tags and
    by its description, typed as they are stored, under the category
    ["all"] and under its own type. *)
Theorem filteredMerchants_finds (merchants : list OnlineMerchant.t)
        (m : OnlineMerchant.t) (searchQuery category : string) :
  In m merchants ->
  searchQuery = OnlineMerchant.name m
  \/ OnlineMerchant.description m = Some searchQuery
  \/ (exists tags, OnlineMerchant.tags m = Some tags /\ In searchQuery tags) ->
  category = "all" \/ OnlineMerchant.service_type m = Some category ->
  In m (filteredMerchants toLowerCase merchants searchQuery category).
Proof.
  intros Hm Hq Hc. apply filter_In. split; [exact Hm|].
  unfold matches. apply andb_true_iff. split.
  - destruct Hq as [->|[E|[tags [E Hin]]]].
    + rewrite String_includes_refl. now rewrite orb_true_r.
    + rewrite E, String_includes_refl. now rewrite !orb_true_r.
    + rewrite E.
      assert (Hex : existsb (fun tag => JS.String_includes (toLowerCase tag)
                                          (toLowerCase searchQuery)) tags = true).
      { apply existsb_exists. exists searchQuery. split; [exact Hin|].
        apply String_includes_refl. }
      rewrite Hex. now rewrite !orb_true_r.
  - destruct Hc as [->|E]; [reflexivity|].
    rewrite E, String.eqb_refl. apply orb_true_r.
Qed.

End MerchantList.

(** X7 at the sample merchants and their category "EC". *)
Lemma serviceTypes_selectable_witness :
  OnlineMerchantsTab.serviceTypes Listings.merchants = ["EC"; "NFT"]
  /\ map OnlineMerchant.id
         (OnlineMerchantsTab.filteredMerchants Listings.asciiLower
            Listings.merchants "" "EC")
     = ["m1"; "m3"].
Proof.
  split; [reflexivity|].
  rewrite (proj1 (proj2 (serviceTypes_selectable Listings.asciiLower
                           Listings.merchants "EC"
                           ltac:(simpl; auto)))
                 ltac:(discriminate)).
  reflexivity.
Defined.

(** X8 at the first sample merchant, searched by its name and by its tag. *)
Lemma filteredMerchants_finds_witness :
  In (Listings.merchant "m1" "CryptoMall" (Some "EC") (Some ["ショッピング"]))
     (OnlineMerchantsTab.filteredMerchants Listings.asciiLower
        Listings.merchants "CryptoMall" "EC")
  /\ In (Listings.merchant "m1" "CryptoMall" (Some "EC") (Some ["ショッピング"]))
        (OnlineMerchantsTab.filteredMerchants Listings.asciiLower
           Listings.merchants "ショッピング" "all").
Proof.
  split.
  - apply (filteredMerchants_finds Listings.asciiLower Listings.merchants
             (Listings.merchant "m1" "CryptoMall" (Some "EC") (Some ["ショッピング"]))
             "CryptoMall" "EC");
      [simpl; auto | left; reflexivity | right; reflexivity].
  - apply (filteredMerchants_finds Listings.asciiLower Listings.merchants
             (Listings.merchant "m1" "CryptoMall" (Some "EC") (Some ["ショッピング"]))
             "ショッピング" "all");
      [simpl; auto | | left; reflexivity].
    right. right. exists ["ショッピング"]. split; [reflexivity | now left].
Defined.

(** ** The wizards: one step at a time *)

Lemma truthy_true (s : string) : JS.truthy s = true <-> s <> "".
Proof. destruct s; simpl; split; intros; congruence. Qed.

Lemma truthy_false (s : string) : JS.truthy s = false <-> s = "".
Proof. destruct s; simpl; split; intros; congruence. Qed.

(** A string that is not blank is not empty. *)
Lemma truthy_trim (s : string) :
  JS.truthy (JS.trim s) = true -> JS.truthy s = true.
Proof. destruct s; [discriminate | reflexivity]. Qed.

Lemma length_zero {A : Type} (l : list A) :
  (List.length l =? 0)%nat = true <-> l = [].
Proof. destruct l; simpl; split; intros; congruence. Qed.

(** Ticking a box whose value is or is not in the list. *)
Lemma toggle_body_in (current : list string) (value x : string) :
  In x (if JS.includes current value
        then filter (fun v => negb (String.eqb v value)) current
        else current ++ [value])
  <-> (x <> value /\ In x current) \/ (x = value /\ ~ In value current).
Proof.
  destruct (JS.includes current value) eqn:E.
  - apply includes_true_iff in E. rewrite filter_In. split.
    + intros [Hin Hne]. left. split; [|exact Hin].
      intros ->. now rewrite String.eqb_refl in Hne.
    + intros [[Hne Hin]|[-> Hnot]]; [|contradiction].
      split; [exact Hin|]. destruct (String.eqb_spec x value); [contradiction | reflexivity].
  - assert (Hn : ~ In value current).
    { intros H. apply includes_true_iff in H. congruence. }
    rewrite in_app_iff. simpl. split.
    + intros [Hin|[<-|[]]]; [left | right; auto].
      split; [|exact Hin]. intros ->. contradiction.
    + intros [[_ Hin]|[-> _]]; auto.
Qed.

Lemma toggle_body_NoDup (current : list string) (value : string) :
  NoDup current ->
  NoDup (if JS.includes current value
         then filter (fun v => negb (String.eqb v value)) current
         else current ++ [value]).
Proof.
  intros H. destruct (JS.includes current value) eqn:E.
  - now apply NoDup_filter.
  - assert (Hn : ~ In value current).
    { intros Hin. apply includes_true_iff in Hin. congruence. }
    apply NoDup_rev in H. apply (NoDup_cons value) in H.
    + apply NoDup_rev in H. simpl in H. now rewrite rev_involutive in H.
    + now rewrite <- in_rev.
Qed.

Lemma toggle_body_incl (options current : list string) (value : string) :
  JS.includes options value = true -> incl current options ->
  incl (if JS.includes current value
        then filter (fun v => negb (String.eqb v value)) current
        else current ++ [value]) options.
Proof.
  intros Hv Hc x Hx. apply toggle_body_in in Hx.
  destruct Hx as [[_ Hin]|[-> _]]; [now apply Hc | now apply includes_true_iff].
Qed.

(** Ticking an unticked box and unticking it again gives the list back. *)
Lemma toggle_body_twice (current : list string) (value : string) :
  ~ In value current ->
  filter (fun v => negb (String.eqb v value)) (current ++ [value]) = current.
Proof.
  intros Hn. rewrite filter_app. simpl. rewrite String.eqb_refl. simpl.
  rewrite app_nil_r. induction current as [|x l IH]; [reflexivity|]. simpl.
  destruct (String.eqb_spec x value) as [->|Hne]; simpl.
  - exfalso. apply Hn. now left.
  - f_equal. apply IH. intros H. apply Hn. now right.
Qed.

Section ShopGate.
Import ShopRegistrationForm ShopFormData.

Lemma shop_validateStep1_ok (s : ShopState) :
  fst (validateStep1 s) = true <->
  JS.truthy (JS.trim (name (formData s))) = true
  /\ JS.truthy (JS.trim (address (formData s))) = true
  /\ JS.truthy (category (formData s)) = true.
Proof.
  unfold validateStep1.
  destruct (JS.truthy (JS.trim (name (formData s)))); simpl;
    [|intuition discriminate].
  destruct (JS.truthy (JS.trim (address (formData s)))); simpl;
    [|intuition discriminate].
  destruct (JS.truthy (category (formData s))); simpl; intuition discriminate.
Qed.

Lemma shop_validateStep2_ok (s : ShopState) :
  fst (validateStep2 s) = true <->
  (jpycUseCases (formData s) <> []
   \/ JS.truthy (JS.trim (jpycUseCaseOther (formData s))) = true)
  /\ (networks (formData s) <> []
      \/ JS.truthy (JS.trim (networkOther (formData s))) = true)
  /\ JS.truthy (paymentMethod (formData s)) = true.
Proof.
  unfold validateStep2.
  destruct (jpycUseCases (formData s)) as [|c cs]; simpl;
    destruct (JS.truthy (JS.trim (jpycUseCaseOther (formData s)))); simpl;
    destruct (networks (formData s)) as [|n ns]; simpl;
    destruct (JS.truthy (JS.trim (networkOther (formData s)))); simpl;
    destruct (JS.truthy (paymentMethod (formData s))); simpl;
    intuition (discriminate || congruence).
Qed.

(** The validators write the error cell only: the message on failure, [null]
    on success. *)
Lemma shop_validate_result (s : ShopState) :
  (exists o, snd (validateStep1 s) = setError o s
             /\ (o = None <-> fst (validateStep1 s) = true))
  /\ (exists o, snd (validateStep2 s) = setError o s
                /\ (o = None <-> fst (validateStep2 s) = true)).
Proof.
  split.
  - unfold validateStep1. split_ifs; simpl; eexists; split; try reflexivity;
      intuition discriminate.
  - unfold validateStep2. split_ifs; simpl; eexists; split; try reflexivity;
      intuition discriminate.
Qed.

Lemma shop_nextStep_cases (s : ShopState) :
  (step s = 1%Z -> fst (validateStep1 s) = true ->
   nextStep s = setStep 2 (setError None s))
  /\ (step s = 1%Z -> fst (validateStep1 s) = false ->
      exists msg, nextStep s = setError (Some msg) s)
  /\ (step s = 2%Z -> fst (validateStep2 s) = true ->
      nextStep s = setStep 3 (setError None s))
  /\ (step s = 2%Z -> fst (validateStep2 s) = false ->
      exists msg, nextStep s = setError (Some msg) s)
  /\ (step s <> 1%Z -> step s <> 2%Z -> nextStep s = s).
Proof.
  destruct (shop_validate_result s) as [[o1 [E1 H1]] [o2 [E2 H2]]].
  unfold nextStep. repeat split.
  - intros -> Hok. simpl. destruct (validateStep1 s) as [ok s1]. simpl in *.
    subst ok s1. now rewrite (proj2 H1 eq_refl).
  - intros -> Hko. simpl. destruct (validateStep1 s) as [ok s1]. simpl in *.
    subst ok s1. destruct o1 as [msg|]; [now exists msg|].
    now specialize (proj1 H1 eq_refl).
  - intros -> Hok. simpl. destruct (validateStep2 s) as [ok s2]. simpl in *.
    subst ok s2. now rewrite (proj2 H2 eq_refl).
  - intros -> Hko. simpl. destruct (validateStep2 s) as [ok s2]. simpl in *.
    subst ok s2. destruct o2 as [msg|]; [now exists msg|].
    now specialize (proj1 H2 eq_refl).
  - intros N1 N2.
    destruct (Z.eqb_spec (step s) 1); [contradiction|].
    destruct (Z.eqb_spec (step s) 2); [contradiction | reflexivity].
Qed.

Lemma shop_nextStep_keeps (s : ShopState) :
  formData (nextStep s) = formData s
  /\ confirmed (nextStep s) = confirmed s
  /\ submitting (nextStep s) = submitting s
  /\ submitted (nextStep s) = submitted s.
Proof.
  destruct (shop_nextStep_cases s) as (A & B & C & D & E).
  destruct (Z.eq_dec (step s) 1) as [H1|H1].
  - destruct (fst (validateStep1 s)) eqn:V.
    + rewrite (A H1 eq_refl). auto.
    + destruct (B H1 eq_refl) as [msg ->]. auto.
  - destruct (Z.eq_dec (step s) 2) as [H2|H2].
    + destruct (fst (validateStep2 s)) eqn:V.
      * rewrite (C H2 eq_refl). auto.
      * destruct (D H2 eq_refl) as [msg ->]. auto.
    + rewrite (E H1 H2). auto.
Qed.

End ShopGate.

Section MerchantGate.
Import OnlineMerchantRegistrationForm MerchantFormData.

Lemma merchant_validateStep1_ok (s : MerchantState) :
  fst (validateStep1 s) = true <->
  JS.truthy (JS.trim (name (formData s))) = true
  /\ JS.truthy (JS.trim (url (formData s))) = true
  /\ JS.truthy (serviceType (formData s)) = true.
Proof.
  unfold validateStep1.
  destruct (JS.truthy (JS.trim (name (formData s)))); simpl;
    [|intuition discriminate].
  destruct (JS.truthy (JS.trim (url (formData s)))); simpl;
    [|intuition discriminate].
  destruct (JS.truthy (serviceType (formData s))); simpl; intuition discriminate.
Qed.

Lemma merchant_validateStep2_ok (s : MerchantState) :
  fst (validateStep2 s) = true <->
  JS.truthy (JS.trim (if String.eqb (jpycUseCase (formData s)) sonota
                      then jpycUseCaseOther (formData s)
                      else jpycUseCase (formData s))) = true
  /\ platforms (formData s) <> [].
Proof.
  unfold validateStep2.
  destruct (JS.truthy (JS.trim _)); simpl; [|intuition discriminate].
  destruct (platforms (formData s)); simpl; intuition (discriminate || congruence).
Qed.

Lemma merchant_validate_result (s : MerchantState) :
  (exists o, snd (validateStep1 s) = setError o s
             /\ (o = None <-> fst (validateStep1 s) = true))
  /\ (exists o, snd (validateStep2 s) = setError o s
                /\ (o = None <-> fst (validateStep2 s) = true)).
Proof.
  split.
  - unfold validateStep1. split_ifs; simpl; eexists; split; try reflexivity;
      intuition discriminate.
  - unfold validateStep2. split_ifs; simpl; eexists; split; try reflexivity;
      intuition discriminate.
Qed.

Lemma merchant_nextStep_cases (s : MerchantState) :
  (step s = 1%Z -> fst (validateStep1 s) = true ->
   nextStep s = setStep 2 (setError None s))
  /\ (step s = 1%Z -> fst (validateStep1 s) = false ->
      exists msg, nextStep s = setError (Some msg) s)
  /\ (step s = 2%Z -> fst (validateStep2 s) = true ->
      nextStep s = setStep 3 (setError None s))
  /\ (step s = 2%Z -> fst (validateStep2 s) = false ->
      exists msg, nextStep s = setError (Some msg) s)
  /\ (step s <> 1%Z -> step s <> 2%Z -> nextStep s = s).
Proof.
  destruct (merchant_validate_result s) as [[o1 [E1 H1]] [o2 [E2 H2]]].
  unfold nextStep. repeat split.
  - intros -> Hok. simpl. destruct (validateStep1 s) as [ok s1]. simpl in *.
    subst ok s1. now rewrite (proj2 H1 eq_refl).
  - intros -> Hko. simpl. destruct (validateStep1 s) as [ok s1]. simpl in *.
    subst ok s1. destruct o1 as [msg|]; [now exists msg|].
    now specialize (proj1 H1 eq_refl).
  - intros -> Hok. simpl. destruct (validateStep2 s) as [ok s2]. simpl in *.
    subst ok s2. now rewrite (proj2 H2 eq_refl).
  - intros -> Hko. simpl. destruct (validateStep2 s) as [ok s2]. simpl in *.
    subst ok s2. destruct o2 as [msg|]; [now exists msg|].
    now specialize (proj1 H2 eq_refl).
  - intros N1 N2.
    destruct (Z.eqb_spec (step s) 1); [contradiction|].
    destruct (Z.eqb_spec (step s) 2); [contradiction | reflexivity].
Qed.

Lemma merchant_nextStep_keeps (s : MerchantState) :
  formData (nextStep s) = formData s
  /\ confirmed (nextStep s) = confirmed s
  /\ submitting (nextStep s) = submitting s
  /\ submitted (nextStep s) = submitted s.
Proof.
  destruct (merchant_nextStep_cases s) as (A & B & C & D & E).
  destruct (Z.eq_dec (step s) 1) as [H1|H1].
  - destruct (fst (validateStep1 s)) eqn:V.
    + rewrite (A H1 eq_refl). auto.
    + destruct (B H1 eq_refl) as [msg ->]. auto.
  - destruct (Z.eq_dec (step s) 2) as [H2|H2].
    + destruct (fst (validateStep2 s)) eqn:V.
      * rewrite (C H2 eq_refl). auto.
      * destruct (D H2 eq_refl) as [msg ->]. auto.
    + rewrite (E H1 H2). auto.
Qed.

End MerchantGate.

(** X9. The next button is a gate. It never touches the draft, the check
    box or the submission flags. On step 1 (on step 2) it moves to the next
    step, clearing the error, exactly when the fields of that step validate,
    and otherwise stays and sets an error; with a blank name the shop form
    says so whatever the other fields hold. On step 3 it does nothing. *)
Theorem nextStep_gate :
  (forall s : ShopRegistrationForm.ShopState,
      let s' := ShopRegistrationForm.nextStep s in
      (formData s' = formData s /\ confirmed s' = confirmed s
       /\ submitting s' = submitting s /\ submitted s' = submitted s)
      /\ (step s = 1%Z ->
          (fst (ShopRegistrationForm.validateStep1 s) = true
           /\ step s' = 2%Z /\ error s' = None)
          \/ (fst (ShopRegistrationForm.validateStep1 s) = false
              /\ step s' = 1%Z /\ error s' <> None))
      /\ (step s = 2%Z ->
          (fst (ShopRegistrationForm.validateStep2 s) = true
           /\ step s' = 3%Z /\ error s' = None)
          \/ (fst (ShopRegistrationForm.validateStep2 s) = false
              /\ step s' = 2%Z /\ error s' <> None))
      /\ (step s = 3%Z -> s' = s)
      /\ (step s = 1%Z ->
          JS.truthy (JS.trim (ShopRegistrationForm.ShopFormData.name (formData s)))
          = false ->
          s' = setError (Some "店舗名を入力してください") s))
  /\
  (forall s : OnlineMerchantRegistrationForm.MerchantState,
      let s' := OnlineMerchantRegistrationForm.nextStep s in
      (formData s' = formData s /\ confirmed s' = confirmed s
       /\ submitting s' = submitting s /\ submitted s' = submitted s)
      /\ (step s = 1%Z ->
          (fst (OnlineMerchantRegistrationForm.validateStep1 s) = true
           /\ step s' = 2%Z /\ error s' = None)
          \/ (fst (OnlineMerchantRegistrationForm.validateStep1 s) = false
              /\ step s' = 1%Z /\ error s' <> None))
      /\ (step s = 2%Z ->
          (fst (OnlineMerchantRegistrationForm.validateStep2 s) = true
           /\ step s' = 3%Z /\ error s' = None)
          \/ (fst (OnlineMerchantRegistrationForm.validateStep2 s) = false
              /\ step s' = 2%Z /\ error s' <> None))
      /\ (step s = 3%Z -> s' = s)
      /\ (step s = 1%Z ->
          JS.truthy (JS.trim (OnlineMerchantRegistrationForm.MerchantFormData.name
                                (formData s))) = false ->
          s' = setError (Some "サービス名を入力してください") s)).
Proof.
  split; intros s s'; subst s'.
  - destruct (shop_nextStep_cases s) as (A & B & C & D & E).
    split; [apply shop_nextStep_keeps|]. split; [|split; [|split]].
    + intros H1. destruct (fst (ShopRegistrationForm.validateStep1 s)) eqn:V.
      * left. rewrite (A H1 eq_refl). auto.
      * right. destruct (B H1 eq_refl) as [msg ->]. simpl.
        repeat split; [exact H1 | discriminate].
    + intros H2. destruct (fst (ShopRegistrationForm.validateStep2 s)) eqn:V.
      * left. rewrite (C H2 eq_refl). auto.
      * right. destruct (D H2 eq_refl) as [msg ->]. simpl.
        repeat split; [exact H2 | discriminate].
    + intros H3. apply E; lia.
    + intros H1 Hblank. unfold ShopRegistrationForm.nextStep.
      rewrite H1. simpl. unfold ShopRegistrationForm.validateStep1.
      now rewrite Hblank.
  - destruct (merchant_nextStep_cases s) as (A & B & C & D & E).
    split; [apply merchant_nextStep_keeps|]. split; [|split; [|split]].
    + intros H1.
      destruct (fst (OnlineMerchantRegistrationForm.validateStep1 s)) eqn:V.
      * left. rewrite (A H1 eq_refl). auto.
      * right. destruct (B H1 eq_refl) as [msg ->]. simpl.
        repeat split; [exact H1 | discriminate].
    + intros H2.
      destruct (fst (OnlineMerchantRegistrationForm.validateStep2 s)) eqn:V.
      * left. rewrite (C H2 eq_refl). auto.
      * right. destruct (D H2 eq_refl) as [msg ->]. simpl.
        repeat split; [exact H2 | discriminate].
    + intros H3. apply E; lia.
    + intros H1 Hblank. unfold OnlineMerchantRegistrationForm.nextStep.
      rewrite H1. simpl. unfold OnlineMerchantRegistrationForm.validateStep1.
      now rewrite Hblank.
Qed.

(** ** The wizards: what holds in every reachable state *)

Section ShopInvariants.
Import ShopRegistrationForm ShopFormData.

Local Notation "'step1_ok' fd" :=
  (JS.truthy (JS.trim (name fd)) = true
   /\ JS.truthy (JS.trim (address fd)) = true
   /\ JS.truthy (category fd) = true) (at level 10).

Local Notation "'step2_ok' fd" :=
  ((jpycUseCases fd <> [] \/ JS.truthy (JS.trim (jpycUseCaseOther fd)) = true)
   /\ (networks fd <> [] \/ JS.truthy (JS.trim (networkOther fd)) = true)
   /\ JS.truthy (paymentMethod fd) = true) (at level 10).

Local Notation "'choices_ok' fd" :=
  ((category fd = "" \/ In (category fd) CATEGORIES)
   /\ (paymentMethod fd = "" \/ In (paymentMethod fd) PAYMENT_METHODS)
   /\ NoDup (jpycUseCases fd) /\ incl (jpycUseCases fd) JPYC_USE_CASES
   /\ NoDup (networks fd) /\ incl (networks fd) NETWORKS) (at level 10).

Lemma shop_flags (w : World) :
  reachable w ->
  awaiting w = submitting (view w)
  /\ (submitted (view w) = true -> submitting (view w) = false)
  /\ (awaiting w = true -> inserts w <> [])
  /\ (submitted (view w) = true -> inserts w <> []).
Proof.
  induction 1 as [|w e Hw IH He].
  - simpl. repeat split; discriminate.
  - destruct IH as (I1 & I2 & I3 & I4).
    destruct e as [nm v|f v|la lo|la lo|c| | |u sb|o| ]; simpl in He |- *.
    1-5: repeat split; assumption.
    + destruct (shop_nextStep_keeps (view w)) as (_ & _ & K1 & K2).
      rewrite K1, K2. repeat split; assumption.
    + repeat split; assumption.
    + apply andb_prop in He. destruct He as [He Hing].
      apply andb_prop in He. destruct He as [Hsub _].
      apply negb_true_iff in Hsub, Hing.
      unfold handleSubmit_click.
      destruct (confirmed (view w)); simpl;
        [|rewrite Hsub in *; repeat split; assumption].
      destruct u as [u|]; simpl;
        [|rewrite Hsub in *; repeat split; assumption].
      destruct sb as [sb|]; simpl;
        [|rewrite Hsub in *; repeat split; assumption].
      rewrite Hsub. repeat split; try discriminate;
        intros _ E; apply app_eq_nil in E; destruct E; discriminate.
    + rewrite He in *. specialize (I3 eq_refl). symmetry in I1.
      assert (Hsub : submitted (view w) = false).
      { destruct (submitted (view w)); [|reflexivity].
        specialize (I2 eq_refl). congruence. }
      destruct o as [[err|]|reason]; simpl; rewrite ?Hsub;
        repeat split; auto; discriminate.
    + repeat split; try discriminate; assumption.
Qed.

Lemma shop_choices (w : World) :
  reachable w -> choices_ok (formData (view w)).
Proof.
  induction 1 as [|w e Hw IH He].
  - simpl. repeat split; auto using NoDup_nil, incl_nil_l.
  - destruct e as [nm v|f v|la lo|la lo|c| | |u sb|o| ];
      unfold offered in He; cbv beta iota zeta in He; simpl.
    + (* InputChange *)
      destruct IH as (C1 & C2 & C3 & C4 & C5 & C6).
      apply andb_prop in He. destruct He as [_ Hv].
      destruct nm; cbv beta iota in Hv; simpl; repeat split; try assumption.
      * apply orb_prop in Hv. destruct Hv as [Hv|Hv].
        -- left. apply negb_true_iff in Hv. now apply truthy_false.
        -- right. exact (proj1 (includes_true_iff _ _) Hv).
      * apply orb_prop in Hv. destruct Hv as [Hv|Hv].
        -- left. apply negb_true_iff in Hv. now apply truthy_false.
        -- right. exact (proj1 (includes_true_iff _ _) Hv).
    + (* CheckboxChange *)
      destruct IH as (C1 & C2 & C3 & C4 & C5 & C6).
      destruct f; apply andb_prop in He; destruct He as [_ Hv]; simpl;
        unfold toggle; repeat split; try assumption.
      * now apply toggle_body_NoDup.
      * now apply toggle_body_incl.
      * now apply toggle_body_NoDup.
      * now apply toggle_body_incl.
    + exact IH.
    + exact IH.
    + exact IH.
    + now rewrite (proj1 (shop_nextStep_keeps (view w))).
    + exact IH.
    + unfold handleSubmit_click.
      destruct (confirmed (view w)); simpl; [|exact IH].
      destruct u; [destruct sb|]; simpl; exact IH.
    + destruct o as [[err|]|reason]; simpl; exact IH.
    + simpl. repeat split; auto using NoDup_nil, incl_nil_l.
Qed.

Lemma shop_valid (w : World) :
  reachable w ->
  ((2 <= step (view w))%Z -> step1_ok (formData (view w)))
  /\ (step (view w) = 3%Z -> step2_ok (formData (view w))).
Proof.
  induction 1 as [|w e Hw IH He].
  - simpl. split; intros; lia.
  - pose proof (shop_reachable_step w Hw) as Hrange.
    destruct IH as [V1 V2].
    destruct e as [nm v|f v|la lo|la lo|c| | |u sb|o| ];
      unfold offered in He; cbv beta iota zeta in He; simpl.
    + (* InputChange: an input of the pane shown *)
      apply andb_prop in He. destruct He as [He _].
      apply andb_prop in He. destruct He as [_ Hp]. apply Z.eqb_eq in Hp.
      destruct nm; unfold paneOf in Hp; simpl; split; intros; try lia;
        first [ apply V1; lia | apply V2; lia ].
    + assert (Hp : step (view w) = 2%Z).
      { destruct f; apply andb_prop in He; destruct He as [He _];
          apply andb_prop in He; destruct He as [_ Hp]; now apply Z.eqb_eq in Hp. }
      split; intros; [|lia]. destruct f; simpl; apply V1; lia.
    + split; [exact V1 | exact V2].
    + split; [exact V1 | exact V2].
    + split; [exact V1 | exact V2].
    + (* ClickNext *)
      destruct (shop_nextStep_cases (view w)) as (A & B & C & D & E).
      destruct (Z.eq_dec (step (view w)) 1) as [H1|H1].
      * destruct (fst (validateStep1 (view w))) eqn:V.
        -- rewrite (A H1 eq_refl). simpl. split; intros; [|lia].
           now apply shop_validateStep1_ok.
        -- destruct (B H1 eq_refl) as [msg ->]. simpl. split; intros; lia.
      * destruct (Z.eq_dec (step (view w)) 2) as [H2|H2].
        -- destruct (fst (validateStep2 (view w))) eqn:V.
           ++ rewrite (C H2 eq_refl). simpl. split; intros.
              ** apply V1; lia.
              ** now apply shop_validateStep2_ok.
           ++ destruct (D H2 eq_refl) as [msg ->]. simpl. split; intros.
              ** apply V1; lia.
              ** lia.
        -- rewrite (E H1 H2). split; [exact V1 | exact V2].
    + (* ClickBack *)
      split; intros; [apply V1; lia | lia].
    + unfold handleSubmit_click.
      destruct (confirmed (view w)); simpl; [|split; assumption].
      destruct u; [destruct sb|]; simpl; split; assumption.
    + destruct o as [[err|]|reason]; simpl; split; assumption.
    + simpl. split; intros; lia.
Qed.

Lemma shop_rows (w : World) :
  reachable w ->
  Forall (fun row => exists fd u,
              row = insertRow fd u
              /\ step1_ok fd /\ step2_ok fd /\ choices_ok fd)
         (inserts w).
Proof.
  induction 1 as [|w e Hw IH He].
  - constructor.
  - destruct e as [nm v|f v|la lo|la lo|c| | |u sb|o| ];
      unfold offered in He; cbv beta iota zeta in He; simpl; try exact IH.
    + unfold handleSubmit_click.
      destruct (confirmed (view w)); simpl; [|exact IH].
      destruct u as [u|]; [|exact IH]. destruct sb as [sb|]; [|exact IH].
      simpl. apply Forall_app. split; [exact IH|]. constructor; [|constructor].
      pose proof (shop_reachable_step w Hw) as Hrange.
      apply andb_prop in He. destruct He as [He _].
      apply andb_prop in He. destruct He as [_ Hs].
      apply negb_true_iff, Z.ltb_ge in Hs.
      destruct (shop_valid w Hw) as [V1 V2].
      exists (formData (view w)), u. split; [reflexivity|].
      split; [apply V1; lia|]. split; [apply V2; lia|].
      now apply shop_choices.
Qed.

End ShopInvariants.

Section MerchantInvariants.
Import OnlineMerchantRegistrationForm MerchantFormData.

Local Notation "'step1_ok' fd" :=
  (JS.truthy (JS.trim (name fd)) = true
   /\ JS.truthy (JS.trim (url fd)) = true
   /\ JS.truthy (serviceType fd) = true) (at level 10).

Local Notation "'step2_ok' fd" :=
  (JS.truthy (JS.trim (if String.eqb (jpycUseCase fd) sonota
                       then jpycUseCaseOther fd else jpycUseCase fd)) = true
   /\ platforms fd <> []) (at level 10).

Local Notation "'choices_ok' fd" :=
  ((serviceType fd = "" \/ In (serviceType fd) SERVICE_TYPES)
   /\ (jpycUseCase fd = "" \/ In (jpycUseCase fd) JPYC_USE_CASES)
   /\ NoDup (platforms fd) /\ incl (platforms fd) PLATFORMS
   /\ NoDup (tags fd)) (at level 10).

Lemma merchant_flags (w : World) :
  reachable w ->
  awaiting w = submitting (view w)
  /\ (submitted (view w) = true -> submitting (view w) = false)
  /\ (awaiting w = true -> inserts w <> [])
  /\ (submitted (view w) = true -> inserts w <> []).
Proof.
  induction 1 as [|w e Hw IH He].
  - simpl. repeat split; discriminate.
  - destruct IH as (I1 & I2 & I3 & I4).
    destruct e as [nm v|f v| |tg|c| | |u sb|o| ];
      unfold offered in He; cbv beta iota zeta in He; simpl.
    1-5: repeat split; assumption.
    + destruct (merchant_nextStep_keeps (view w)) as (_ & _ & K1 & K2).
      rewrite K1, K2. repeat split; assumption.
    + repeat split; assumption.
    + apply andb_prop in He. destruct He as [He Hing].
      apply andb_prop in He. destruct He as [Hsub _].
      apply negb_true_iff in Hsub, Hing.
      unfold handleSubmit_click.
      destruct (confirmed (view w)); simpl;
        [|rewrite Hsub in *; repeat split; assumption].
      destruct u as [u|]; simpl;
        [|rewrite Hsub in *; repeat split; assumption].
      destruct sb as [sb|]; simpl;
        [|rewrite Hsub in *; repeat split; assumption].
      rewrite Hsub. repeat split; try discriminate;
        intros _ E; apply app_eq_nil in E; destruct E; discriminate.
    + rewrite He in *. specialize (I3 eq_refl). symmetry in I1.
      assert (Hsub : submitted (view w) = false).
      { destruct (submitted (view w)); [|reflexivity].
        specialize (I2 eq_refl). congruence. }
      destruct o as [[err|]|reason]; simpl; rewrite ?Hsub;
        repeat split; auto; discriminate.
    + repeat split; try discriminate; assumption.
Qed.

Lemma addCustomTag_cases (prev : MerchantFormData.t) :
  (JS.truthy (JS.trim (customTag prev)) = true
   /\ ~ In (JS.trim (customTag prev)) (tags prev)
   /\ addCustomTag prev
      = withLists (platforms prev) (tags prev ++ [JS.trim (customTag prev)]) "" prev)
  \/ ((JS.truthy (JS.trim (customTag prev)) = false
       \/ In (JS.trim (customTag prev)) (tags prev))
      /\ addCustomTag prev = prev).
Proof.
  unfold addCustomTag.
  destruct (JS.truthy (JS.trim (customTag prev))) eqn:Ht; simpl; [|right; auto].
  destruct (JS.includes (tags prev) (JS.trim (customTag prev))) eqn:Hi; simpl.
  - right. split; [right; now apply includes_true_iff | reflexivity].
  - left. repeat split; auto.
    intros Hin. apply includes_true_iff in Hin. congruence.
Qed.

Lemma NoDup_snoc {A : Type} (l : list A) (x : A) :
  NoDup l -> ~ In x l -> NoDup (l ++ [x]).
Proof.
  intros H Hn. apply NoDup_rev in H. apply (NoDup_cons x) in H.
  - apply NoDup_rev in H. simpl in H. now rewrite rev_involutive in H.
  - now rewrite <- in_rev.
Qed.

Lemma merchant_choices (w : World) :
  reachable w -> choices_ok (formData (view w)).
Proof.
  induction 1 as [|w e Hw IH He].
  - simpl. repeat split; auto using NoDup_nil, incl_nil_l.
  - destruct e as [nm v|f v| |tg|c| | |u sb|o| ];
      unfold offered in He; cbv beta iota zeta in He; simpl.
    + (* InputChange *)
      destruct IH as (C1 & C2 & C3 & C4 & C5).
      apply andb_prop in He. destruct He as [_ Hv].
      destruct nm; cbv beta iota in Hv; simpl; repeat split; try assumption.
      * apply orb_prop in Hv. destruct Hv as [Hv|Hv].
        -- left. apply negb_true_iff in Hv. now apply truthy_false.
        -- right. exact (proj1 (includes_true_iff _ _) Hv).
      * apply orb_prop in Hv. destruct Hv as [Hv|Hv].
        -- left. apply negb_true_iff in Hv. now apply truthy_false.
        -- right. exact (proj1 (includes_true_iff _ _) Hv).
    + (* CheckboxChange *)
      destruct IH as (C1 & C2 & C3 & C4 & C5).
      destruct f; apply andb_prop in He; destruct He as [_ Hv]; simpl;
        unfold toggle; repeat split; try assumption.
      * now apply toggle_body_NoDup.
      * now apply toggle_body_incl.
      * now apply toggle_body_NoDup.
    + (* AddCustomTag *)
      destruct IH as (C1 & C2 & C3 & C4 & C5).
      destruct (addCustomTag_cases (formData (view w)))
        as [(_ & Hn & ->)|[_ ->]]; simpl; repeat split; try assumption.
      now apply NoDup_snoc.
    + (* RemoveTag *)
      destruct IH as (C1 & C2 & C3 & C4 & C5).
      repeat split; try assumption. now apply NoDup_filter.
    + exact IH.
    + now rewrite (proj1 (merchant_nextStep_keeps (view w))).
    + exact IH.
    + unfold handleSubmit_click.
      destruct (confirmed (view w)); simpl; [|exact IH].
      destruct u; [destruct sb|]; simpl; exact IH.
    + destruct o as [[err|]|reason]; simpl; exact IH.
    + simpl. repeat split; auto using NoDup_nil, incl_nil_l.
Qed.

Lemma merchant_valid (w : World) :
  reachable w ->
  ((2 <= step (view w))%Z -> step1_ok (formData (view w)))
  /\ (step (view w) = 3%Z -> step2_ok (formData (view w))).
Proof.
  induction 1 as [|w e Hw IH He].
  - simpl. split; intros; lia.
  - pose proof (merchant_reachable_step w Hw) as Hrange.
    destruct IH as [V1 V2].
    destruct e as [nm v|f v| |tg|c| | |u sb|o| ];
      unfold offered in He; cbv beta iota zeta in He; simpl.
    + apply andb_prop in He. destruct He as [He _].
      apply andb_prop in He. destruct He as [_ Hp]. apply Z.eqb_eq in Hp.
      destruct nm; unfold paneOf in Hp; simpl; split; intros; try lia;
        first [ apply V1; lia | apply V2; lia ].
    + assert (Hp : step (view w) = 2%Z).
      { destruct f; apply andb_prop in He; destruct He as [He _];
          apply andb_prop in He; destruct He as [_ Hp]; now apply Z.eqb_eq in Hp. }
      split; intros; [|lia]. destruct f; simpl; apply V1; lia.
    + apply andb_prop in He. destruct He as [_ Hp]. apply Z.eqb_eq in Hp.
      split; intros; [|lia].
      destruct (addCustomTag_cases (formData (view w)))
        as [(_ & _ & ->)|[_ ->]]; simpl; apply V1; lia.
    + assert (Hp : step (view w) = 2%Z).
      { apply andb_prop in He. destruct He as [He _].
        apply andb_prop in He. destruct He as [He _].
        apply andb_prop in He. destruct He as [_ Hp]. now apply Z.eqb_eq in Hp. }
      split; intros; [|lia]. simpl. apply V1; lia.
    + split; [exact V1 | exact V2].
    + destruct (merchant_nextStep_cases (view w)) as (A & B & C & D & E).
      destruct (Z.eq_dec (step (view w)) 1) as [H1|H1].
      * destruct (fst (validateStep1 (view w))) eqn:V.
        -- rewrite (A H1 eq_refl). simpl. split; intros; [|lia].
           now apply merchant_validateStep1_ok.
        -- destruct (B H1 eq_refl) as [msg ->]. simpl. split; intros; lia.
      * destruct (Z.eq_dec (step (view w)) 2) as [H2|H2].
        -- destruct (fst (validateStep2 (view w))) eqn:V.
           ++ rewrite (C H2 eq_refl). simpl. split; intros.
              ** apply V1; lia.
              ** now apply merchant_validateStep2_ok.
           ++ destruct (D H2 eq_refl) as [msg ->]. simpl. split; intros.
              ** apply V1; lia.
              ** lia.
        -- rewrite (E H1 H2). split; [exact V1 | exact V2].
    + split; intros; [apply V1; lia | lia].
    + unfold handleSubmit_click.
      destruct (confirmed (view w)); simpl; [|split; assumption].
      destruct u; [destruct sb|]; simpl; split; assumption.
    + destruct o as [[err|]|reason]; simpl; split; assumption.
    + simpl. split; intros; lia.
Qed.

Lemma merchant_rows (w : World) :
  reachable w ->
  Forall (fun row => exists fd u,
              row = insertRow fd u
              /\ step1_ok fd /\ step2_ok fd /\ choices_ok fd)
         (inserts w).
Proof.
  induction 1 as [|w e Hw IH He].
  - constructor.
  - destruct e as [nm v|f v| |tg|c| | |u sb|o| ];
      unfold offered in He; cbv beta iota zeta in He; simpl; try exact IH.
    + unfold handleSubmit_click.
      destruct (confirmed (view w)); simpl; [|exact IH].
      destruct u as [u|]; [|exact IH]. destruct sb as [sb|]; [|exact IH].
      simpl. apply Forall_app. split; [exact IH|]. constructor; [|constructor].
      pose proof (merchant_reachable_step w Hw) as Hrange.
      apply andb_prop in He. destruct He as [He _].
      apply andb_prop in He. destruct He as [_ Hs].
      apply negb_true_iff, Z.ltb_ge in Hs.
      destruct (merchant_valid w Hw) as [V1 V2].
      exists (formData (view w)), u. split; [reflexivity|].
      split; [apply V1; lia|]. split; [apply V2; lia|].
      now apply merchant_choices.
Qed.

End MerchantInvariants.

Lemma orNull_not_empty (s : string) : JS.orNull s <> Some "".
Proof. destruct s; simpl; discriminate. Qed.

Lemma in_without (options : list string) (v x : string) :
  In x (filter (fun y => negb (String.eqb y v)) options) -> In x options /\ x <> v.
Proof.
  intros H. apply filter_In in H. destruct H as [Hin Hne]. split; [exact Hin|].
  intros ->. now rewrite String.eqb_refl in Hne.
Qed.

(** X10. The draft behind a later step has passed the earlier ones. In every
    reachable state from step 2 on, the step-1 fields are valid: name and
    address (shop) or name and URL (merchant) are not blank and the category
    or service type is one of the options. At step 3 the step-2 fields are
    valid as well. *)
Theorem wizard_draft_valid :
  (forall w : ShopRegistrationForm.World,
      ShopRegistrationForm.reachable w ->
      let s := ShopRegistrationForm.view w in
      let fd := formData s in
      ((2 <= step s)%Z ->
       fst (ShopRegistrationForm.validateStep1 s) = true
       /\ JS.trim (ShopRegistrationForm.ShopFormData.name fd) <> ""
       /\ JS.trim (ShopRegistrationForm.ShopFormData.address fd) <> ""
       /\ In (ShopRegistrationForm.ShopFormData.category fd)
             ShopRegistrationForm.CATEGORIES)
      /\ (step s = 3%Z ->
          fst (ShopRegistrationForm.validateStep2 s) = true
          /\ In (ShopRegistrationForm.ShopFormData.paymentMethod fd)
                ShopRegistrationForm.PAYMENT_METHODS))
  /\
  (forall w : OnlineMerchantRegistrationForm.World,
      OnlineMerchantRegistrationForm.reachable w ->
      let s := OnlineMerchantRegistrationForm.view w in
      let fd := formData s in
      ((2 <= step s)%Z ->
       fst (OnlineMerchantRegistrationForm.validateStep1 s) = true
       /\ JS.trim (OnlineMerchantRegistrationForm.MerchantFormData.name fd) <> ""
       /\ JS.trim (OnlineMerchantRegistrationForm.MerchantFormData.url fd) <> ""
       /\ In (OnlineMerchantRegistrationForm.MerchantFormData.serviceType fd)
             OnlineMerchantRegistrationForm.SERVICE_TYPES)
      /\ (step s = 3%Z ->
          fst (OnlineMerchantRegistrationForm.validateStep2 s) = true
          /\ OnlineMerchantRegistrationForm.MerchantFormData.platforms fd <> []
          /\ In (OnlineMerchantRegistrationForm.MerchantFormData.jpycUseCase fd)
                OnlineMerchantRegistrationForm.JPYC_USE_CASES)).
Proof.
  split; intros w Hw s fd; subst s fd.
  - destruct (shop_valid w Hw) as [V1 V2].
    destruct (shop_choices w Hw) as (C1 & C2 & _).
    split.
    + intros H2. destruct (V1 H2) as (A & B & C).
      split; [apply shop_validateStep1_ok; auto|].
      split; [now apply truthy_true|]. split; [now apply truthy_true|].
      destruct C1 as [E|Hin]; [|exact Hin].
      rewrite E in C. discriminate.
    + intros H3. destruct (V2 H3) as (A & B & C).
      split; [apply shop_validateStep2_ok; auto|].
      destruct C2 as [E|Hin]; [|exact Hin].
      rewrite E in C. discriminate.
  - destruct (merchant_valid w Hw) as [V1 V2].
    destruct (merchant_choices w Hw) as (C1 & C2 & _).
    split.
    + intros H2. destruct (V1 H2) as (A & B & C).
      split; [apply merchant_validateStep1_ok; auto|].
      split; [now apply truthy_true|]. split; [now apply truthy_true|].
      destruct C1 as [E|Hin]; [|exact Hin].
      rewrite E in C. discriminate.
    + intros H3. destruct (V2 H3) as (A & B).
      split; [apply merchant_validateStep2_ok; auto|].
      split; [exact B|].
      destruct C2 as [E|Hin]; [|exact Hin].
      rewrite E in A. simpl in A. discriminate.
Qed.

(** X11. Every row the shop wizard has sent to the store came from a valid
    draft: its name and address are trimmed and not empty, its tag is one of
    the categories, its payment method one of the options, its status is
    "pending" with both counters 0, its url is absent rather than empty, and
    no network listed is the empty string. *)
Theorem shop_inserted_rows (w : ShopRegistrationForm.World) :
  ShopRegistrationForm.reachable w ->
  Forall (fun row =>
            ShopRegistrationForm.Row.name row <> ""
            /\ ShopRegistrationForm.Row.address row <> ""
            /\ (exists c, In c ShopRegistrationForm.CATEGORIES
                          /\ ShopRegistrationForm.Row.tags row = [c])
            /\ (exists p, In p ShopRegistrationForm.PAYMENT_METHODS
                          /\ ShopRegistrationForm.Row.payment_methods row = [p])
            /\ ShopRegistrationForm.Row.status row = "pending"
            /\ ShopRegistrationForm.Row.upvotes row = 0%Z
            /\ ShopRegistrationForm.Row.downvotes row = 0%Z
            /\ ShopRegistrationForm.Row.url row <> Some ""
            /\ ~ In "" (ShopRegistrationForm.Row.jpyc_networks row))
         (ShopRegistrationForm.inserts w).
Proof.
  intros Hw. eapply Forall_impl; [|apply (shop_rows w Hw)].
  intros row (fd & u & -> & (N & A & C) & (_ & _ & P) & (C1 & C2 & _ & _ & _ & C6)).
  simpl.
  split; [now apply truthy_true|]. split; [now apply truthy_true|].
  split.
  { exists (ShopRegistrationForm.ShopFormData.category fd). split; [|reflexivity].
    destruct C1 as [E|Hin]; [rewrite E in C; discriminate | exact Hin]. }
  split.
  { exists (ShopRegistrationForm.ShopFormData.paymentMethod fd).
    split; [|reflexivity].
    destruct C2 as [E|Hin]; [rewrite E in P; discriminate | exact Hin]. }
  repeat split; try apply orNull_not_empty.
  change (~ In "" (ShopRegistrationForm.Row.jpyc_networks
                     (ShopRegistrationForm.insertRow fd u))).
  rewrite shop_row_networks, in_app_iff. intros [H|H].
  - apply in_without in H. destruct H as [H _]. apply C6 in H.
    simpl in H. intuition discriminate.
  - destruct (JS.includes _ sonota); simpl in H; [|contradiction].
    destruct (JS.truthy (JS.trim (ShopRegistrationForm.ShopFormData.networkOther fd)))
      eqn:T; simpl in H; [|contradiction].
    destruct H as [H|[]]. rewrite H in T. discriminate.
Qed.

(** X12. Every row the merchant wizard has sent to the store came from a
    valid draft: its name and URL are trimmed and not empty, its service
    type is one of the options, its use case is not empty, its status is
    "pending", description, country and tags are absent rather than empty,
    the tags are pairwise distinct, and no platform listed is the empty
    string. *)
Theorem merchant_inserted_rows (w : OnlineMerchantRegistrationForm.World) :
  OnlineMerchantRegistrationForm.reachable w ->
  Forall (fun row =>
            OnlineMerchantRegistrationForm.Row.name row <> ""
            /\ OnlineMerchantRegistrationForm.Row.url row <> ""
            /\ In (OnlineMerchantRegistrationForm.Row.service_type row)
                  OnlineMerchantRegistrationForm.SERVICE_TYPES
            /\ OnlineMerchantRegistrationForm.Row.jpyc_use_case row <> ""
            /\ OnlineMerchantRegistrationForm.Row.status row = "pending"
            /\ OnlineMerchantRegistrationForm.Row.description row <> Some ""
            /\ OnlineMerchantRegistrationForm.Row.country row <> Some ""
            /\ OnlineMerchantRegistrationForm.Row.tags row <> Some []
            /\ (forall tags, OnlineMerchantRegistrationForm.Row.tags row = Some tags ->
                             NoDup tags)
            /\ ~ In "" (OnlineMerchantRegistrationForm.Row.platforms row))
         (OnlineMerchantRegistrationForm.inserts w).
Proof.
  intros Hw. eapply Forall_impl; [|apply (merchant_rows w Hw)].
  intros row (fd & u & -> & (N & U & S) & (J & _) & (C1 & C2 & _ & C4 & C5)).
  split; [now apply truthy_true|]. split; [now apply truthy_true|].
  split.
  { simpl. destruct C1 as [E|Hin]; [rewrite E in S; discriminate | exact Hin]. }
  split.
  { simpl.
    destruct (String.eqb (OnlineMerchantRegistrationForm.MerchantFormData.jpycUseCase fd) sonota).
    - now apply truthy_true.
    - apply truthy_true. now apply truthy_trim. }
  split; [reflexivity|].
  split; [apply orNull_not_empty|]. split; [apply orNull_not_empty|].
  split.
  { simpl. destruct (OnlineMerchantRegistrationForm.MerchantFormData.tags fd);
      simpl; discriminate. }
  split.
  { simpl. intros tags E.
    destruct (OnlineMerchantRegistrationForm.MerchantFormData.tags fd) eqn:T;
      simpl in E; [discriminate|]. injection E as <-. exact C5. }
  rewrite merchant_row_platforms, in_app_iff. intros [H|H].
  - apply in_without in H. destruct H as [H _]. apply C4 in H.
    simpl in H. intuition discriminate.
  - destruct (JS.includes _ sonota); simpl in H; [|contradiction].
    destruct (JS.truthy (JS.trim (OnlineMerchantRegistrationForm.MerchantFormData.platformOther fd)))
      eqn:T; simpl in H; [|contradiction].
    destruct H as [H|[]]. rewrite H in T. discriminate.
Qed.

Section ShopSessions.
Import ShopRegistrationForm ShopFormData.

Lemma shop_back_next (w : World) :
  reachable w -> offered w ClickBack = true ->
  offered (fire ClickBack w) ClickNext = true
  /\ fire ClickNext (fire ClickBack w) = withView (setError None (view w)) w.
Proof.
  intros Hw He. pose proof (shop_reachable_step w Hw) as Hrange.
  destruct (shop_valid w Hw) as [V1 V2].
  unfold offered in He. cbv beta iota zeta in He.
  apply andb_prop in He. destruct He as [Hsub Hgt]. apply Z.ltb_lt in Hgt.
  assert (Hnext : nextStep (prevStep (view w)) = setError None (view w)).
  { destruct (shop_nextStep_cases (prevStep (view w))) as (A & _ & C & _ & _).
    destruct (Z.eq_dec (step (view w)) 2) as [H2|H2].
    - rewrite A.
      + destruct (view w) as [st fd c sg sd er]. simpl in *. now subst st.
      + simpl. lia.
      + apply shop_validateStep1_ok. simpl. apply V1. lia.
    - rewrite C.
      + destruct (view w) as [st fd c sg sd er]. simpl in *.
        assert (st = 3%Z) by lia. now subst st.
      + simpl. lia.
      + apply shop_validateStep2_ok. simpl. apply V2. lia. }
  split.
  - simpl. rewrite Hsub. simpl. apply Z.ltb_lt. lia.
  - simpl. unfold withView. simpl. now rewrite Hnext.
Qed.

Lemma shop_fire_inserts (w : World) (e : Event) :
  inserts (fire e w) = inserts w
  \/ exists u sb,
       e = ClickSubmit (Some u) (Some sb)
       /\ confirmed (view w) = true
       /\ inserts (fire e w) = (inserts w ++ [insertRow (formData (view w)) u])%list
       /\ awaiting (fire e w) = true.
Proof.
  destruct e as [nm v|f v|la lo|la lo|c| | |u sb|o| ]; simpl; auto.
  unfold handleSubmit_click.
  destruct (confirmed (view w)) eqn:Hc; simpl; auto.
  destruct u as [u|]; simpl; auto. destruct sb as [sb|]; simpl; auto.
  right. exists u, sb. auto.
Qed.

Lemma shop_submitted_offers (w : World) (e : Event) :
  reachable w -> submitted (view w) = true -> offered w e = true ->
  e = ClickReset \/ exists la lo, e = PositionObtained la lo.
Proof.
  intros Hw Hs He. destruct (shop_flags w Hw) as (I1 & I2 & _).
  destruct e as [nm v|f v|la lo|la lo|c| | |u sb|o| ];
    unfold offered in He; cbv beta iota zeta in He;
    rewrite ?Hs in He; simpl in He; try discriminate; eauto.
  - destruct f; discriminate.
  - rewrite I1, (I2 Hs) in He. discriminate.
Qed.

End ShopSessions.

Section MerchantSessions.
Import OnlineMerchantRegistrationForm MerchantFormData.

Lemma merchant_back_next (w : World) :
  reachable w -> offered w ClickBack = true ->
  offered (fire ClickBack w) ClickNext = true
  /\ fire ClickNext (fire ClickBack w) = withView (setError None (view w)) w.
Proof.
  intros Hw He. pose proof (merchant_reachable_step w Hw) as Hrange.
  destruct (merchant_valid w Hw) as [V1 V2].
  unfold offered in He. cbv beta iota zeta in He.
  apply andb_prop in He. destruct He as [Hsub Hgt]. apply Z.ltb_lt in Hgt.
  assert (Hnext : nextStep (prevStep (view w)) = setError None (view w)).
  { destruct (merchant_nextStep_cases (prevStep (view w))) as (A & _ & C & _ & _).
    destruct (Z.eq_dec (step (view w)) 2) as [H2|H2].
    - rewrite A.
      + destruct (view w) as [st fd c sg sd er]. simpl in *. now subst st.
      + simpl. lia.
      + apply merchant_validateStep1_ok. simpl. apply V1. lia.
    - rewrite C.
      + destruct (view w) as [st fd c sg sd er]. simpl in *.
        assert (st = 3%Z) by lia. now subst st.
      + simpl. lia.
      + apply merchant_validateStep2_ok. simpl. apply V2. lia. }
  split.
  - simpl. rewrite Hsub. simpl. apply Z.ltb_lt. lia.
  - simpl. unfold withView. simpl. now rewrite Hnext.
Qed.

Lemma merchant_fire_inserts (w : World) (e : Event) :
  inserts (fire e w) = inserts w
  \/ exists u sb,
       e = ClickSubmit (Some u) (Some sb)
       /\ confirmed (view w) = true
       /\ inserts (fire e w) = (inserts w ++ [insertRow (formData (view w)) u])%list
       /\ awaiting (fire e w) = true.
Proof.
  destruct e as [nm v|f v| |tg|c| | |u sb|o| ]; simpl; auto.
  unfold handleSubmit_click.
  destruct (confirmed (view w)) eqn:Hc; simpl; auto.
  destruct u as [u|]; simpl; auto. destruct sb as [sb|]; simpl; auto.
  right. exists u, sb. auto.
Qed.

Lemma merchant_submitted_offers (w : World) (e : Event) :
  reachable w -> submitted (view w) = true -> offered w e = true ->
  e = ClickReset.
Proof.
  intros Hw Hs He. destruct (merchant_flags w Hw) as (I1 & I2 & _).
  destruct e as [nm v|f v| |tg|c| | |u sb|o| ];
    unfold offered in He; cbv beta iota zeta in He;
    rewrite ?Hs in He; simpl in He; try discriminate; auto.
  - destruct f; discriminate.
  - rewrite I1, (I2 Hs) in He. discriminate.
Qed.

End MerchantSessions.

(** X13. Going back and coming forward loses nothing: wherever the back
    button is shown, pressing it and then the next button is offered and
    leads to the state left, the error cleared; the draft, the check box and
    the step are the ones before. *)
Theorem wizard_back_then_next :
  (forall w : ShopRegistrationForm.World,
      ShopRegistrationForm.reachable w ->
      ShopRegistrationForm.offered w ShopRegistrationForm.ClickBack = true ->
      ShopRegistrationForm.offered
        (ShopRegistrationForm.fire ShopRegistrationForm.ClickBack w)
        ShopRegistrationForm.ClickNext = true
      /\ ShopRegistrationForm.fire ShopRegistrationForm.ClickNext
           (ShopRegistrationForm.fire ShopRegistrationForm.ClickBack w)
         = ShopRegistrationForm.withView
             (setError None (ShopRegistrationForm.view w)) w)
  /\
  (forall w : OnlineMerchantRegistrationForm.World,
      OnlineMerchantRegistrationForm.reachable w ->
      OnlineMerchantRegistrationForm.offered w
        OnlineMerchantRegistrationForm.ClickBack = true ->
      OnlineMerchantRegistrationForm.offered
        (OnlineMerchantRegistrationForm.fire
           OnlineMerchantRegistrationForm.ClickBack w)
        OnlineMerchantRegistrationForm.ClickNext = true
      /\ OnlineMerchantRegistrationForm.fire
           OnlineMerchantRegistrationForm.ClickNext
           (OnlineMerchantRegistrationForm.fire
              OnlineMerchantRegistrationForm.ClickBack w)
         = OnlineMerchantRegistrationForm.withView
             (setError None (OnlineMerchantRegistrationForm.view w)) w).
Proof. split; [apply shop_back_next | apply merchant_back_next]. Qed.

(** X14. One insert at a time, one row per submission. In every reachable
    state an insert is awaited exactly while [submitting] is set, and then
    the submit button does nothing. An offered event leaves the rows sent
    as they are, unless it is a press of submit with the box ticked, a user
    signed in and the store configured, which adds exactly the row of the
    current draft and starts the wait. *)
Theorem wizard_single_flight :
  (forall w : ShopRegistrationForm.World,
      ShopRegistrationForm.reachable w ->
      ShopRegistrationForm.awaiting w = submitting (ShopRegistrationForm.view w)
      /\ (ShopRegistrationForm.awaiting w = true ->
          forall u sb,
            ShopRegistrationForm.offered w (ShopRegistrationForm.ClickSubmit u sb)
            = false)
      /\ forall e,
           ShopRegistrationForm.inserts (ShopRegistrationForm.fire e w)
           = ShopRegistrationForm.inserts w
           \/ exists u sb,
                e = ShopRegistrationForm.ClickSubmit (Some u) (Some sb)
                /\ confirmed (ShopRegistrationForm.view w) = true
                /\ ShopRegistrationForm.inserts (ShopRegistrationForm.fire e w)
                   = (ShopRegistrationForm.inserts w
                      ++ [ShopRegistrationForm.insertRow
                            (formData (ShopRegistrationForm.view w)) u])%list
                /\ ShopRegistrationForm.awaiting (ShopRegistrationForm.fire e w)
                   = true)
  /\
  (forall w : OnlineMerchantRegistrationForm.World,
      OnlineMerchantRegistrationForm.reachable w ->
      OnlineMerchantRegistrationForm.awaiting w
      = submitting (OnlineMerchantRegistrationForm.view w)
      /\ (OnlineMerchantRegistrationForm.awaiting w = true ->
          forall u sb,
            OnlineMerchantRegistrationForm.offered w
              (OnlineMerchantRegistrationForm.ClickSubmit u sb) = false)
      /\ forall e,
           OnlineMerchantRegistrationForm.inserts
             (OnlineMerchantRegistrationForm.fire e w)
           = OnlineMerchantRegistrationForm.inserts w
           \/ exists u sb,
                e = OnlineMerchantRegistrationForm.ClickSubmit (Some u) (Some sb)
                /\ confirmed (OnlineMerchantRegistrationForm.view w) = true
                /\ OnlineMerchantRegistrationForm.inserts
                     (OnlineMerchantRegistrationForm.fire e w)
                   = (OnlineMerchantRegistrationForm.inserts w
                      ++ [OnlineMerchantRegistrationForm.insertRow
                            (formData (OnlineMerchantRegistrationForm.view w)) u])%list
                /\ OnlineMerchantRegistrationForm.awaiting
                     (OnlineMerchantRegistrationForm.fire e w) = true).
Proof.
  split; intros w Hw.
  - destruct (shop_flags w Hw) as (I1 & _).
    split; [exact I1|]. split; [|apply shop_fire_inserts].
    intros Ha u sb. simpl. rewrite <- I1, Ha. simpl. apply andb_false_r.
  - destruct (merchant_flags w Hw) as (I1 & _).
    split; [exact I1|]. split; [|apply merchant_fire_inserts].
    intros Ha u sb. simpl. rewrite <- I1, Ha. simpl. apply andb_false_r.
Qed.

(** X15. Reset starts over. Wherever the reset button is shown, pressing it
    gives back the initial form: step 1, the empty draft, the box unticked,
    no error and no flag set; no insert is awaited and the rows sent are
    untouched. *)
Theorem wizard_reset_initial :
  (forall w : ShopRegistrationForm.World,
      ShopRegistrationForm.reachable w ->
      ShopRegistrationForm.offered w ShopRegistrationForm.ClickReset = true ->
      let w' := ShopRegistrationForm.fire ShopRegistrationForm.ClickReset w in
      ShopRegistrationForm.view w' = ShopRegistrationForm.initialState
      /\ ShopRegistrationForm.awaiting w' = false
      /\ ShopRegistrationForm.inserts w' = ShopRegistrationForm.inserts w)
  /\
  (forall w : OnlineMerchantRegistrationForm.World,
      OnlineMerchantRegistrationForm.reachable w ->
      OnlineMerchantRegistrationForm.offered w
        OnlineMerchantRegistrationForm.ClickReset = true ->
      let w' := OnlineMerchantRegistrationForm.fire
                  OnlineMerchantRegistrationForm.ClickReset w in
      OnlineMerchantRegistrationForm.view w'
      = OnlineMerchantRegistrationForm.initialState
      /\ OnlineMerchantRegistrationForm.awaiting w' = false
      /\ OnlineMerchantRegistrationForm.inserts w'
         = OnlineMerchantRegistrationForm.inserts w).
Proof.
  split; intros w Hw He w'; subst w'; simpl in He.
  - destruct (shop_flags w Hw) as (I1 & I2 & _).
    pose proof (I2 He) as Hsg. split; [|split].
    + simpl. unfold ShopRegistrationForm.resetForm,
        ShopRegistrationForm.initialState.
      destruct (ShopRegistrationForm.view w) as [st fd c sg sd er].
      simpl in *. rewrite Hsg. reflexivity.
    + simpl. now rewrite I1.
    + reflexivity.
  - destruct (merchant_flags w Hw) as (I1 & I2 & _).
    pose proof (I2 He) as Hsg. split; [|split].
    + simpl. unfold OnlineMerchantRegistrationForm.resetForm,
        OnlineMerchantRegistrationForm.initialState.
      destruct (OnlineMerchantRegistrationForm.view w) as [st fd c sg sd er].
      simpl in *. rewrite Hsg. reflexivity.
    + simpl. now rewrite I1.
    + reflexivity.
Qed.

(** X16. The success screen is final. In a reachable state with [submitted]
    set, at least one row has been sent, no insert is awaited, and the only
    button is reset: no edit, no navigation and no further submission is
    offered. In the shop form the geolocation callback may still arrive; it
    moves the pin and nothing else. *)
Theorem wizard_submitted_terminal :
  (forall w : ShopRegistrationForm.World,
      ShopRegistrationForm.reachable w ->
      submitted (ShopRegistrationForm.view w) = true ->
      phase (ShopRegistrationForm.view w) = SUBMITTED
      /\ ShopRegistrationForm.inserts w <> []
      /\ ShopRegistrationForm.awaiting w = false
      /\ forall e, ShopRegistrationForm.offered w e = true ->
           e = ShopRegistrationForm.ClickReset
           \/ exists la lo,
                e = ShopRegistrationForm.PositionObtained la lo
                /\ submitted (ShopRegistrationForm.view
                                (ShopRegistrationForm.fire e w)) = true
                /\ ShopRegistrationForm.inserts (ShopRegistrationForm.fire e w)
                   = ShopRegistrationForm.inserts w)
  /\
  (forall w : OnlineMerchantRegistrationForm.World,
      OnlineMerchantRegistrationForm.reachable w ->
      submitted (OnlineMerchantRegistrationForm.view w) = true ->
      phase (OnlineMerchantRegistrationForm.view w) = SUBMITTED
      /\ OnlineMerchantRegistrationForm.inserts w <> []
      /\ OnlineMerchantRegistrationForm.awaiting w = false
      /\ forall e, OnlineMerchantRegistrationForm.offered w e = true ->
           e = OnlineMerchantRegistrationForm.ClickReset).
Proof.
  split; intros w Hw Hs.
  - destruct (shop_flags w Hw) as (I1 & I2 & _ & I4).
    split; [unfold phase; now rewrite Hs|]. split; [now apply I4|].
    split; [rewrite I1; now apply I2|].
    intros e He. destruct (shop_submitted_offers w e Hw Hs He) as [->|[la [lo ->]]].
    + now left.
    + right. exists la, lo. simpl. auto.
  - destruct (merchant_flags w Hw) as (I1 & I2 & _ & I4).
    split; [unfold phase; now rewrite Hs|]. split; [now apply I4|].
    split; [rewrite I1; now apply I2|].
    intros e He. now apply (merchant_submitted_offers w e Hw Hs He).
Qed.

(** ** Submission, run to completion *)

(** X17. [handleSubmit] run to completion, in both forms. It never changes
    the step, the draft or the check box. Either it makes no insert call:
    then the box is unticked, nobody is signed in or the store is not
    configured, an error message is set (the one about the store when the
    first two tests pass) and [submitting] and [submitted] are as before. Or
    it makes exactly one call, with the row of the draft, and ends with
    [submitting] cleared: [submitted] set and no error when the call
    resolved without error, the failure message and [submitted] unchanged
    otherwise. *)
Theorem handleSubmit_outcomes :
  (forall (user : option User.t)
          (supabase : option ShopRegistrationForm.SupabaseClient)
          (s : ShopRegistrationForm.ShopState),
      let r := ShopRegistrationForm.handleSubmit user supabase s in
      step (fst r) = step s /\ formData (fst r) = formData s
      /\ confirmed (fst r) = confirmed s
      /\ ((snd r = []
           /\ (confirmed s = false \/ user = None \/ supabase = None)
           /\ submitting (fst r) = submitting s
           /\ submitted (fst r) = submitted s
           /\ error (fst r) <> None
           /\ (confirmed s = true -> user <> None ->
               error (fst r) = Some "Supabaseが設定されていません"))
          \/ exists u client,
               user = Some u /\ supabase = Some client /\ confirmed s = true
               /\ snd r = [ShopRegistrationForm.insertRow (formData s) u]
               /\ submitting (fst r) = false
               /\ ((client (ShopRegistrationForm.insertRow (formData s) u)
                    = Resolved None
                    /\ submitted (fst r) = true /\ error (fst r) = None)
                   \/ (client (ShopRegistrationForm.insertRow (formData s) u)
                       <> Resolved None
                       /\ submitted (fst r) = submitted s
                       /\ error (fst r)
                          = Some "登録に失敗しました。もう一度お試しください。"))))
  /\
  (forall (user : option User.t)
          (supabase : option OnlineMerchantRegistrationForm.SupabaseClient)
          (s : OnlineMerchantRegistrationForm.MerchantState),
      let r := OnlineMerchantRegistrationForm.handleSubmit user supabase s in
      step (fst r) = step s /\ formData (fst r) = formData s
      /\ confirmed (fst r) = confirmed s
      /\ ((snd r = []
           /\ (confirmed s = false \/ user = None \/ supabase = None)
           /\ submitting (fst r) = submitting s
           /\ submitted (fst r) = submitted s
           /\ error (fst r) <> None
           /\ (confirmed s = true -> user <> None ->
               error (fst r) = Some "Supabaseが設定されていません"))
          \/ exists u client,
               user = Some u /\ supabase = Some client /\ confirmed s = true
               /\ snd r = [OnlineMerchantRegistrationForm.insertRow (formData s) u]
               /\ submitting (fst r) = false
               /\ ((client (OnlineMerchantRegistrationForm.insertRow (formData s) u)
                    = Resolved None
                    /\ submitted (fst r) = true /\ error (fst r) = None)
                   \/ (client (OnlineMerchantRegistrationForm.insertRow
                                 (formData s) u)
                       <> Resolved None
                       /\ submitted (fst r) = submitted s
                       /\ error (fst r)
                          = Some "登録に失敗しました。もう一度お試しください。")))).
Proof.
  split; intros user supabase s r; subst r.
  - unfold ShopRegistrationForm.handleSubmit,
      ShopRegistrationForm.handleSubmit_click.
    destruct (confirmed s) eqn:Hc; simpl.
    2:{ repeat split; auto. left. repeat split; auto; discriminate. }
    destruct user as [u|]; simpl.
    2:{ repeat split; auto. left. repeat split; auto; try discriminate.
        intros _ H. now contradiction H. }
    destruct supabase as [client|]; simpl.
    2:{ repeat split; auto. left. repeat split; auto; discriminate. }
    unfold ShopRegistrationForm.handleSubmit_settled.
    destruct (client _) as [[e|]|reason] eqn:Ho; simpl;
      (split; [reflexivity|]; split; [reflexivity|]; split; [exact Hc|];
       right; exists u, client; simpl in Ho |- *; rewrite Ho;
       repeat (split; [reflexivity|])).
    + right. repeat split; auto; discriminate.
    + left. repeat split; auto.
    + right. repeat split; auto; discriminate.
  - unfold OnlineMerchantRegistrationForm.handleSubmit,
      OnlineMerchantRegistrationForm.handleSubmit_click.
    destruct (confirmed s) eqn:Hc; simpl.
    2:{ repeat split; auto. left. repeat split; auto; discriminate. }
    destruct user as [u|]; simpl.
    2:{ repeat split; auto. left. repeat split; auto; try discriminate.
        intros _ H. now contradiction H. }
    destruct supabase as [client|]; simpl.
    2:{ repeat split; auto. left. repeat split; auto; discriminate. }
    unfold OnlineMerchantRegistrationForm.handleSubmit_settled.
    destruct (client _) as [[e|]|reason] eqn:Ho; simpl;
      (split; [reflexivity|]; split; [reflexivity|]; split; [exact Hc|];
       right; exists u, client; simpl in Ho |- *; rewrite Ho;
       repeat (split; [reflexivity|])).
    + right. repeat split; auto; discriminate.
    + left. repeat split; auto.
    + right. repeat split; auto; discriminate.
Qed.

(** ** Check boxes and tags *)

Lemma shop_toggle_twice (current : list string) (value : string) :
  ~ In value current ->
  ShopRegistrationForm.toggle (ShopRegistrationForm.toggle current value) value
  = current.
Proof.
  intros Hn. unfold ShopRegistrationForm.toggle.
  destruct (JS.includes current value) eqn:E.
  { apply includes_true_iff in E. contradiction. }
  assert (H : JS.includes (current ++ [value]) value = true).
  { apply includes_true_iff, in_app_iff. right. now left. }
  rewrite H. now apply toggle_body_twice.
Qed.

Lemma merchant_toggle_twice (current : list string) (value : string) :
  ~ In value current ->
  OnlineMerchantRegistrationForm.toggle
    (OnlineMerchantRegistrationForm.toggle current value) value
  = current.
Proof.
  intros Hn. unfold OnlineMerchantRegistrationForm.toggle.
  destruct (JS.includes current value) eqn:E.
  { apply includes_true_iff in E. contradiction. }
  assert (H : JS.includes (current ++ [value]) value = true).
  { apply includes_true_iff, in_app_iff. right. now left. }
  rewrite H. now apply toggle_body_twice.
Qed.

Lemma toggle_body_flip (current : list string) (value : string) :
  In value (if JS.includes current value
            then filter (fun v => negb (String.eqb v value)) current
            else current ++ [value])
  <-> ~ In value current.
Proof.
  rewrite toggle_body_in. split.
  - intros [[H _]|[_ H]]; [now contradiction H | exact H].
  - intros H. right. now split.
Qed.

Lemma toggle_body_others (current : list string) (value x : string) :
  x <> value ->
  (In x (if JS.includes current value
         then filter (fun v => negb (String.eqb v value)) current
         else current ++ [value])
   <-> In x current).
Proof.
  intros Hne. rewrite toggle_body_in. split.
  - intros [[_ H]|[H _]]; [exact H | contradiction].
  - intros H. left. now split.
Qed.

(** X18. The choices of a reachable draft. In every state the wizards can
    reach, a value chosen in a select is empty or one of its options, the
    lists behind the check boxes hold only offered options and hold none
    twice, and the merchant's tags hold none twice. *)
Theorem wizard_choices :
  (forall w : ShopRegistrationForm.World,
      ShopRegistrationForm.reachable w ->
      let fd := formData (ShopRegistrationForm.view w) in
      (ShopRegistrationForm.ShopFormData.category fd = ""
       \/ In (ShopRegistrationForm.ShopFormData.category fd)
             ShopRegistrationForm.CATEGORIES)
      /\ (ShopRegistrationForm.ShopFormData.paymentMethod fd = ""
          \/ In (ShopRegistrationForm.ShopFormData.paymentMethod fd)
                ShopRegistrationForm.PAYMENT_METHODS)
      /\ NoDup (ShopRegistrationForm.ShopFormData.jpycUseCases fd)
      /\ incl (ShopRegistrationForm.ShopFormData.jpycUseCases fd)
              ShopRegistrationForm.JPYC_USE_CASES
      /\ NoDup (ShopRegistrationForm.ShopFormData.networks fd)
      /\ incl (ShopRegistrationForm.ShopFormData.networks fd)
              ShopRegistrationForm.NETWORKS)
  /\
  (forall w : OnlineMerchantRegistrationForm.World,
      OnlineMerchantRegistrationForm.reachable w ->
      let fd := formData (OnlineMerchantRegistrationForm.view w) in
      (OnlineMerchantRegistrationForm.MerchantFormData.serviceType fd = ""
       \/ In (OnlineMerchantRegistrationForm.MerchantFormData.serviceType fd)
             OnlineMerchantRegistrationForm.SERVICE_TYPES)
      /\ (OnlineMerchantRegistrationForm.MerchantFormData.jpycUseCase fd = ""
          \/ In (OnlineMerchantRegistrationForm.MerchantFormData.jpycUseCase fd)
                OnlineMerchantRegistrationForm.JPYC_USE_CASES)
      /\ NoDup (OnlineMerchantRegistrationForm.MerchantFormData.platforms fd)
      /\ incl (OnlineMerchantRegistrationForm.MerchantFormData.platforms fd)
              OnlineMerchantRegistrationForm.PLATFORMS
      /\ NoDup (OnlineMerchantRegistrationForm.MerchantFormData.tags fd)).
Proof.
  split; intros w Hw fd; subst fd.
  - exact (shop_choices w Hw).
  - exact (merchant_choices w Hw).
Qed.

(** X19. The merchant form's counterpart of the sentinel-only case. A draft
    whose platforms are exactly ["その他"] with a blank free text passes the
    platform test of step 2: [validateStep2] succeeds as soon as the
    use-case test does and never reports the platform message; on submit the
    row's platform list is empty. *)
Theorem merchant_sentinel_only_platform
        (s : OnlineMerchantRegistrationForm.MerchantState) (u : User.t)
        (client : OnlineMerchantRegistrationForm.SupabaseClient) :
  OnlineMerchantRegistrationForm.MerchantFormData.platforms (formData s) = [sonota] ->
  JS.truthy (JS.trim (OnlineMerchantRegistrationForm.MerchantFormData.platformOther
                        (formData s))) = false ->
  (fst (OnlineMerchantRegistrationForm.validateStep2 s) = true <->
     JS.truthy
       (JS.trim
          (if String.eqb
                (OnlineMerchantRegistrationForm.MerchantFormData.jpycUseCase
                   (formData s)) sonota
           then OnlineMerchantRegistrationForm.MerchantFormData.jpycUseCaseOther
                  (formData s)
           else OnlineMerchantRegistrationForm.MerchantFormData.jpycUseCase
                  (formData s))) = true)
  /\ error (snd (OnlineMerchantRegistrationForm.validateStep2 s))
     <> Some "プラットフォームを1つ以上選択してください"
  /\ (step s = 2%Z -> fst (OnlineMerchantRegistrationForm.validateStep2 s) = true ->
      step (OnlineMerchantRegistrationForm.nextStep s) = 3%Z)
  /\ (confirmed s = true ->
      exists row,
        snd (OnlineMerchantRegistrationForm.handleSubmit (Some u) (Some client) s)
        = [row]
        /\ OnlineMerchantRegistrationForm.Row.platforms row = []).
Proof.
  intros Hp Hblank.
  unfold OnlineMerchantRegistrationForm.validateStep2. rewrite Hp.
  cbv zeta. simpl List.length. simpl Nat.eqb.
  split; [|split; [|split]].
  - match goal with |- context [negb ?b] => destruct b end;
      simpl; split; congruence.
  - match goal with |- context [negb ?b] => destruct b end;
      simpl; discriminate.
  - intros H2 Hok. unfold OnlineMerchantRegistrationForm.nextStep.
    rewrite H2. simpl (2 =? 1)%Z. simpl (2 =? 2)%Z. cbv iota.
    unfold OnlineMerchantRegistrationForm.validateStep2. rewrite Hp.
    cbv zeta. simpl List.length. simpl Nat.eqb. revert Hok.
    match goal with |- context [negb ?b] => destruct b end;
      simpl; [reflexivity | discriminate].
  - intros Hc. rewrite (merchant_submit_runs u client s Hc). simpl.
    eexists. split; [reflexivity|].
    rewrite merchant_row_platforms, Hp, Hblank. reflexivity.
Qed.

(** X20. Custom tags of the merchant form. [addCustomTag] keeps every tag
    there was and adds at most the trimmed free text; afterwards that text,
    unless blank, is among the tags. It keeps a list without duplicates so,
    leaves the platforms alone, and doing it twice is doing it once.
    [removeTag] removes every occurrence of the tag and keeps the others.
    Removing a tag just added gives the draft back with the free text
    cleared. *)
Theorem merchant_custom_tags
        (prev : OnlineMerchantRegistrationForm.MerchantFormData.t) :
  let t := JS.trim (OnlineMerchantRegistrationForm.MerchantFormData.customTag prev) in
  let tags := OnlineMerchantRegistrationForm.MerchantFormData.tags in
  let add := OnlineMerchantRegistrationForm.addCustomTag in
  let remove := OnlineMerchantRegistrationForm.removeTag in
  (forall x, In x (tags (add prev)) <-> In x (tags prev) \/ (x = t /\ t <> ""))
  /\ (NoDup (tags prev) -> NoDup (tags (add prev)))
  /\ OnlineMerchantRegistrationForm.MerchantFormData.platforms (add prev)
     = OnlineMerchantRegistrationForm.MerchantFormData.platforms prev
  /\ add (add prev) = add prev
  /\ (forall tag x, In x (tags (remove tag prev)) <-> In x (tags prev) /\ x <> tag)
  /\ (t <> "" -> ~ In t (tags prev) ->
      remove t (add prev)
      = OnlineMerchantRegistrationForm.handleInputChange
          OnlineMerchantRegistrationForm.n_customTag "" prev).
Proof.
  intros t tags add remove. subst tags add remove.
  destruct (addCustomTag_cases prev) as [(Ht & Hn & E)|([Ht|Hin] & E)];
    fold t in Ht, Hn, E || fold t in Ht, E || fold t in Hin, E.
  - (* appended *)
    assert (Hne : t <> "") by now apply truthy_true.
    split; [|split; [|split; [|split; [|split]]]].
    + intros x. rewrite E. simpl. rewrite in_app_iff. simpl. split.
      * intros [H|[H|[]]]; [now left | right; now split].
      * intros [H|[H _]]; [now left | right; now left].
    + intros Hd. rewrite E. simpl. now apply NoDup_snoc.
    + rewrite E. reflexivity.
    + rewrite E. unfold OnlineMerchantRegistrationForm.addCustomTag at 1.
      reflexivity.
    + intros tag x. simpl. rewrite filter_In, negb_true_iff. split.
      * intros [H1 H2]. split; [exact H1|]. intros ->.
        now rewrite String.eqb_refl in H2.
      * intros [H1 H2]. split; [exact H1|]. now apply String.eqb_neq.
    + intros _ _. rewrite E.
      unfold OnlineMerchantRegistrationForm.removeTag. simpl.
      rewrite (toggle_body_twice _ _ Hn). destruct prev; reflexivity.
  - (* blank free text *)
    assert (He : t = "") by now apply truthy_false.
    split; [|split; [|split; [|split; [|split]]]].
    + intros x. rewrite E. split; [now left|].
      intros [H|[_ H]]; [exact H | contradiction].
    + now rewrite E.
    + now rewrite E.
    + now rewrite !E.
    + intros tag x. simpl. rewrite filter_In, negb_true_iff. split.
      * intros [H1 H2]. split; [exact H1|]. intros ->.
        now rewrite String.eqb_refl in H2.
      * intros [H1 H2]. split; [exact H1|]. now apply String.eqb_neq.
    + intros H. contradiction.
  - (* already a tag *)
    split; [|split; [|split; [|split; [|split]]]].
    + intros x. rewrite E. split; [now left|].
      intros [H|[-> _]]; [exact H | exact Hin].
    + now rewrite E.
    + now rewrite E.
    + now rewrite !E.
    + intros tag x. simpl. rewrite filter_In, negb_true_iff. split.
      * intros [H1 H2]. split; [exact H1|]. intros ->.
        now rewrite String.eqb_refl in H2.
      * intros [H1 H2]. split; [exact H1|]. now apply String.eqb_neq.
    + intros _ H. contradiction.
Qed.

(** X21. Ticking a check box, in both forms. A tick flips whether the value
    is in the list and changes nothing about the other values; a list
    without duplicates stays so; two ticks leave the same values selected,
    and starting from an unticked box they give back the very draft. *)
Theorem checkbox_toggle :
  (forall (current : list string) (value : string),
      (In value (ShopRegistrationForm.toggle current value) <-> ~ In value current)
      /\ (forall x, x <> value ->
                    (In x (ShopRegistrationForm.toggle current value)
                     <-> In x current))
      /\ (NoDup current -> NoDup (ShopRegistrationForm.toggle current value))
      /\ (forall x,
             In x (ShopRegistrationForm.toggle
                     (ShopRegistrationForm.toggle current value) value)
             <-> In x current))
  /\ (forall field value (fd : ShopRegistrationForm.ShopFormData.t),
         ~ In value
             match field with
             | ShopRegistrationForm.f_jpycUseCases =>
                 ShopRegistrationForm.ShopFormData.jpycUseCases fd
             | ShopRegistrationForm.f_networks =>
                 ShopRegistrationForm.ShopFormData.networks fd
             end ->
         ShopRegistrationForm.handleCheckboxChange field value
           (ShopRegistrationForm.handleCheckboxChange field value fd) = fd)
  /\ (forall (current : list string) (value : string),
         (In value (OnlineMerchantRegistrationForm.toggle current value)
          <-> ~ In value current)
         /\ (forall x, x <> value ->
                       (In x (OnlineMerchantRegistrationForm.toggle current value)
                        <-> In x current))
         /\ (NoDup current ->
             NoDup (OnlineMerchantRegistrationForm.toggle current value))
         /\ (forall x,
                In x (OnlineMerchantRegistrationForm.toggle
                        (OnlineMerchantRegistrationForm.toggle current value) value)
                <-> In x current))
  /\ (forall field value (fd : OnlineMerchantRegistrationForm.MerchantFormData.t),
         ~ In value
             match field with
             | OnlineMerchantRegistrationForm.f_platforms =>
                 OnlineMerchantRegistrationForm.MerchantFormData.platforms fd
             | OnlineMerchantRegistrationForm.f_tags =>
                 OnlineMerchantRegistrationForm.MerchantFormData.tags fd
             end ->
         OnlineMerchantRegistrationForm.handleCheckboxChange field value
           (OnlineMerchantRegistrationForm.handleCheckboxChange field value fd)
         = fd).
Proof.
  split; [|split; [|split]].
  - intros current value. split; [apply toggle_body_flip|].
    split; [intros x; apply toggle_body_others|].
    split; [apply toggle_body_NoDup|].
    intros x. destruct (String.eqb_spec x value) as [->|Hne].
    + unfold ShopRegistrationForm.toggle at 1.
      rewrite toggle_body_flip. unfold ShopRegistrationForm.toggle.
      rewrite toggle_body_flip.
      destruct (in_dec string_dec value current); tauto.
    + unfold ShopRegistrationForm.toggle at 1.
      rewrite (toggle_body_others _ _ _ Hne). unfold ShopRegistrationForm.toggle.
      now apply toggle_body_others.
  - intros field value fd Hn. destruct fd, field; simpl in *;
      unfold ShopRegistrationForm.handleCheckboxChange; simpl;
      now rewrite (shop_toggle_twice _ _ Hn).
  - intros current value. split; [apply toggle_body_flip|].
    split; [intros x; apply toggle_body_others|].
    split; [apply toggle_body_NoDup|].
    intros x. destruct (String.eqb_spec x value) as [->|Hne].
    + unfold OnlineMerchantRegistrationForm.toggle at 1.
      rewrite toggle_body_flip. unfold OnlineMerchantRegistrationForm.toggle.
      rewrite toggle_body_flip.
      destruct (in_dec string_dec value current); tauto.
    + unfold OnlineMerchantRegistrationForm.toggle at 1.
      rewrite (toggle_body_others _ _ _ Hne).
      unfold OnlineMerchantRegistrationForm.toggle.
      now apply toggle_body_others.
  - intros field value fd Hn. destruct fd, field; simpl in *;
      unfold OnlineMerchantRegistrationForm.handleCheckboxChange,
        OnlineMerchantRegistrationForm.withLists; simpl;
      now rewrite (merchant_toggle_twice _ _ Hn).
Qed.

(** ** The stored location and the list *)

Section Geolocation.
Import ShopsTab.
Local Open Scope float_scope.

Lemma nearbyShops_own_position
      (M : JS.Math.t) (shops : list Shop.t) (loc : Location.t) (r : float)
      (s : Shop.t) :
  JS.Math.ecma262 M -> JS.Math.in_range M ->
  (abs (Location.lat loc) <=? 90) = true ->
  (abs (Location.lng loc) <=? 180) = true ->
  In s shops ->
  Shop.lat s = Location.lat loc -> Shop.lng s = Location.lng loc ->
  (0 <=? r) = true ->
  In {| shop := s; distance := 0 |}
     (JS.Array_sort (fun a b => distance a - distance b)
        (filter (fun shop => distance shop <=? r)
           (map (withDistance M loc) shops)))
  /\ exists first rest,
       JS.Array_sort (fun a b => distance a - distance b)
         (filter (fun shop => distance shop <=? r)
            (map (withDistance M loc) shops)) = first :: rest
       /\ distance first = 0.
Proof.
  intros E R Hlat' Hlng' Hin Hlat Hlng Hr.
  set (kept := filter (fun shop => distance shop <=? r)
                      (map (withDistance M loc) shops)).
  assert (Hperm := sort_perm distance kept).
  assert (Hsorted := sort_sorted distance kept (kept_numeric M loc r shops)).
  assert (Hself : withDistance M loc s = {| shop := s; distance := 0 |}).
  { unfold withDistance. rewrite Hlat, Hlng.
    now rewrite (calculateDistance_same M _ _ E R Hlat' Hlng'). }
  assert (Hkept : In {| shop := s; distance := 0 |} kept).
  { unfold kept. apply filter_In. split.
    - rewrite <- Hself. now apply in_map.
    - exact Hr. }
  assert (Hnear : In {| shop := s; distance := 0 |}
                     (JS.Array_sort (fun a b => distance a - distance b) kept)).
  { apply (Permutation_in _ (Permutation_sym Hperm)). exact Hkept. }
  split; [exact Hnear|].
  destruct (JS.Array_sort (fun a b => distance a - distance b) kept)
    as [|first rest] eqn:Es; [contradiction|].
  exists first, rest. split; [reflexivity|].
  assert (Hf : In first kept).
  { apply (Permutation_in _ Hperm). now left. }
  unfold kept in Hf. apply filter_In in Hf. destruct Hf as [Hf Hfr].
  assert (Hlow : JS.plus (distance first) || is_nan (distance first) = true).
  { apply in_map_iff in Hf. destruct Hf as [x [<- _]]. simpl.
    now apply calculateDistance_plus. }
  assert (Hup : (distance first <=? 0) = true).
  { destruct Hnear as [->|Hrest]; [reflexivity|].
    inversion Hsorted as [|? ? _ Hall]; subst.
    rewrite Forall_forall in Hall. exact (Hall _ Hrest). }
  now apply plus_leb_zero.
Qed.

(** X22. Once the geolocation request has settled, in whichever way, a
    location is stored: the position reported, or Tokyo Station when the
    request failed or the browser has no geolocation. From then on the list
    carries distances; when the stored location is a point of the globe, a
    fetched shop standing at it is listed, at distance 0, for any radius
    that is not negative, and the first entry of the list is then at
    distance 0. *)
Theorem geolocation_settles
        (M : JS.Math.t) (outcome : GeolocationOutcome) (shops : list Shop.t)
        (searchRadius : float) :
  JS.Math.ecma262 M -> JS.Math.in_range M ->
  exists loc near,
    setUserLocation outcome = Some loc
    /\ loc = match outcome with
             | PositionReported latitude longitude =>
                 {| Location.lat := latitude; Location.lng := longitude |}
             | PositionFailed | GeolocationMissing =>
                 {| Location.lat := 35.6812; Location.lng := 139.7671 |}
             end
    /\ nearbyShops M shops (setUserLocation outcome) searchRadius = inr near
    /\ forall s,
         (abs (Location.lat loc) <=? 90) = true ->
         (abs (Location.lng loc) <=? 180) = true ->
         In s shops ->
         Shop.lat s = Location.lat loc -> Shop.lng s = Location.lng loc ->
         (0 <=? searchRadius) = true ->
         In {| shop := s; distance := 0 |} near
         /\ exists first rest,
              near = first :: rest /\ distance first = 0.
Proof.
  intros E R.
  destruct outcome as [la lo| |]; simpl;
    eexists; eexists; (split; [reflexivity|]); (split; [reflexivity|]);
    (split; [reflexivity|]); intros s Hlat' Hlng' Hin Hlat Hlng Hr;
    now apply nearbyShops_own_position.
Qed.

End Geolocation.

(** X22 when the request fails, with the two shops of Tokyo Station and a
    radius of 10 km: the station is stored and the first shop is listed at
    distance 0. *)
Lemma geolocation_settles_witness :
  exists near,
    ShopsTab.nearbyShops Samples.engine Listings.stationShops
      (ShopsTab.setUserLocation ShopsTab.PositionFailed) 10 = inr near
    /\ In {| ShopsTab.shop := Listings.shopAt "s1" "Crypto Cafe" 35.6812 139.7671;
             ShopsTab.distance := 0 |} near.
Proof.
  destruct (geolocation_settles Samples.engine ShopsTab.PositionFailed
              Listings.stationShops 10 sample_ecma262 sample_in_range)
    as (loc & near & Hloc & -> & Hnear & Hown).
  exists near. split; [exact Hnear|].
  exact (proj1 (Hown (Listings.shopAt "s1" "Crypto Cafe" 35.6812 139.7671)
                  eq_refl eq_refl (or_introl eq_refl) eq_refl eq_refl eq_refl)).
Defined.

(** ** Edits of the draft *)

(** X23. Edits of the draft are independent. In both forms, typing into a
    field twice keeps the last value only; typing into two different fields
    gives the same draft in either order; typing commutes with ticking a
    box and, in the shop form, with moving the pin; ticks in the two
    check-box groups commute; of two pin moves only the last counts. *)
Theorem draft_edits_independent :
  (forall nm v1 v2 (fd : ShopRegistrationForm.ShopFormData.t),
      ShopRegistrationForm.handleInputChange nm v2
        (ShopRegistrationForm.handleInputChange nm v1 fd)
      = ShopRegistrationForm.handleInputChange nm v2 fd)
  /\ (forall nm1 nm2 v1 v2 (fd : ShopRegistrationForm.ShopFormData.t),
         nm1 <> nm2 ->
         ShopRegistrationForm.handleInputChange nm1 v1
           (ShopRegistrationForm.handleInputChange nm2 v2 fd)
         = ShopRegistrationForm.handleInputChange nm2 v2
             (ShopRegistrationForm.handleInputChange nm1 v1 fd))
  /\ (forall nm v field value (fd : ShopRegistrationForm.ShopFormData.t),
         ShopRegistrationForm.handleInputChange nm v
           (ShopRegistrationForm.handleCheckboxChange field value fd)
         = ShopRegistrationForm.handleCheckboxChange field value
             (ShopRegistrationForm.handleInputChange nm v fd))
  /\ (forall nm v la lo (fd : ShopRegistrationForm.ShopFormData.t),
         ShopRegistrationForm.handleInputChange nm v
           (ShopRegistrationForm.handleMapClick la lo fd)
         = ShopRegistrationForm.handleMapClick la lo
             (ShopRegistrationForm.handleInputChange nm v fd))
  /\ (forall field value la lo (fd : ShopRegistrationForm.ShopFormData.t),
         ShopRegistrationForm.handleCheckboxChange field value
           (ShopRegistrationForm.handleMapClick la lo fd)
         = ShopRegistrationForm.handleMapClick la lo
             (ShopRegistrationForm.handleCheckboxChange field value fd))
  /\ (forall v1 v2 (fd : ShopRegistrationForm.ShopFormData.t),
         ShopRegistrationForm.handleCheckboxChange
           ShopRegistrationForm.f_jpycUseCases v1
           (ShopRegistrationForm.handleCheckboxChange
              ShopRegistrationForm.f_networks v2 fd)
         = ShopRegistrationForm.handleCheckboxChange
             ShopRegistrationForm.f_networks v2
             (ShopRegistrationForm.handleCheckboxChange
                ShopRegistrationForm.f_jpycUseCases v1 fd))
  /\ (forall la lo la' lo' (fd : ShopRegistrationForm.ShopFormData.t),
         ShopRegistrationForm.handleMapClick la' lo'
           (ShopRegistrationForm.handleMapClick la lo fd)
         = ShopRegistrationForm.handleMapClick la' lo' fd)
  /\ (forall nm v1 v2 (fd : OnlineMerchantRegistrationForm.MerchantFormData.t),
         OnlineMerchantRegistrationForm.handleInputChange nm v2
           (OnlineMerchantRegistrationForm.handleInputChange nm v1 fd)
         = OnlineMerchantRegistrationForm.handleInputChange nm v2 fd)
  /\ (forall nm1 nm2 v1 v2 (fd : OnlineMerchantRegistrationForm.MerchantFormData.t),
         nm1 <> nm2 ->
         OnlineMerchantRegistrationForm.handleInputChange nm1 v1
           (OnlineMerchantRegistrationForm.handleInputChange nm2 v2 fd)
         = OnlineMerchantRegistrationForm.handleInputChange nm2 v2
             (OnlineMerchantRegistrationForm.handleInputChange nm1 v1 fd))
  /\ (forall nm v field value (fd : OnlineMerchantRegistrationForm.MerchantFormData.t),
         OnlineMerchantRegistrationForm.handleInputChange nm v
           (OnlineMerchantRegistrationForm.handleCheckboxChange field value fd)
         = OnlineMerchantRegistrationForm.handleCheckboxChange field value
             (OnlineMerchantRegistrationForm.handleInputChange nm v fd))
  /\ (forall v1 v2 (fd : OnlineMerchantRegistrationForm.MerchantFormData.t),
         OnlineMerchantRegistrationForm.handleCheckboxChange
           OnlineMerchantRegistrationForm.f_platforms v1
           (OnlineMerchantRegistrationForm.handleCheckboxChange
              OnlineMerchantRegistrationForm.f_tags v2 fd)
         = OnlineMerchantRegistrationForm.handleCheckboxChange
             OnlineMerchantRegistrationForm.f_tags v2
             (OnlineMerchantRegistrationForm.handleCheckboxChange
                OnlineMerchantRegistrationForm.f_platforms v1 fd)).
Proof.
  repeat match goal with |- _ /\ _ => split end.
  - intros nm v1 v2 fd. destruct nm; reflexivity.
  - intros nm1 nm2 v1 v2 fd H. destruct nm1, nm2; first [reflexivity | congruence].
  - intros nm v field value fd. destruct nm, field; reflexivity.
  - intros nm v la lo fd. destruct nm; reflexivity.
  - intros field value la lo fd. destruct field; reflexivity.
  - intros v1 v2 fd. reflexivity.
  - intros la lo la' lo' fd. reflexivity.
  - intros nm v1 v2 fd. destruct nm; reflexivity.
  - intros nm1 nm2 v1 v2 fd H. destruct nm1, nm2; first [reflexivity | congruence].
  - intros nm v field value fd. destruct nm, field; reflexivity.
  - intros v1 v2 fd. reflexivity.
Qed.

(** ** The further properties at sample inputs *)

Ltac shop_session es :=
  apply (shop_fires_reachable es ShopRegistrationForm.initialWorld);
  [apply ShopRegistrationForm.reach_init | vm_compute; reflexivity].

Ltac merchant_session es :=
  apply (merchant_fires_reachable es OnlineMerchantRegistrationForm.initialWorld);
  [apply OnlineMerchantRegistrationForm.reach_init | vm_compute; reflexivity].

(** X9 at the initial shop form: the next button stays on step 1 and asks
    for the name. *)
Lemma nextStep_gate_witness :
  ShopRegistrationForm.nextStep ShopRegistrationForm.initialState
  = setError (Some "店舗名を入力してください") ShopRegistrationForm.initialState.
Proof.
  pose proof (proj1 nextStep_gate ShopRegistrationForm.initialState) as H.
  cbv zeta in H.
  exact (proj2 (proj2 (proj2 (proj2 H))) eq_refl eq_refl).
Defined.

(** X10 at the shop wizard filled in up to the confirmation step. *)
Lemma wizard_draft_valid_witness :
  exists w,
    ShopRegistrationForm.fires Listings.shopToConfirm
      ShopRegistrationForm.initialWorld = Some w
    /\ step (ShopRegistrationForm.view w) = 3%Z
    /\ fst (ShopRegistrationForm.validateStep1 (ShopRegistrationForm.view w)) = true
    /\ fst (ShopRegistrationForm.validateStep2 (ShopRegistrationForm.view w)) = true.
Proof.
  eexists. split; [vm_compute; reflexivity|].
  match goal with
  | |- step (ShopRegistrationForm.view ?w) = _ /\ _ =>
      assert (Hw : ShopRegistrationForm.reachable w)
        by shop_session Listings.shopToConfirm;
      pose proof (proj1 wizard_draft_valid w Hw) as H
  end.
  cbv zeta in H. destruct H as [H1 H2].
  split; [reflexivity|]. split.
  - apply H1. intros H. discriminate H.
  - apply H2. reflexivity.
Defined.

(** X11 at the shop wizard filled in, submitted and accepted. *)
Lemma shop_inserted_rows_witness :
  exists w,
    ShopRegistrationForm.fires Listings.shopSubmitted
      ShopRegistrationForm.initialWorld = Some w
    /\ List.length (ShopRegistrationForm.inserts w) = 1%nat
    /\ Forall (fun row => ShopRegistrationForm.Row.name row <> ""
                          /\ ShopRegistrationForm.Row.status row = "pending")
              (ShopRegistrationForm.inserts w).
Proof.
  eexists. split; [vm_compute; reflexivity|]. split; [reflexivity|].
  eapply Forall_impl;
    [|apply shop_inserted_rows; shop_session Listings.shopSubmitted].
  intros row (N & _ & _ & _ & S & _). split; assumption.
Defined.

(** X12 at the merchant wizard filled in, submitted and accepted. *)
Lemma merchant_inserted_rows_witness :
  exists w,
    OnlineMerchantRegistrationForm.fires Listings.merchantSubmitted
      OnlineMerchantRegistrationForm.initialWorld = Some w
    /\ List.length (OnlineMerchantRegistrationForm.inserts w) = 1%nat
    /\ Forall (fun row =>
                 OnlineMerchantRegistrationForm.Row.name row <> ""
                 /\ OnlineMerchantRegistrationForm.Row.status row = "pending")
              (OnlineMerchantRegistrationForm.inserts w).
Proof.
  eexists. split; [vm_compute; reflexivity|]. split; [reflexivity|].
  eapply Forall_impl;
    [|apply merchant_inserted_rows; merchant_session Listings.merchantSubmitted].
  intros row (N & _ & _ & _ & S & _). split; assumption.
Defined.

(** X13 at the confirmation step of the shop wizard: back and next again
    give the very state. *)
Lemma wizard_back_then_next_witness :
  exists w,
    ShopRegistrationForm.fires Listings.shopToConfirm
      ShopRegistrationForm.initialWorld = Some w
    /\ ShopRegistrationForm.offered w ShopRegistrationForm.ClickBack = true
    /\ ShopRegistrationForm.fire ShopRegistrationForm.ClickNext
         (ShopRegistrationForm.fire ShopRegistrationForm.ClickBack w) = w.
Proof.
  eexists. split; [vm_compute; reflexivity|]. split; [reflexivity|].
  match goal with
  | |- _ = ?w =>
      assert (Hw : ShopRegistrationForm.reachable w)
        by shop_session Listings.shopToConfirm;
      rewrite (proj2 (proj1 wizard_back_then_next w Hw eq_refl))
  end.
  reflexivity.
Defined.

(** X14 while the insert of the shop wizard is awaited: pressing submit
    again is not offered. *)
Lemma wizard_single_flight_witness :
  exists w,
    ShopRegistrationForm.fires
      (Listings.shopToConfirm
       ++ [ShopRegistrationForm.ClickSubmit
             (Some Samples.user1) (Some (fun _ => Resolved None))])%list
      ShopRegistrationForm.initialWorld = Some w
    /\ ShopRegistrationForm.awaiting w = true
    /\ ShopRegistrationForm.offered w
         (ShopRegistrationForm.ClickSubmit (Some Samples.user1) None) = false.
Proof.
  eexists. split; [vm_compute; reflexivity|]. split; [reflexivity|].
  match goal with
  | |- ShopRegistrationForm.offered ?w _ = _ =>
      assert (Hw : ShopRegistrationForm.reachable w)
        by shop_session
             (Listings.shopToConfirm
              ++ [ShopRegistrationForm.ClickSubmit
                    (Some Samples.user1) (Some (fun _ => Resolved None))])%list;
      exact (proj1 (proj2 (proj1 wizard_single_flight w Hw)) eq_refl _ _)
  end.
Defined.

(** X15 on the success screen of the shop wizard. *)
Lemma wizard_reset_initial_witness :
  exists w,
    ShopRegistrationForm.fires Listings.shopSubmitted
      ShopRegistrationForm.initialWorld = Some w
    /\ ShopRegistrationForm.offered w ShopRegistrationForm.ClickReset = true
    /\ ShopRegistrationForm.view
         (ShopRegistrationForm.fire ShopRegistrationForm.ClickReset w)
       = ShopRegistrationForm.initialState.
Proof.
  eexists. split; [vm_compute; reflexivity|]. split; [reflexivity|].
  match goal with
  | |- ShopRegistrationForm.view (ShopRegistrationForm.fire _ ?w) = _ =>
      assert (Hw : ShopRegistrationForm.reachable w)
        by shop_session Listings.shopSubmitted;
      pose proof (proj1 wizard_reset_initial w Hw eq_refl) as H
  end.
  cbv zeta in H. exact (proj1 H).
Defined.

(** X16 on the success screen of the merchant wizard. *)
Lemma wizard_submitted_terminal_witness :
  exists w,
    OnlineMerchantRegistrationForm.fires Listings.merchantSubmitted
      OnlineMerchantRegistrationForm.initialWorld = Some w
    /\ submitted (OnlineMerchantRegistrationForm.view w) = true
    /\ OnlineMerchantRegistrationForm.inserts w <> []
    /\ OnlineMerchantRegistrationForm.awaiting w = false.
Proof.
  eexists. split; [vm_compute; reflexivity|]. split; [reflexivity|].
  match goal with
  | |- OnlineMerchantRegistrationForm.inserts ?w <> _ /\ _ =>
      assert (Hw : OnlineMerchantRegistrationForm.reachable w)
        by merchant_session Listings.merchantSubmitted;
      pose proof (proj2 wizard_submitted_terminal w Hw eq_refl) as H
  end.
  split; [exact (proj1 (proj2 H)) | exact (proj1 (proj2 (proj2 H)))].
Defined.

(** X18 at the confirmation step of the merchant wizard. *)
Lemma wizard_choices_witness :
  exists w,
    OnlineMerchantRegistrationForm.fires Listings.merchantToConfirm
      OnlineMerchantRegistrationForm.initialWorld = Some w
    /\ OnlineMerchantRegistrationForm.MerchantFormData.platforms
         (formData (OnlineMerchantRegistrationForm.view w)) = ["その他"]
    /\ incl (OnlineMerchantRegistrationForm.MerchantFormData.platforms
               (formData (OnlineMerchantRegistrationForm.view w)))
            OnlineMerchantRegistrationForm.PLATFORMS.
Proof.
  eexists. split; [vm_compute; reflexivity|]. split; [reflexivity|].
  match goal with
  | |- incl (_ (formData (OnlineMerchantRegistrationForm.view ?w))) _ =>
      assert (Hw : OnlineMerchantRegistrationForm.reachable w)
        by merchant_session Listings.merchantToConfirm;
      pose proof (proj2 wizard_choices w Hw) as H
  end.
  cbv zeta in H. exact (proj1 (proj2 (proj2 (proj2 H)))).
Defined.

(** X19 at scenario B with a blank free text. *)
Lemma merchant_sentinel_only_platform_witness :
  fst (OnlineMerchantRegistrationForm.validateStep2
         (Samples.atConfirm (Samples.scenarioB "  ") true)) = true
  /\ exists row,
       snd (OnlineMerchantRegistrationForm.handleSubmit
              (Some Samples.user1) (Some (fun _ => Resolved None))
              (Samples.atConfirm (Samples.scenarioB "  ") true)) = [row]
       /\ OnlineMerchantRegistrationForm.Row.platforms row = [].
Proof.
  destruct (merchant_sentinel_only_platform
              (Samples.atConfirm (Samples.scenarioB "  ") true)
              Samples.user1 (fun _ => Resolved None)
              eq_refl eq_refl)
    as (Hv & _ & _ & Hrow).
  split.
  - apply Hv. reflexivity.
  - exact (Hrow eq_refl).
Defined.

(** X20 at scenario B with the free text " nft ": the tag added is "nft",
    and removing it gives the draft back, the free text cleared. *)
Lemma merchant_custom_tags_witness :
  OnlineMerchantRegistrationForm.removeTag "nft"
    (OnlineMerchantRegistrationForm.addCustomTag
       (OnlineMerchantRegistrationForm.handleInputChange
          OnlineMerchantRegistrationForm.n_customTag " nft "
          (Samples.scenarioB "")))
  = OnlineMerchantRegistrationForm.handleInputChange
      OnlineMerchantRegistrationForm.n_customTag ""
      (OnlineMerchantRegistrationForm.handleInputChange
         OnlineMerchantRegistrationForm.n_customTag " nft "
         (Samples.scenarioB "")).
Proof.
  pose proof (merchant_custom_tags
                (OnlineMerchantRegistrationForm.handleInputChange
                   OnlineMerchantRegistrationForm.n_customTag " nft "
                   (Samples.scenarioB ""))) as H.
  cbv zeta in H.
  apply (proj2 (proj2 (proj2 (proj2 (proj2 H))))).
  - intros E. discriminate E.
  - intros [].
Defined.

(** X21 at scenario A: ticking "Ethereum" and unticking it. *)
Lemma checkbox_toggle_witness :
  ShopRegistrationForm.handleCheckboxChange ShopRegistrationForm.f_networks "Ethereum"
    (ShopRegistrationForm.handleCheckboxChange
       ShopRegistrationForm.f_networks "Ethereum" Samples.scenarioA)
  = Samples.scenarioA.
Proof.
  apply (proj1 (proj2 checkbox_toggle)).
  intros [H|[]]. discriminate H.
Defined.

(** X23 at scenario A: name and address typed in either order. *)
Lemma draft_edits_independent_witness :
  ShopRegistrationForm.handleInputChange ShopRegistrationForm.n_name "Coin Bar"
    (ShopRegistrationForm.handleInputChange
       ShopRegistrationForm.n_address "Osaka" Samples.scenarioA)
  = ShopRegistrationForm.handleInputChange ShopRegistrationForm.n_address "Osaka"
      (ShopRegistrationForm.handleInputChange
         ShopRegistrationForm.n_name "Coin Bar" Samples.scenarioA).
Proof.
  apply (proj1 (proj2 draft_edits_independent)).
  intros E. discriminate E.
Defined.

(** ** The confirmation pane and the row sent *)

(** The list the pane shows, its items trimmed and the empty ones dropped,
    against the list the row gets, for any list of options that are trimmed
    and not empty. *)
Lemma shown_row_perm (l : list string) (o : string) :
  NoDup l ->
  (forall n, In n l -> n <> sonota -> JS.trim n = n /\ JS.truthy n = true) ->
  Permutation
    (filter (fun n => negb (String.eqb n sonota)) l
     ++ (if JS.includes l sonota && JS.truthy (JS.trim o)
         then [JS.trim o] else []))%list
    (filter JS.truthy
       (map JS.trim
          (filter JS.truthy
             (map (fun n => if String.eqb n sonota then o else n) l)))).
Proof.
  induction l as [|x l IH]; intros Hd Hopt; [constructor|].
  inversion Hd as [|? ? Hx Hd']; subst.
  assert (IH' := IH Hd' (fun n Hn => Hopt n (or_intror Hn))). clear IH.
  simpl. destruct (String.eqb_spec x sonota) as [->|Hne]; simpl.
  - assert (Hno : JS.includes l sonota = false).
    { destruct (JS.includes l sonota) eqn:E; [|reflexivity].
      apply includes_true_iff in E. contradiction. }
    rewrite Hno in IH'. simpl in IH'. rewrite app_nil_r in IH'.
    destruct (JS.truthy o) eqn:To; simpl.
    + destruct (JS.truthy (JS.trim o)) eqn:Tt; simpl.
      * apply Permutation_sym. eapply perm_trans;
          [apply perm_skip, Permutation_sym, IH' | apply Permutation_cons_append].
      * now rewrite app_nil_r.
    + apply truthy_false in To. subst o.
      change (JS.trim "") with "". simpl. now rewrite app_nil_r.
  - destruct (Hopt x (or_introl eq_refl) Hne) as [Htrim Htruthy].
    rewrite Htruthy. simpl. rewrite Htrim, Htruthy. now apply perm_skip.
Qed.

(** Trimming changes nothing on a list of trimmed, non-empty items. *)
Lemma shown_trimmed (l : list string) :
  Forall (fun x => JS.trim x = x) l ->
  filter JS.truthy (map JS.trim (filter JS.truthy l)) = filter JS.truthy l.
Proof.
  induction 1 as [|x l Hx Hl IH]; [reflexivity|]. simpl.
  destruct (JS.truthy x) eqn:T; simpl; [|exact IH].
  now rewrite Hx, T, IH.
Qed.

Lemma shop_network_options (n : string) :
  In n ShopRegistrationForm.NETWORKS -> n <> sonota ->
  JS.trim n = n /\ JS.truthy n = true.
Proof.
  intros H Hne. simpl in H.
  repeat (destruct H as [<-|H]; [first [now contradiction Hne | split; vm_compute; reflexivity]|]).
  contradiction.
Qed.

Lemma merchant_platform_options (p : string) :
  In p OnlineMerchantRegistrationForm.PLATFORMS -> p <> sonota ->
  JS.trim p = p /\ JS.truthy p = true.
Proof.
  intros H Hne. simpl in H.
  repeat (destruct H as [<-|H]; [first [now contradiction Hne | split; vm_compute; reflexivity]|]).
  contradiction.
Qed.

Lemma merchant_use_case_options (c : string) :
  c = "" \/ In c OnlineMerchantRegistrationForm.JPYC_USE_CASES -> JS.trim c = c.
Proof.
  intros [->|H]; [reflexivity|]. simpl in H.
  repeat (destruct H as [<-|H]; [vm_compute; reflexivity|]).
  contradiction.
Qed.

(** X24. Of what the confirmation pane shows, the shop's networks and the
    merchant's platforms and use case are what is sent, up to blanks. In
    every reachable state of the shop wizard the networks of the row are,
    up to order, the networks shown on the pane, trimmed, without the ones
    that are blank; when the free text is stored trimmed they are the
    networks shown. The same holds for the merchant's platforms, and the
    merchant's use case sent is the use case shown, trimmed. The use cases,
    the Twitter account and the note of the shop, which its pane shows as
    well, are not sent: whatever they hold, the row is the same. *)
Theorem confirmation_matches_row :
  (forall (w : ShopRegistrationForm.World) (u : User.t),
      ShopRegistrationForm.reachable w ->
      let fd := formData (ShopRegistrationForm.view w) in
      let row := ShopRegistrationForm.insertRow fd u in
      Permutation (ShopRegistrationForm.Row.jpyc_networks row)
        (filter JS.truthy (map JS.trim (ShopRegistrationForm.networksShown fd)))
      /\ (JS.trim (ShopRegistrationForm.ShopFormData.networkOther fd)
          = ShopRegistrationForm.ShopFormData.networkOther fd ->
          Permutation (ShopRegistrationForm.Row.jpyc_networks row)
            (ShopRegistrationForm.networksShown fd)))
  /\
  (forall (w : OnlineMerchantRegistrationForm.World) (u : User.t),
      OnlineMerchantRegistrationForm.reachable w ->
      let fd := formData (OnlineMerchantRegistrationForm.view w) in
      let row := OnlineMerchantRegistrationForm.insertRow fd u in
      Permutation (OnlineMerchantRegistrationForm.Row.platforms row)
        (filter JS.truthy
           (map JS.trim (OnlineMerchantRegistrationForm.platformsShown fd)))
      /\ (JS.trim (OnlineMerchantRegistrationForm.MerchantFormData.platformOther fd)
          = OnlineMerchantRegistrationForm.MerchantFormData.platformOther fd ->
          Permutation (OnlineMerchantRegistrationForm.Row.platforms row)
            (OnlineMerchantRegistrationForm.platformsShown fd))
      /\ OnlineMerchantRegistrationForm.Row.jpyc_use_case row
         = JS.trim (OnlineMerchantRegistrationForm.jpycUseCaseShown fd))
  /\
  (forall (fd : ShopRegistrationForm.ShopFormData.t) (u : User.t)
          (useCases : list string) (useCaseOther twitter note : string),
      let fd' :=
        {| ShopRegistrationForm.ShopFormData.name :=
             ShopRegistrationForm.ShopFormData.name fd;
           ShopRegistrationForm.ShopFormData.address :=
             ShopRegistrationForm.ShopFormData.address fd;
           ShopRegistrationForm.ShopFormData.category :=
             ShopRegistrationForm.ShopFormData.category fd;
           ShopRegistrationForm.ShopFormData.lat :=
             ShopRegistrationForm.ShopFormData.lat fd;
           ShopRegistrationForm.ShopFormData.lng :=
             ShopRegistrationForm.ShopFormData.lng fd;
           ShopRegistrationForm.ShopFormData.jpycUseCases := useCases;
           ShopRegistrationForm.ShopFormData.jpycUseCaseOther := useCaseOther;
           ShopRegistrationForm.ShopFormData.networks :=
             ShopRegistrationForm.ShopFormData.networks fd;
           ShopRegistrationForm.ShopFormData.networkOther :=
             ShopRegistrationForm.ShopFormData.networkOther fd;
           ShopRegistrationForm.ShopFormData.paymentMethod :=
             ShopRegistrationForm.ShopFormData.paymentMethod fd;
           ShopRegistrationForm.ShopFormData.url :=
             ShopRegistrationForm.ShopFormData.url fd;
           ShopRegistrationForm.ShopFormData.twitter := twitter;
           ShopRegistrationForm.ShopFormData.note := note |} in
      ShopRegistrationForm.jpycUseCasesShown fd'
      = filter JS.truthy (useCases ++ [useCaseOther])%list
      /\ ShopRegistrationForm.twitterShown fd' = JS.orNull twitter
      /\ ShopRegistrationForm.noteShown fd' = JS.orNull note
      /\ ShopRegistrationForm.insertRow fd' u
         = ShopRegistrationForm.insertRow fd u).
Proof.
  split; [|split];
    [intros w u Hw fd row; subst row fd
    |intros w u Hw fd row; subst row fd
    |intros fd u useCases useCaseOther twitter note fd'; subst fd'].
  - destruct (shop_choices w Hw) as (_ & _ & _ & _ & Hd & Hin).
    assert (Hopt : forall n,
               In n (ShopRegistrationForm.ShopFormData.networks
                       (formData (ShopRegistrationForm.view w))) ->
               n <> sonota -> JS.trim n = n /\ JS.truthy n = true).
    { intros n Hn. apply shop_network_options. now apply Hin. }
    assert (Hperm := shown_row_perm _
                       (ShopRegistrationForm.ShopFormData.networkOther
                          (formData (ShopRegistrationForm.view w))) Hd Hopt).
    rewrite shop_row_networks. split; [exact Hperm|].
    intros Ht. eapply perm_trans; [exact Hperm|].
    unfold ShopRegistrationForm.networksShown.
    rewrite shown_trimmed; [apply Permutation_refl|].
    rewrite Forall_forall. intros x Hx. apply in_map_iff in Hx.
    destruct Hx as [n [<- Hn]].
    destruct (String.eqb_spec n sonota) as [->|Hne]; [exact Ht|].
    now apply Hopt.
  - destruct (merchant_choices w Hw) as (_ & Huc & Hd & Hin & _).
    assert (Hopt : forall p,
               In p (OnlineMerchantRegistrationForm.MerchantFormData.platforms
                       (formData (OnlineMerchantRegistrationForm.view w))) ->
               p <> sonota -> JS.trim p = p /\ JS.truthy p = true).
    { intros p Hp. apply merchant_platform_options. now apply Hin. }
    assert (Hperm := shown_row_perm _
                       (OnlineMerchantRegistrationForm.MerchantFormData.platformOther
                          (formData (OnlineMerchantRegistrationForm.view w))) Hd Hopt).
    rewrite merchant_row_platforms. split; [exact Hperm|]. split.
    + intros Ht. eapply perm_trans; [exact Hperm|].
      unfold OnlineMerchantRegistrationForm.platformsShown.
      rewrite shown_trimmed; [apply Permutation_refl|].
      rewrite Forall_forall. intros x Hx. apply in_map_iff in Hx.
      destruct Hx as [p [<- Hp]].
      destruct (String.eqb_spec p sonota) as [->|Hne]; [exact Ht|].
      now apply Hopt.
    + unfold OnlineMerchantRegistrationForm.jpycUseCaseShown. simpl.
      destruct (String.eqb _ sonota); [reflexivity|].
      symmetry. now apply merchant_use_case_options.
  - repeat split.
Qed.

(** X24 at the merchant wizard at its confirmation step, with the free text
    "Discord Bot" shown and sent. *)
Lemma confirmation_matches_row_witness :
  exists w,
    OnlineMerchantRegistrationForm.fires Listings.merchantToConfirm
      OnlineMerchantRegistrationForm.initialWorld = Some w
    /\ OnlineMerchantRegistrationForm.platformsShown
         (formData (OnlineMerchantRegistrationForm.view w)) = ["Discord Bot"]
    /\ Permutation
         (OnlineMerchantRegistrationForm.Row.platforms
            (OnlineMerchantRegistrationForm.insertRow
               (formData (OnlineMerchantRegistrationForm.view w)) Samples.user1))
         (OnlineMerchantRegistrationForm.platformsShown
            (formData (OnlineMerchantRegistrationForm.view w))).
Proof.
  eexists. split; [vm_compute; reflexivity|]. split; [reflexivity|].
  match goal with
  | |- Permutation _ (_ (formData (OnlineMerchantRegistrationForm.view ?w))) =>
      assert (Hw : OnlineMerchantRegistrationForm.reachable w)
        by merchant_session Listings.merchantToConfirm;
      pose proof (proj1 (proj2 confirmation_matches_row) w Samples.user1 Hw) as H
  end.
  cbv zeta in H. apply (proj1 (proj2 H)). reflexivity.
Defined.
